(** * Verification of the deterministic decision core of mizan-agentic

    Shallow embedding of [app/response_utils.py], [app/gates/gate2_valuation.py],
    [app/gates/gate5_position_sizing.py], [app/gates/gate6_final_verdict.py] and the
    deterministic part of [app/orchestrator.py].

    Python floats are modelled as exact rationals [Q]; every other value the
    gates exchange is a [pyval] (the JSON-like values of the envelopes).  A
    Python dict is an association list in insertion order; [dict.get] returns
    the first binding of the key. *)

From Stdlib Require Import String Ascii List Bool ZArith QArith Qround Qabs Lia Lqa.
Import ListNotations.
Open Scope string_scope.
Open Scope Z_scope.

(* ------------------------------------------------------------------------- *)
(** ** Python values *)

#[local] Set Warnings "-register-all".

Inductive pyval : Type :=
| VNone
| VBool (b : bool)
| VInt (z : Z)
| VFloat (q : Q)
| VStr (s : string)
| VList (l : list pyval)
| VDict (d : list (string * pyval)).

Definition dict := list (string * pyval).

(** [d.get(k)] *)
Fixpoint dict_get (d : dict) (k : string) : option pyval :=
  match d with
  | [] => None
  | (k', v) :: d' => if String.eqb k k' then Some v else dict_get d' k
  end.

(** [d.get(k, default)] *)
Definition get (d : dict) (k : string) (default : pyval) : pyval :=
  match dict_get d k with Some v => v | None => default end.

(** Reading a field of a value that is expected to be a dict. *)
Definition field (v : pyval) (k : string) : option pyval :=
  match v with VDict d => dict_get d k | _ => None end.

(** [bool(x)] *)
Definition truthy (v : pyval) : bool :=
  match v with
  | VNone => false
  | VBool b => b
  | VInt z => negb (z =? 0)
  | VFloat q => negb (Qeq_bool q 0)
  | VStr s => negb (String.eqb s "")
  | VList l => match l with [] => false | _ => true end
  | VDict d => match d with [] => false | _ => true end
  end.

Definition is_none (v : pyval) : bool :=
  match v with VNone => true | _ => false end.

(** [isinstance(x, (int, float))]: [bool] is a subclass of [int]. *)
Definition is_number (v : pyval) : bool :=
  match v with VBool _ | VInt _ | VFloat _ => true | _ => false end.

(* ------------------------------------------------------------------------- *)
(** ** Strings *)

Definition ascii_upper (c : ascii) : ascii :=
  let n := nat_of_ascii c in
  if andb (Nat.leb 97 n) (Nat.leb n 122) then ascii_of_nat (n - 32) else c.

Definition ascii_lower (c : ascii) : ascii :=
  let n := nat_of_ascii c in
  if andb (Nat.leb 65 n) (Nat.leb n 90) then ascii_of_nat (n + 32) else c.

Fixpoint str_map (f : ascii -> ascii) (s : string) : string :=
  match s with
  | EmptyString => EmptyString
  | String c s' => String (f c) (str_map f s')
  end.

(** [s.upper()] and [s.lower()] on ASCII letters. *)
Definition upper (s : string) : string := str_map ascii_upper s.
Definition lower (s : string) : string := str_map ascii_lower s.

(** [sub in s] *)
Definition contains (sub s : string) : bool :=
  match String.index 0 sub s with Some _ => true | None => false end.

(** [sep.join(items)] *)
Fixpoint join (sep : string) (items : list string) : string :=
  match items with
  | [] => ""
  | [x] => x
  | x :: rest => (x ++ sep ++ join sep rest)%string
  end.

Definition digit_char (n : Z) : ascii := ascii_of_nat (48 + Z.to_nat n).

(** Decimal digits of a natural number, most significant first. *)
Fixpoint digits_aux (fuel : nat) (n : Z) (acc : string) : string :=
  match fuel with
  | O => acc
  | S f =>
      let acc' := String (digit_char (n mod 10)) acc in
      if n <? 10 then acc' else digits_aux f (n / 10) acc'
  end.

Definition nat_digits (n : Z) : string :=
  digits_aux (S (Z.to_nat (Z.log2_up (n + 1)))) n "".

(** [str(n)] for an int. *)
Definition z_to_string (z : Z) : string :=
  if z <? 0 then ("-" ++ nat_digits (- z))%string else nat_digits z.

Fixpoint zeros (n : nat) : string :=
  match n with O => "" | S m => String "0" (zeros m) end.

Definition pad_left (width : nat) (s : string) : string :=
  (zeros (width - String.length s) ++ s)%string.

(* ------------------------------------------------------------------------- *)
(** ** Rationals standing for Python floats *)

Open Scope Q_scope.

Definition Qltb (x y : Q) : bool := negb (Qle_bool y x).

(** [min(a, b)] and [max(a, b)]: Python returns the first argument unless the
    second is strictly smaller (resp. larger). *)
Definition py_min (a b : Q) : Q := if Qltb b a then b else a.
Definition py_max (a b : Q) : Q := if Qltb a b then b else a.

Definition pow10 (d : nat) : positive := Z.to_pos (10 ^ Z.of_nat d).

(** Nearest integer, ties to even (Python's rounding rule). *)
Definition round_half_even (y : Q) : Z :=
  let f := Qfloor y in
  let r := y - inject_Z f in
  if Qltb r (1 # 2) then f
  else if Qltb (1 # 2) r then (f + 1)%Z
  else if Z.even f then f else (f + 1)%Z.

(** [round_float(value, digits)] = [round(float(value), digits)]. *)
Definition round_float (v : Q) (digits : nat) : Q :=
  round_half_even (v * inject_Z (Zpos (pow10 digits))) # pow10 digits.

(** [f"{v:.Nf}"] (and [f"{v:+.Nf}"] when [plus] is set). *)
Definition fmt_fixed (plus : bool) (v : Q) (digits : nat) : string :=
  let n := round_half_even (v * inject_Z (Zpos (pow10 digits))) in
  let sign := if (n <? 0)%Z then "-" else if plus then "+" else "" in
  let a := Z.abs n in
  let p := Zpos (pow10 digits) in
  let ip := nat_digits (a / p) in
  match digits with
  | O => (sign ++ ip)%string
  | _ => (sign ++ ip ++ "." ++ pad_left digits (nat_digits (a mod p)))%string
  end.

(** [str(x)] for a float.  A value with a terminating decimal expansion (all
    values produced by [round_float]) is printed as its shortest decimal with
    at least one fractional digit, as Python's [repr] does below 1e16; other
    rationals are printed as numerator/denominator (Python's 17-digit repr is
    not modelled). *)
Fixpoint strip_zeros (fuel : nat) (n : Z) (k : nat) : Z * nat :=
  match fuel, k with
  | S f, S k' => if (n mod 10 =? 0)%Z then strip_zeros f (n / 10) k' else (n, k)
  | _, _ => (n, k)
  end.

Definition float_to_string (q : Q) : string :=
  let q' := Qred q in
  let d := Zpos (Qden q') in
  let k := Z.to_nat (Z.log2 d) in
  let p := Zpos (pow10 k) in
  if (p mod d =? 0)%Z then
    let n := (Qnum q' * (p / d))%Z in
    let '(m, k') := strip_zeros k n k in
    let sign := if (m <? 0)%Z then "-" else "" in
    let a := Z.abs m in
    let pk := Zpos (pow10 k') in
    match k' with
    | O => (sign ++ nat_digits a ++ ".0")%string
    | _ => (sign ++ nat_digits (a / pk) ++ "." ++ pad_left k' (nat_digits (a mod pk)))%string
    end
  else (z_to_string (Qnum q') ++ "/" ++ z_to_string d)%string.

(** [str(x)] *)
Definition py_str (v : pyval) : string :=
  match v with
  | VNone => "None"
  | VBool true => "True"
  | VBool false => "False"
  | VInt z => z_to_string z
  | VFloat q => float_to_string q
  | VStr s => s
  | VList _ => "[...]"
  | VDict _ => "{...}"
  end.

(** [float(x)] for the values an envelope can hold.  Strings are parsed as
    an optional sign, digits and an optional fractional part; the other
    spellings Python accepts (exponents, [inf], [nan], blanks, underscores)
    are not modelled and raise like any unparsable text. *)
Fixpoint parse_digits (s : string) (acc : Z) (scale : Z) (seen : bool) (frac : bool)
  : option (Z * Z * bool) :=
  match s with
  | EmptyString => Some (acc, scale, seen)
  | String c s' =>
      let n := Z.of_nat (nat_of_ascii c) in
      if andb (48 <=? n) (n <=? 57) then
        parse_digits s' (acc * 10 + (n - 48)) (if frac then scale * 10 else scale) true frac
      else if andb (n =? 46) (negb frac) then parse_digits s' acc scale seen true
      else None
  end.

Definition parse_float (s : string) : option Q :=
  let '(neg, body) :=
    match s with
    | String "-" b => (true, b)
    | String "+" b => (false, b)
    | _ => (false, s)
    end in
  match parse_digits body 0 1 false false with
  | Some (n, d, true) => Some ((if neg then - n else n)%Z # Z.to_pos d)
  | _ => None
  end.

(* ------------------------------------------------------------------------- *)
(** ** Exceptions and the logged state of a [try] block *)

(** The exceptions the modelled code can raise. *)
Inductive exc : Type :=
| TypeError
| ValueError
| AttributeError
| KeyError
| ZeroDivisionError.

(** A computation inside a [try] block: it either raises or returns, and it
    records the divisor of every division it performs, so that claims about
    which divisions are attempted can be stated. *)
Definition PyM (A : Type) : Type := list Q -> (exc + A) * list Q.

Definition ret {A} (a : A) : PyM A := fun log => (inr a, log).
Definition raise {A} (e : exc) : PyM A := fun log => (inl e, log).
Definition bind {A B} (m : PyM A) (k : A -> PyM B) : PyM B :=
  fun log => match m log with
          | (inl e, log') => (inl e, log')
          | (inr a, log') => k a log'
          end.

Notation "'let*' x ':=' m 'in' k" := (bind m (fun x => k))
  (at level 200, x name, m at level 100, k at level 200).

(** [str(error)]; the messages of [TypeError], [ValueError] and
    [AttributeError] depend on the offending value and are not modelled. *)
Definition exc_message (e : exc) : string :=
  match e with
  | TypeError => "TypeError"
  | ValueError => "ValueError"
  | AttributeError => "AttributeError"
  | KeyError => "KeyError"
  | ZeroDivisionError => "float division by zero"
  end.

(** [x / y] on floats. *)
Definition py_div (x y : Q) : PyM Q :=
  fun log => if Qeq_bool y 0 then (inl ZeroDivisionError, log ++ [y])%list
          else (inr (x / y), log ++ [y])%list.

(** Run a [try] body from an empty log. *)
Definition run_try {A} (m : PyM A) : (exc + A) * list Q := m [].

(** [float(x)] *)
Definition py_float (v : pyval) : PyM Q :=
  match v with
  | VBool b => ret (if b then 1 else 0)
  | VInt z => ret (inject_Z z)
  | VFloat q => ret q
  | VStr s => match parse_float s with Some q => ret q | None => raise ValueError end
  | _ => raise TypeError
  end.

(** [x.get(k, default)] where [x] must be a dict. *)
Definition py_get (x : pyval) (k : string) (default : pyval) : PyM pyval :=
  match x with
  | VDict d => ret (get d k default)
  | _ => raise AttributeError
  end.

(* ------------------------------------------------------------------------- *)
(** ** [app/response_utils.py] *)

Definition opt_str (o : option string) : pyval :=
  match o with Some s => VStr s | None => VNone end.

Definition str_list (l : list string) : pyval := VList (map VStr l).

(** [missing_inputs or []] *)
Definition or_empty (o : option (list string)) : list string :=
  match o with Some l => l | None => [] end.

Definition build_diagnostics (inputs_used : list string) (missing_inputs : list string)
  (binding_constraint : option string) : pyval :=
  VDict [("inputs_used", str_list inputs_used);
         ("missing_inputs", str_list missing_inputs);
         ("binding_constraint", opt_str binding_constraint)].

Definition clamp_confidence (c : Z) : Z := Z.max 0 (Z.min 100 c).

Definition ok_response (gate : string) (data : dict) (inputs_used : list string)
  (confidence : Z) (one_liner : string) (binding_constraint : option string)
  (missing_inputs : option (list string)) : pyval :=
  VDict [("status", VStr "OK");
         ("gate", VStr gate);
         ("data", VDict data);
         ("confidence", VInt (clamp_confidence confidence));
         ("one_liner", if String.eqb one_liner "" then get data "one_liner" (VStr "")
                       else VStr one_liner);
         ("diagnostics", build_diagnostics inputs_used (or_empty missing_inputs)
                           binding_constraint)].

Definition partial_response (gate : string) (data : dict) (inputs_used : list string)
  (missing_inputs : list string) (confidence : Z) (one_liner : string)
  (binding_constraint : option string) : pyval :=
  VDict [("status", VStr "PARTIAL");
         ("gate", VStr gate);
         ("data", VDict data);
         ("confidence", VInt (clamp_confidence confidence));
         ("one_liner", VStr one_liner);
         ("diagnostics", build_diagnostics inputs_used missing_inputs binding_constraint)].

(** The default [binding_constraint="DATA_AVAILABILITY"] is passed explicitly
    by the callers of this model. *)
Definition error_response (gate code message : string) (inputs_used : list string)
  (missing_inputs : option (list string)) (binding_constraint : option string) : pyval :=
  VDict [("status", VStr "ERROR");
         ("gate", VStr gate);
         ("data", VDict []);
         ("confidence", VInt 0);
         ("one_liner", VStr message);
         ("error", VDict [("code", VStr code); ("message", VStr message)]);
         ("diagnostics", build_diagnostics inputs_used (or_empty missing_inputs)
                           binding_constraint)].

Definition skipped_response (gate : string) (data : dict) (inputs_used : list string)
  (reason : string) (missing_inputs : option (list string))
  (binding_constraint : option string) : pyval :=
  VDict [("status", VStr "SKIPPED");
         ("gate", VStr gate);
         ("data", VDict data);
         ("confidence", VInt 0);
         ("one_liner", VStr reason);
         ("diagnostics", build_diagnostics inputs_used (or_empty missing_inputs)
                           binding_constraint)].

(** [missing_required_fields(values)]: keys whose value is [None]. *)
Definition missing_required_fields (values : list (string * pyval)) : list string :=
  map fst (filter (fun kv => is_none (snd kv)) values).

(** [round_float] on a value that is already a float. *)
Definition round_val (v : Q) (digits : nat) : pyval := VFloat (round_float v digits).

(** [format_decimal_with_percent_label(value)] *)
Definition format_decimal_with_percent_label (v : Q) : string :=
  (py_str (round_val v 4) ++ " (" ++ py_str (round_val (v * 100) 2) ++ "%)")%string.

(** [format_compact_number(value)] *)
Definition format_compact_number (v : Q) : string :=
  let a := Qabs v in
  if Qle_bool (1000000000 # 1) a then (py_str (round_val (v / (1000000000 # 1)) 2) ++ "B")%string
  else if Qle_bool (1000000 # 1) a then (py_str (round_val (v / (1000000 # 1)) 2) ++ "M")%string
  else if Qle_bool (1000 # 1) a then (py_str (round_val (v / (1000 # 1)) 2) ++ "k")%string
  else py_str (round_val v 2).

(** [compute_pipeline_confidence(gate_results)].  [None] stands for the
    [AttributeError] raised when a result, or a result's diagnostics, is not a
    dict. *)
Fixpoint find_gate_data (gate_results : list pyval) (prefix : string) : option dict :=
  match gate_results with
  | [] => Some []
  | VDict r :: rest =>
      let gate_name := lower (py_str (get r "gate" (VStr ""))) in
      if String.prefix prefix gate_name then
        match dict_get r "data" with
        | Some (VDict d) => Some d
        | _ => find_gate_data rest prefix
        end
      else find_gate_data rest prefix
  | _ :: _ => None
  end.

Fixpoint any_missing (gate_results : list pyval) : option bool :=
  match gate_results with
  | [] => Some false
  | VDict r :: rest =>
      match get r "diagnostics" (VDict []) with
      | VDict diag =>
          if truthy (get diag "missing_inputs" (VList [])) then Some true
          else any_missing rest
      | _ => None
      end
  | _ :: _ => None
  end.

(** [float(x) < -1.0] behind [isinstance(x, (int, float))]. *)
Definition number_below_minus_one (v : pyval) : bool :=
  match v with
  | VBool b => Qltb (if b then 1 else 0) (-1)
  | VInt z => Qltb (inject_Z z) (-1)
  | VFloat q => Qltb q (-1)
  | _ => false
  end.

Definition compute_pipeline_confidence (gate_results : list pyval) : option Z :=
  match gate_results with
  | [] => Some 0%Z
  | _ =>
      match find_gate_data gate_results "gate 2", find_gate_data gate_results "gate 3",
            find_gate_data gate_results "gate 4" with
      | Some gate2, Some gate3, Some gate4 =>
          let c0 := 50%Z in
          let mos := get gate2 "margin_of_safety" VNone in
          let c1 := if number_below_minus_one mos then (c0 + 20)%Z else c0 in
          let impairment_risk := upper (py_str (get gate4 "risk_level" (VStr ""))) in
          let c2 := if String.eqb impairment_risk "LOW" then (c1 + 10)%Z else c1 in
          let market_structure := upper (py_str (get gate3 "classification" (VStr ""))) in
          let c3 := if String.eqb market_structure "HEADWIND" then (c2 - 10)%Z else c2 in
          match any_missing gate_results with
          | None => None
          | Some key_data_missing =>
              let c4 := if key_data_missing then (c3 - 10)%Z else c3 in
              Some (clamp_confidence c4)
          end
      | _, _, _ => None
      end
  end.

(* ------------------------------------------------------------------------- *)
(** ** [app/gates/gate2_valuation.py] *)

Definition GATE2_NAME : string := "Gate 2 – Valuation".

(** [_valuation_band(margin_of_safety)] *)
Definition valuation_band (mos : Q) : string :=
  if Qle_bool (50 # 100) mos then "DEEP_VALUE"
  else if Qle_bool 0 mos then "FAIR"
  else "EXPENSIVE".

(** The owner-earnings step: [owner_earnings] and [owner_earnings_source]. *)
Definition owner_earnings_of (net_income : Q) (free_cashflow : option Q) : Q * string :=
  match free_cashflow with
  | None => (net_income, "NET_INCOME")
  | Some fcf =>
      (py_min net_income fcf, if Qle_bool net_income fcf then "NET_INCOME" else "FREE_CASH_FLOW")
  end.

Definition valuation_inputs_used : list string :=
  ["market_price"; "net_income"; "free_cashflow"; "total_debt"; "cash";
   "shares_outstanding"; "REQUIRED_MARGIN_OF_SAFETY"; "VALUATION_MULTIPLE";
   "valuation_policy(net_debt)"].

Definition opt_float (o : option Q) : pyval :=
  match o with Some q => VFloat q | None => VNone end.

(** The figures the deterministic core computes before the division by the
    share count, in the order of the source. *)
Record figures := mk_figures {
  fig_owner_earnings : Q;
  fig_owner_earnings_source : string;
  fig_net_debt : Q;
  fig_multiple_used : Q;
  fig_required_margin_used : Q;
  fig_effective_net_debt : Q;
  fig_intrinsic_equity : Q }.

Section Valuation.

(** [VALUATION_MULTIPLE] and [REQUIRED_MARGIN], read from the environment when
    the module is imported (defaults 10 and 0.30). *)
Variable VALUATION_MULTIPLE REQUIRED_MARGIN : Q.

(** [_run_valuation_supervisor(data)]: the LLM collaborator; it receives the
    finished data dict and its answer is stored under ["supervisor"]. *)
Variable run_valuation_supervisor : dict -> pyval.

(** [valuation_policy(net_debt)] *)
Definition valuation_policy (net_debt : Q) : Q * Q :=
  let multiple := VALUATION_MULTIPLE in
  let required_margin := REQUIRED_MARGIN in
  if Qle_bool net_debt 0
  then (multiple + 2, py_max (20 # 100) (required_margin - (5 # 100)))
  else (multiple, required_margin).

Definition valuation_figures (net_income : Q) (free_cashflow : option Q)
  (total_debt cash : Q) : figures :=
  let '(owner_earnings, source) := owner_earnings_of net_income free_cashflow in
  let net_debt := total_debt - cash in
  let '(multiple_used, required_margin_used) := valuation_policy net_debt in
  let effective_net_debt := py_max 0 net_debt in
  let intrinsic_equity := owner_earnings * multiple_used - effective_net_debt in
  mk_figures owner_earnings source net_debt multiple_used required_margin_used
             effective_net_debt intrinsic_equity.

(** [_display_margin_of_safety(margin_of_safety)] *)
Definition display_margin_of_safety (mos : option Q) : pyval :=
  match mos with
  | None => VNone
  | Some m =>
      let d := py_min (py_max m (-5)) 5 in
      if Qle_bool d (-1) then VStr "< -100% (Very expensive)"
      else if Qle_bool 1 d then VStr "> 100%"
      else VStr (format_decimal_with_percent_label d)
  end.

(** The body of the [try] block of [calculate_valuation]: the result of
    [ok_response]. *)
Definition valuation_try (market_price net_income : Q) (free_cashflow : option Q)
  (total_debt cash shares_outstanding : Q) : PyM pyval :=
  let f := valuation_figures net_income free_cashflow total_debt cash in
  let* intrinsic_price := py_div (fig_intrinsic_equity f) shares_outstanding in
  let required_margin_used := fig_required_margin_used f in
  let* outcome :=
    (if Qle_bool intrinsic_price 0 then
       ret (None, false, "IMPAIRED", "FAIL — Intrinsic value is non-positive (IMPAIRED)", 90%Z)
     else
       let* margin_of_safety := py_div (intrinsic_price - market_price) intrinsic_price in
       let passes := Qle_bool required_margin_used margin_of_safety in
       let band := valuation_band margin_of_safety in
       let mos_pct := margin_of_safety * 100 in
       let req_pct := required_margin_used * 100 in
       if passes then
         ret (Some margin_of_safety, passes, band,
              ("PASS — " ++ band ++ " with MOS " ++ fmt_fixed false mos_pct 1
               ++ "% (required " ++ fmt_fixed false req_pct 0 ++ "%)")%string, 85%Z)
       else
         let* price_ratio :=
           (if negb (Qeq_bool intrinsic_price 0) then py_div market_price intrinsic_price
            else ret 0) in
         ret (Some margin_of_safety, passes, band,
              ("FAIL — Price is " ++ fmt_fixed false price_ratio 1
               ++ "x intrinsic value (MOS " ++ fmt_fixed true mos_pct 1
               ++ "% vs required " ++ fmt_fixed false req_pct 0 ++ "%)")%string, 85%Z)) in
  let '(margin_of_safety, passes, band, one_liner, gate_confidence) := outcome in
  let data : dict :=
    [("owner_earnings", round_val (fig_owner_earnings f) 2);
     ("owner_earnings_source_used", VStr (fig_owner_earnings_source f));
     ("net_debt", round_val (fig_net_debt f) 2);
     ("effective_net_debt", round_val (fig_effective_net_debt f) 2);
     ("intrinsic_equity", round_val (fig_intrinsic_equity f) 2);
     ("intrinsic_price", round_val intrinsic_price 2);
     ("market_price", round_val market_price 2);
     ("margin_of_safety",
        match margin_of_safety with Some m => round_val m 4 | None => VNone end);
     ("required_margin", round_val required_margin_used 4);
     ("valuation_anchor",
        VDict [("multiple_used", round_val (fig_multiple_used f) 4);
               ("required_margin_used", round_val required_margin_used 4);
               ("policy", VStr "NET_DEBT_ADJUSTED")]);
     ("valuation_band", VStr band);
     ("pass", VBool passes);
     ("passes", VBool passes);
     ("one_liner", VStr one_liner);
     ("owner_earnings_source", VStr (fig_owner_earnings_source f));
     ("units",
        VDict [("owner_earnings", VStr "USD"); ("net_debt", VStr "USD");
               ("effective_net_debt", VStr "USD"); ("intrinsic_equity", VStr "USD");
               ("intrinsic_price", VStr "USD_per_share");
               ("market_price", VStr "USD_per_share");
               ("margin_of_safety", VStr "decimal"); ("required_margin", VStr "decimal")]);
     ("display",
        VDict [("owner_earnings", VStr (format_compact_number (fig_owner_earnings f)));
               ("net_debt", VStr (format_compact_number (fig_net_debt f)));
               ("intrinsic_equity", VStr (format_compact_number (fig_intrinsic_equity f)));
               ("intrinsic_price", VStr (fmt_fixed false (round_float intrinsic_price 2) 2));
               ("market_price", VStr (fmt_fixed false (round_float market_price 2) 2));
               ("margin_of_safety", display_margin_of_safety margin_of_safety);
               ("required_margin",
                  VStr (format_decimal_with_percent_label required_margin_used))])] in
  let data := (data ++ [("supervisor", run_valuation_supervisor data)])%list in
  ret (ok_response GATE2_NAME data valuation_inputs_used gate_confidence one_liner
         (if orb (String.eqb band "IMPAIRED") (String.eqb band "EXPENSIVE")
          then Some "VALUATION" else None) None).

(** [calculate_valuation(...)], together with the divisors of the divisions
    its [try] block performed. *)
Definition calculate_valuation_run (market_price net_income free_cashflow total_debt cash
  shares_outstanding : option Q) : pyval * list Q :=
  let required_inputs :=
    [("market_price", opt_float market_price); ("net_income", opt_float net_income);
     ("total_debt", opt_float total_debt); ("cash", opt_float cash);
     ("shares_outstanding", opt_float shares_outstanding)] in
  let missing := missing_required_fields required_inputs in
  match missing with
  | _ :: _ =>
      (error_response GATE2_NAME "VALUATION_MISSING_INPUTS"
         ("Missing required inputs: " ++ join ", " missing)
         valuation_inputs_used (Some missing) (Some "DATA_AVAILABILITY"), [])
  | [] =>
      match market_price, net_income, total_debt, cash, shares_outstanding with
      | Some mp, Some ni, Some td, Some c, Some so =>
          if Qle_bool so 0 then
            (error_response GATE2_NAME "VALUATION_INVALID_SHARES"
               ("shares_outstanding must be > 0, got " ++ py_str (VFloat so))
               valuation_inputs_used None (Some "DATA_AVAILABILITY"), [])
          else
            match run_try (valuation_try mp ni free_cashflow td c so) with
            | (inr env, log) => (env, log)
            | (inl e, log) =>
                (error_response GATE2_NAME "VALUATION_INTERNAL_ERROR"
                   ("Valuation calculation failed: " ++ exc_message e) valuation_inputs_used None
                   (Some "DATA_AVAILABILITY"), log)
            end
      | _, _, _, _, _ => (VNone, [])
      end
  end.

Definition calculate_valuation mp ni fcf td c so : pyval :=
  fst (calculate_valuation_run mp ni fcf td c so).

End Valuation.

(** Names for the gate-2 definitions that stay usable in sections which
    bind the short names to their configured instances. *)
Notation valuation_try_ref := valuation_try (only parsing).
Notation valuation_figures_ref := valuation_figures (only parsing).
Notation calculate_valuation_run_ref := calculate_valuation_run (only parsing).
Notation calculate_valuation_ref := calculate_valuation (only parsing).

(* ------------------------------------------------------------------------- *)
(** ** [app/gates/gate5_position_sizing.py] *)

Definition GATE5_NAME : string := "Gate 5 – Position Sizing".

Definition VALID_CREDIT_STRESS : list string := ["LOW"; "MEDIUM"; "HIGH"].

Definition in_list (s : string) (l : list string) : bool :=
  existsb (String.eqb s) l.

Definition volatility_factor (volatility : Q) : Q :=
  if Qle_bool volatility (20 # 100) then 1
  else if Qle_bool volatility (35 # 100) then 85 # 100
  else if Qle_bool volatility (50 # 100) then 70 # 100
  else 55 # 100.

Definition drawdown_factor (max_drawdown : Q) : Q :=
  if Qle_bool max_drawdown (15 # 100) then 1
  else if Qle_bool max_drawdown (30 # 100) then 85 # 100
  else if Qle_bool max_drawdown (45 # 100) then 70 # 100
  else 55 # 100.

Definition correlation_factor (correlation_index : Q) : Q :=
  if Qle_bool correlation_index (30 # 100) then 1
  else if Qle_bool correlation_index (60 # 100) then 85 # 100
  else if Qle_bool correlation_index (80 # 100) then 70 # 100
  else 55 # 100.

(** The dict [{"LOW": 1.00, "MEDIUM": 0.85, "HIGH": 0.70}]. *)
Definition credit_factors : list (string * Q) :=
  [("LOW", 1); ("MEDIUM", 85 # 100); ("HIGH", 70 # 100)].

Fixpoint assoc_q (l : list (string * Q)) (k : string) : option Q :=
  match l with
  | [] => None
  | (k', v) :: l' => if String.eqb k k' then Some v else assoc_q l' k
  end.

(** [_macro_factor(interest_rate, credit_stress)]; the dict lookup raises
    [KeyError] on an unknown level. *)
Definition macro_factor (interest_rate : Q) (credit_stress : string) : PyM Q :=
  let rate_factor :=
    if Qle_bool interest_rate (3 # 100) then 1
    else if Qle_bool interest_rate (5 # 100) then 90 # 100
    else if Qle_bool interest_rate (7 # 100) then 80 # 100
    else 70 # 100 in
  match assoc_q credit_factors credit_stress with
  | Some credit_factor => ret (py_min rate_factor credit_factor)
  | None => raise KeyError
  end.

(** [min(factors.values())]: the first smallest value. *)
Definition min_values (first : Q) (rest : list Q) : Q :=
  fold_left (fun m v => py_min m v) rest first.

Definition BINDING_PRECEDENCE : list string := ["VOLATILITY"; "DRAWDOWN"; "CORRELATION"; "MACRO"].

(** [_binding_constraint(factors)] on the four-entry factor dict. *)
Definition binding_constraint_of (factors : list (string * Q)) : string :=
  let min_factor :=
    match map snd factors with [] => 0 | v :: vs => min_values v vs end in
  let fix scan (keys : list string) : string :=
    match keys with
    | [] => "MACRO"
    | key :: rest =>
        match assoc_q factors key with
        | Some v => if Qeq_bool v min_factor then key else scan rest
        | None => scan rest
        end
    end in
  scan BINDING_PRECEDENCE.

Definition mechanical_explanation (binding_constraint : string) : string :=
  if String.eqb binding_constraint "VOLATILITY" then
    "Volatility band set the lowest sizing factor, which bound maximum position size."
  else if String.eqb binding_constraint "DRAWDOWN" then
    "Drawdown band set the lowest sizing factor, which bound maximum position size."
  else if String.eqb binding_constraint "CORRELATION" then
    "Correlation band set the lowest sizing factor, which bound maximum position size."
  else
    "Macro band from interest_rate and credit_stress set the lowest sizing factor, which bound maximum position size.".

Definition sizing_inputs_used : list string :=
  ["volatility"; "max_drawdown"; "interest_rate"; "credit_stress"; "correlation_index"].

Definition skipped_data (reason : string) : dict :=
  [("status", VStr "SKIPPED"); ("maximum_position_size", VNone);
   ("confidence", VInt 0); ("reason", VStr reason)].

Definition UPSTREAM_REJECT_REASON : string :=
  "Valuation gate failed — position sizing not applicable.".

Definition RATE_UNIT_REASON : string :=
  "Position sizing skipped — interest_rate must be decimal (e.g., 0.0364 for 3.64%).".

Section Sizing.

(** [_run_sizing_agent(...)]: the LLM collaborator; [None] or a dict with a
    narrative and a flag. It only receives the computed numbers. *)
Variable run_sizing_agent :
  Q -> string -> list (string * Q) -> Q -> Q -> Q -> string -> Q -> option dict.

(** The factor dict in the source's key order. *)
Definition sizing_factors (volatility max_drawdown correlation_index : Q) (macro : Q)
  : list (string * Q) :=
  [("VOLATILITY", volatility_factor volatility);
   ("DRAWDOWN", drawdown_factor max_drawdown);
   ("CORRELATION", correlation_factor correlation_index);
   ("MACRO", macro)].

Definition factors_dict (factors : list (string * Q)) : pyval :=
  VDict (map (fun kv => (fst kv, VFloat (snd kv))) factors).

(** The body of the [try] block of [calculate_position_size]. *)
Definition sizing_try (volatility max_drawdown interest_rate : Q) (credit_stress : string)
  (correlation_index : Q) : PyM pyval :=
  let base_size := 10 in
  let normalized_credit_stress := upper credit_stress in
  if negb (in_list normalized_credit_stress VALID_CREDIT_STRESS) then
    let reason := ("Position sizing skipped — invalid credit_stress: " ++ credit_stress)%string in
    ret (skipped_response GATE5_NAME (skipped_data reason) sizing_inputs_used reason None
           (Some "DATA_AVAILABILITY"))
  else if Qltb 1 interest_rate then
    ret (skipped_response GATE5_NAME (skipped_data RATE_UNIT_REASON) sizing_inputs_used
           RATE_UNIT_REASON None (Some "DATA_AVAILABILITY"))
  else
    let* macro := macro_factor interest_rate normalized_credit_stress in
    let factors := sizing_factors volatility max_drawdown correlation_index macro in
    let position_size := fold_left (fun acc kv => acc * snd kv) factors base_size in
    let position_size := py_max 1 (py_min position_size 10) in
    let binding_constraint := binding_constraint_of factors in
    let agent_output :=
      run_sizing_agent position_size binding_constraint factors volatility max_drawdown
        interest_rate normalized_credit_stress correlation_index in
    let gate_confidence := 75%Z in
    let one_liner :=
      (fmt_fixed false (round_float position_size 1) 1 ++ "% NAV — bound by "
       ++ binding_constraint)%string in
    let data : dict :=
      [("maximum_position_size", round_val position_size 1);
       ("binding_constraint", VStr binding_constraint);
       ("explanation", VStr (mechanical_explanation binding_constraint));
       ("volatility", round_val volatility 6);
       ("max_drawdown", round_val max_drawdown 6);
       ("interest_rate", round_val interest_rate 6);
       ("credit_stress", VStr normalized_credit_stress);
       ("correlation_index", round_val correlation_index 6);
       ("factors", factors_dict factors);
       ("units",
          VDict [("maximum_position_size", VStr "percent_of_nav");
                 ("volatility", VStr "annualized_decimal");
                 ("max_drawdown", VStr "decimal_peak_to_trough");
                 ("interest_rate", VStr "decimal");
                 ("correlation_index", VStr "absolute_correlation_decimal")]);
       ("display",
          VDict [("maximum_position_size",
                    VStr (fmt_fixed false (round_float position_size 1) 1 ++ "%"));
                 ("volatility", VStr (format_decimal_with_percent_label volatility));
                 ("max_drawdown", VStr (format_decimal_with_percent_label max_drawdown));
                 ("interest_rate", VStr (format_decimal_with_percent_label interest_rate));
                 ("correlation_index", VStr (py_str (round_val correlation_index 4)))]);
       ("macro_components",
          VDict [("interest_rate", round_val interest_rate 6);
                 ("credit_stress", VStr normalized_credit_stress)]);
       ("idiosyncratic_components",
          VDict [("volatility", round_val volatility 6);
                 ("max_drawdown", round_val max_drawdown 6);
                 ("correlation_index", round_val correlation_index 6)]);
       ("systematic_risk_components",
          VDict [("interest_rate", round_val interest_rate 6);
                 ("credit_stress", VStr normalized_credit_stress);
                 ("correlation_index", round_val correlation_index 6)])] in
    let data :=
      match agent_output with
      | Some ((_ :: _) as overlay) => (data ++ [("agent_overlay", VDict overlay)])%list
      | _ => data
      end in
    ret (ok_response GATE5_NAME data sizing_inputs_used gate_confidence one_liner None None).

(** [calculate_position_size(...)] *)
Definition calculate_position_size (volatility max_drawdown interest_rate : option Q)
  (credit_stress : option string) (correlation_index : option Q) (upstream_reject : bool)
  : pyval :=
  if upstream_reject then
    skipped_response GATE5_NAME (skipped_data UPSTREAM_REJECT_REASON) sizing_inputs_used
      UPSTREAM_REJECT_REASON None (Some "NOT_APPLICABLE")
  else
    let required_inputs :=
      [("volatility", opt_float volatility); ("max_drawdown", opt_float max_drawdown);
       ("interest_rate", opt_float interest_rate); ("credit_stress", opt_str credit_stress);
       ("correlation_index", opt_float correlation_index)] in
    let missing := missing_required_fields required_inputs in
    match missing with
    | _ :: _ =>
        let reason := ("Position sizing skipped — missing required inputs: "
                       ++ join ", " missing ++ ".")%string in
        skipped_response GATE5_NAME (skipped_data reason) sizing_inputs_used reason
          (Some missing) (Some "DATA_AVAILABILITY")
    | [] =>
        match volatility, max_drawdown, interest_rate, credit_stress, correlation_index with
        | Some v, Some d, Some r, Some cs, Some c =>
            match run_try (sizing_try v d r cs c) with
            | (inr env, _) => env
            | (inl e, _) =>
                let reason := ("Position sizing skipped due to internal error: "
                               ++ exc_message e)%string in
                skipped_response GATE5_NAME (skipped_data reason) sizing_inputs_used reason
                  None (Some "NOT_APPLICABLE")
            end
        | _, _, _, _, _ => VNone
        end
    end.

End Sizing.

Notation sizing_try_ref := sizing_try (only parsing).
Notation calculate_position_size_ref := calculate_position_size (only parsing).

(* ------------------------------------------------------------------------- *)
(** ** [app/gates/gate6_final_verdict.py] *)

Definition GATE6_NAME : string := "Gate 6 – Final Verdict".

Definition NON_BLOCKING_CLASSIFICATIONS : list string :=
  ["NO_SIGNAL"; "NO_DATA"; "NO_RELEVANT_DATA_FOUND"].

(** [_extract_gate_parts(payload)]: (data, diagnostics, status). *)
Definition extract_gate_parts (payload : dict) : dict * pyval * string :=
  match dict_get payload "data" with
  | Some (VDict d) => (d, get payload "diagnostics" (VDict []),
                       py_str (get payload "status" (VStr "")))
  | _ => (payload, VDict [], "OK")
  end.

(** [_deterministic_confidence(...)] *)
Definition deterministic_confidence (margin_of_safety : option Q) (impairment_risk : string)
  (market_structure : string) (key_data_missing : bool) : Z :=
  let c0 := 50%Z in
  let c1 := match margin_of_safety with
            | Some m => if Qltb m (-1) then (c0 + 20)%Z else c0
            | None => c0
            end in
  let c2 := if String.eqb impairment_risk "LOW" then (c1 + 10)%Z else c1 in
  let c3 := if String.eqb market_structure "HEADWIND" then (c2 - 10)%Z else c2 in
  let c4 := if key_data_missing then (c3 - 10)%Z else c3 in
  Z.max 0 (Z.min 100 c4).

(** The [{"INVEST": ..., "WATCH": ..., "REJECT": ...}[verdict]] lookups; the
    verdict is always one of the three keys. *)
Definition by_verdict (verdict invest watch reject : string) : string :=
  if String.eqb verdict "INVEST" then invest
  else if String.eqb verdict "WATCH" then watch
  else reject.

(** [_build_executive_summary(...)] *)
Definition build_executive_summary (verdict : string) (business_summary : pyval)
  (valuation_pass : bool) (valuation_band : string) (margin_of_safety : option Q)
  (impairment_risk impairment_reason market_classification : string) : string :=
  let business_line :=
    if truthy business_summary
    then ("Business context indicates " ++ py_str business_summary ++ ".")%string
    else "Business context is limited in this run, so durability assessment is constrained." in
  let valuation_line :=
    if negb valuation_pass then
      if String.eqb valuation_band "IMPAIRED" then
        "Valuation fails discipline because intrinsic value is non-positive under the deterministic framework."
      else if match margin_of_safety with Some m => Qltb m (-1) | None => false end then
        "Valuation fails discipline with a deeply negative margin of safety versus the required threshold."
      else "Valuation fails discipline because margin of safety is below the required threshold."
    else "Valuation passes the required margin-of-safety discipline under the deterministic framework." in
  let impairment_line :=
    if String.eqb impairment_risk "UNDETERMINED" then
      "Impairment risk is UNDETERMINED due to missing financing disclosures; this uncertainty prevents an INVEST outcome."
    else ("Impairment context is classified as " ++ impairment_risk
          ++ ", based on reported balance-sheet and refinancing inputs.")%string in
  let impairment_line :=
    if andb (negb (String.eqb impairment_reason ""))
            (contains "Interest expense not explicitly reported" impairment_reason) then
      "Impairment context is UNDETERMINED because interest expense is not explicitly reported in SEC filings for this period."
    else impairment_line in
  let market_line :=
    if in_list market_classification NON_BLOCKING_CLASSIFICATIONS then
      "Market-structure signals are not reliable for this period and do not alter the core valuation decision."
    else ("Market-structure context is " ++ market_classification
          ++ " and is treated as a non-veto timing signal.")%string in
  let decision_line :=
    by_verdict verdict
      "Decision: INVEST, as valuation discipline passes and impairment risk remains acceptable."
      "Decision: WATCH, pending clearer risk confirmation under current data constraints."
      "Decision: REJECT on valuation and risk discipline despite any underlying business strengths." in
  join " " [business_line; valuation_line; impairment_line; market_line; decision_line].

(** The precedence chain of [aggregate_verdict]: (verdict, setup_label). *)
Definition verdict_rule (valuation_pass : bool) (impairment_risk : string) : string * string :=
  if negb valuation_pass then ("REJECT", "Valuation discipline breached")
  else if String.eqb impairment_risk "HIGH" then ("REJECT", "Impairment risk elevated")
  else if String.eqb impairment_risk "UNDETERMINED" then ("WATCH", "Impairment unresolved")
  else if String.eqb impairment_risk "LOW" then ("INVEST", "Risk acceptable")
  else ("WATCH", "Risk moderate").

(** [bool(gate2_data.get("pass") or gate2_data.get("passes"))] *)
Definition valuation_pass_of (gate2_data : dict) : bool :=
  truthy (get gate2_data "pass" VNone) || truthy (get gate2_data "passes" VNone).

(** [any(bool(diag.get("missing_inputs", [])) for diag in diags)], which stops
    at the first true element. *)
Fixpoint any_diag_missing (diags : list pyval) : PyM bool :=
  match diags with
  | [] => ret false
  | diag :: rest =>
      let* m := py_get diag "missing_inputs" (VList []) in
      if truthy m then ret true else any_diag_missing rest
  end.

(** [float(x)] on a value that passed [isinstance(x, (int, float))]. *)
Definition number_to_q (v : pyval) : Q :=
  match v with
  | VBool b => if b then 1 else 0
  | VInt z => inject_Z z
  | VFloat q => q
  | _ => 0
  end.

Definition verdict_inputs_used : list string :=
  ["gate2_output.pass"; "gate2_output.margin_of_safety"; "gate3_output.classification";
   "gate4_output.risk_level"; "gate5_output.maximum_position_size"].

(** The body of the [try] block of [aggregate_verdict]. *)
Definition aggregate_try (gate2_data : dict) (gate2_diag : pyval) (gate3_data : dict)
  (gate3_diag : pyval) (gate4_data : dict) (gate4_diag : pyval) (gate5_data : dict)
  (gate5_diag : pyval) (gate5_status : string) (gate1_output : option dict) : PyM pyval :=
  let valuation_pass := valuation_pass_of gate2_data in
  let valuation_band := upper (py_str (get gate2_data "valuation_band" (VStr "UNKNOWN"))) in
  let* margin_of_safety :=
    (match get gate2_data "margin_of_safety" VNone with
     | VNone => ret None
     | v => let* q := py_float v in ret (Some q)
     end) in
  let market_classification :=
    upper (py_str (get gate3_data "classification" (VStr "NO_RELEVANT_DATA_FOUND"))) in
  let impairment_risk := upper (py_str (get gate4_data "risk_level" (VStr "UNDETERMINED"))) in
  let impairment_reason :=
    py_str (get gate4_data "reason" (get gate4_data "reasoning" (VStr ""))) in
  let gate5_skipped :=
    String.eqb gate5_status "SKIPPED"
    || String.eqb (upper (py_str (get gate5_data "status" (VStr "")))) "SKIPPED" in
  let max_position_size := get gate5_data "maximum_position_size" VNone in
  let '(verdict, setup_label) := verdict_rule valuation_pass impairment_risk in
  let* key_data_missing := any_diag_missing [gate2_diag; gate3_diag; gate4_diag; gate5_diag] in
  let confidence :=
    deterministic_confidence margin_of_safety impairment_risk market_classification
      key_data_missing in
  let gate1 := match gate1_output with Some ((_ :: _) as d) => Some d | _ => None end in
  let business_summary :=
    match gate1 with Some d => get d "business_summary" VNone | None => VNone end in
  let business_complexity :=
    match gate1 with Some d => get d "business_complexity" VNone | None => VNone end in
  let summary :=
    build_executive_summary verdict business_summary valuation_pass valuation_band
      margin_of_safety impairment_risk impairment_reason market_classification in
  let gate5_line :=
    if gate5_skipped then "SKIPPED — Valuation gate failed — position sizing not applicable."
    else if is_number max_position_size
    then (py_str (round_val (number_to_q max_position_size) 1) ++ "% NAV")%string
    else "N/A" in
  let result : dict :=
    [("verdict", VStr verdict);
     ("confidence", VInt confidence);
     ("summary", VStr summary);
     ("key_drivers", str_list ["Valuation"; "Impairment risk"; "Market structure"]);
     ("confidence_score", round_val (inject_Z confidence / 100) 2);
     ("investment_stance",
        VStr (by_verdict verdict "Valuation discipline met with acceptable impairment risk"
                "Valuation/risk signals are incomplete or mixed"
                "Valuation or impairment discipline not met"));
     ("setup_label", VStr setup_label);
     ("risk_notes",
        VStr (join " | " [("Valuation band: " ++ valuation_band)%string;
                          ("Impairment risk: " ++ impairment_risk)%string;
                          ("Market structure: " ++ market_classification)%string]));
     ("margin_of_safety",
        match margin_of_safety with Some m => round_val m 4 | None => VNone end);
     ("valuation_band", VStr valuation_band);
     ("market_classification", VStr market_classification);
     ("impairment_risk", VStr impairment_risk);
     ("gate_summary",
        VDict [("gate2_valuation", VStr (py_str (get gate2_data "one_liner" (VStr valuation_band))));
               ("gate3_market_structure",
                  VStr (py_str (get gate3_data "classification" (VStr "NO_RELEVANT_DATA_FOUND"))));
               ("gate4_impairment",
                  VStr (py_str (get gate4_data "risk_level" (VStr "UNDETERMINED"))));
               ("gate5_position_sizing", VStr gate5_line)]);
     ("business_summary", business_summary);
     ("business_complexity", business_complexity);
     ("decision_summary", VStr summary)] in
  let result :=
    if andb (String.eqb verdict "INVEST") (andb (negb gate5_skipped) (is_number max_position_size))
    then (result ++ [("max_position_size", round_val (number_to_q max_position_size) 1)])%list
    else result in
  ret (ok_response GATE6_NAME result verdict_inputs_used confidence
         (verdict ++ " — " ++ setup_label) None None).

(** [aggregate_verdict(gate2_output, gate3_output, gate4_output, gate5_output, gate1_output)] *)
Definition aggregate_verdict (gate2_output gate3_output gate4_output gate5_output : dict)
  (gate1_output : option dict) : pyval :=
  let '(gate2_data, gate2_diag, _) := extract_gate_parts gate2_output in
  let '(gate3_data, gate3_diag, _) := extract_gate_parts gate3_output in
  let '(gate4_data, gate4_diag, _) := extract_gate_parts gate4_output in
  let '(gate5_data, gate5_diag, gate5_status) := extract_gate_parts gate5_output in
  let required_fields :=
    ([("gate3_output.classification", get gate3_data "classification" VNone);
      ("gate4_output.risk_level", get gate4_data "risk_level" VNone)]
     ++ (if andb (is_none (get gate2_data "pass" VNone)) (is_none (get gate2_data "passes" VNone))
         then [("gate2_output.pass", VNone)] else []))%list in
  let missing := missing_required_fields required_fields in
  match missing with
  | _ :: _ =>
      error_response GATE6_NAME "FINAL_VERDICT_MISSING_INPUTS"
        ("Missing required inputs: " ++ join ", " missing) verdict_inputs_used
        (Some missing) (Some "DATA_AVAILABILITY")
  | [] =>
      match run_try (aggregate_try gate2_data gate2_diag gate3_data gate3_diag gate4_data
                       gate4_diag gate5_data gate5_diag gate5_status gate1_output) with
      | (inr env, _) => env
      | (inl e, _) =>
          error_response GATE6_NAME "FINAL_VERDICT_INTERNAL_ERROR"
            ("Final verdict aggregation failed: " ++ exc_message e) verdict_inputs_used
            None (Some "DATA_AVAILABILITY")
      end
  end.

(* ------------------------------------------------------------------------- *)
(** ** [app/orchestrator.py] *)

(** [_is_fatal(result)] *)
Definition is_fatal (result : dict) : bool :=
  match dict_get result "status" with Some (VStr "ERROR") => true | _ => false end.

(** [_should_suppress_sizing(gate2_result, gate4_result)]; [None] stands for
    the [AttributeError] raised when ["data"] is not a dict. *)
Definition should_suppress_sizing (gate2_result gate4_result : dict) : option bool :=
  match get gate2_result "data" (VDict []) with
  | VDict g2_data => Some (negb (valuation_pass_of g2_data))
  | _ => None
  end.

(** [result["data"][key]]; [None] stands for the exception raised on a
    missing key. *)
Definition data_item (result : dict) (key : string) : option pyval :=
  match dict_get result "data" with
  | Some (VDict d) => dict_get d key
  | _ => None
  end.

(** A [float | None] argument read from an envelope. *)
Definition as_opt_float (v : pyval) : option (option Q) :=
  match v with
  | VNone => Some None
  | VInt z => Some (Some (inject_Z z))
  | VFloat q => Some (Some q)
  | _ => None
  end.

Definition as_opt_str (v : pyval) : option (option string) :=
  match v with
  | VNone => Some None
  | VStr s => Some (Some s)
  | _ => None
  end.

Definition as_dict (v : pyval) : option dict :=
  match v with VDict d => Some d | _ => None end.

(** What the external collaborators of one run returned: identity resolution,
    the fundamentals fetch, the business-context gate (when it ran), the
    market-data and macro fetches, the market-structure and impairment gates. *)
Record collaborators := mk_collaborators {
  identity_result : dict;
  sec_result : dict;
  gate1_result : option dict;
  polygon_result : dict;
  fred_result : dict;
  gate3_result : dict;
  gate4_result : dict }.

(** The part of the final response the claims read. *)
Record pipeline_response := mk_pipeline_response {
  pr_status : string;
  pr_failed_stage : option string;
  pr_gate_results : list pyval;
  pr_final : option dict;
  pr_confidence : Z }.

Section Orchestrator.

Variable VALUATION_MULTIPLE REQUIRED_MARGIN : Q.
Variable run_valuation_supervisor : dict -> pyval.
Variable run_sizing_agent :
  Q -> string -> list (string * Q) -> Q -> Q -> Q -> string -> Q -> option dict.

Notation "'let?' x ':=' m 'in' k" :=
  (match m with Some x => k | None => None end)
  (at level 200, x pattern, m at level 100, k at level 200).

(** [_pipeline_error(failed_stage, failed_result, outputs, gate_results)] *)
Definition pipeline_error (failed_stage : string) (gate_results : list pyval)
  : option pipeline_response :=
  let? c := (match gate_results with
             | [] => Some 0%Z
             | _ => compute_pipeline_confidence gate_results
             end) in
  Some (mk_pipeline_response "ERROR" (Some failed_stage) gate_results None c).

(** [run_pipeline(company_input)] from the identity result on; [None] stands
    for an exception escaping the run. *)
Definition run_pipeline (co : collaborators) : option pipeline_response :=
  let identity := identity_result co in
  let gate_results := [VDict identity] in
  if is_fatal identity then pipeline_error "identity" gate_results else
  let sec := sec_result co in
  if is_fatal sec then pipeline_error "sec" gate_results else
  let '(gate_results, gate1_data) :=
    match gate1_result co with
    | Some g1 =>
        ((gate_results ++ [VDict g1])%list,
         match dict_get g1 "status", dict_get g1 "data" with
         | Some (VStr "OK"), Some (VDict d) | Some (VStr "PARTIAL"), Some (VDict d) => Some d
         | _, _ => None
         end)
    | None => (gate_results, None)
    end in
  let polygon := polygon_result co in
  if is_fatal polygon then pipeline_error "polygon" gate_results else
  let fred := fred_result co in
  if is_fatal fred then pipeline_error "fred" gate_results else
  let? mp := data_item polygon "market_price" in let? mp := as_opt_float mp in
  let? ni := data_item sec "net_income" in let? ni := as_opt_float ni in
  let? fcf := data_item sec "free_cashflow" in let? fcf := as_opt_float fcf in
  let? td := data_item sec "total_debt" in let? td := as_opt_float td in
  let? cash := data_item sec "cash" in let? cash := as_opt_float cash in
  let? so := data_item sec "shares_outstanding" in let? so := as_opt_float so in
  let gate2 := calculate_valuation VALUATION_MULTIPLE REQUIRED_MARGIN run_valuation_supervisor
                 mp ni fcf td cash so in
  let? gate2 := as_dict gate2 in
  let gate_results := (gate_results ++ [VDict gate2])%list in
  if is_fatal gate2 then pipeline_error "gate2" gate_results else
  let gate3 := gate3_result co in
  let gate_results := (gate_results ++ [VDict gate3])%list in
  if is_fatal gate3 then pipeline_error "gate3" gate_results else
  let gate4 := gate4_result co in
  let gate_results := (gate_results ++ [VDict gate4])%list in
  if is_fatal gate4 then pipeline_error "gate4" gate_results else
  let? upstream_reject := should_suppress_sizing gate2 gate4 in
  let? vol := data_item polygon "volatility" in let? vol := as_opt_float vol in
  let? dd := data_item polygon "max_drawdown" in let? dd := as_opt_float dd in
  let? rate := data_item fred "interest_rate" in let? rate := as_opt_float rate in
  let? cs := data_item fred "credit_stress" in let? cs := as_opt_str cs in
  let? corr := data_item polygon "correlation_index" in let? corr := as_opt_float corr in
  let gate5 := calculate_position_size run_sizing_agent vol dd rate cs corr upstream_reject in
  let? gate5 := as_dict gate5 in
  let gate_results := (gate_results ++ [VDict gate5])%list in
  if is_fatal gate5 then pipeline_error "gate5" gate_results else
  let final := aggregate_verdict gate2 gate3 gate4 gate5 gate1_data in
  let? final := as_dict final in
  let gate_results := (gate_results ++ [VDict final])%list in
  if is_fatal final then pipeline_error "final" gate_results else
  let? pipeline_confidence := compute_pipeline_confidence gate_results in
  Some (mk_pipeline_response "OK" None gate_results (Some final) pipeline_confidence).

End Orchestrator.

(* ------------------------------------------------------------------------- *)
(** ** Reading envelopes *)

(** [envelope["data"][key]] *)
Definition data_field (env : pyval) (key : string) : option pyval :=
  match field env "data" with Some d => field d key | None => None end.

(** [envelope["diagnostics"]["missing_inputs"]] *)
Definition diag_missing (env : pyval) : list pyval :=
  match field env "diagnostics" with
  | Some d => match field d "missing_inputs" with Some (VList l) => l | _ => [] end
  | None => []
  end.

(** [envelope["error"]["code"]] *)
Definition error_code (env : pyval) : option pyval :=
  match field env "error" with Some e => field e "code" | None => None end.

(** The dict of an envelope built by the gates. *)
Definition env_dict (v : pyval) : dict := match v with VDict d => d | _ => [] end.

(* ------------------------------------------------------------------------- *)
(** ** Signals read by the verdict gate *)

(** The data dict [aggregate_verdict] reads from one gate output. *)
Definition gate_data (payload : dict) : dict := fst (fst (extract_gate_parts payload)).

(** The valuation-pass signal of a gate 2 output. *)
Definition valuation_signal (gate2_output : dict) : bool :=
  valuation_pass_of (gate_data gate2_output).

(** The impairment level of a gate 4 output, as compared by the verdict gate. *)
Definition impairment_level (gate4_output : dict) : string :=
  upper (py_str (get (gate_data gate4_output) "risk_level" (VStr "UNDETERMINED"))).

(** The verdict precedence of the specification, as a first-match rule table:
    each rule is a guard on (valuation pass, impairment level) and a verdict. *)
Definition precedence_rules : list ((bool -> string -> bool) * string) :=
  [(fun pass _ => negb pass, "REJECT");
   (fun _ risk => String.eqb risk "HIGH", "REJECT");
   (fun _ risk => String.eqb risk "UNDETERMINED", "WATCH");
   (fun _ risk => String.eqb risk "LOW", "INVEST");
   (fun _ _ => true, "WATCH")].

Fixpoint first_match (rules : list ((bool -> string -> bool) * string)) (pass : bool)
  (risk : string) : option string :=
  match rules with
  | [] => None
  | (guard, verdict) :: rest => if guard pass risk then Some verdict else first_match rest pass risk
  end.

Definition spec_verdict (pass : bool) (risk : string) : option string :=
  first_match precedence_rules pass risk.

(* ------------------------------------------------------------------------- *)
(** ** Lemmas on the [try] monad *)

Lemma bind_inr {A B} (m : PyM A) (k : A -> PyM B) log v log' :
  bind m k log = (inr v, log') ->
  exists a log1, m log = (inr a, log1) /\ k a log1 = (inr v, log').
Proof.
  unfold bind. destruct (m log) as [[e|a] log1]; intro H; [discriminate | eauto].
Qed.

Lemma ret_inv {A} (a v : A) log log' : ret a log = (inr v, log') -> v = a /\ log' = log.
Proof. unfold ret. intro H. inversion H. auto. Qed.

Ltac peel H :=
  repeat match type of H with
         | bind _ _ _ = (inr _, _) =>
             let a := fresh "a" in let l := fresh "log" in
             let Hm := fresh "Hm" in
             apply bind_inr in H; destruct H as (a & l & Hm & H)
         end.

(* ------------------------------------------------------------------------- *)
(** ** The verdict gate *)

Lemma verdict_rule_spec pass risk :
  spec_verdict pass risk = Some (fst (verdict_rule pass risk)).
Proof.
  unfold spec_verdict, verdict_rule; simpl.
  destruct pass; simpl; [|reflexivity].
  destruct (String.eqb risk "HIGH"); [reflexivity|].
  destruct (String.eqb risk "UNDETERMINED"); [reflexivity|].
  destruct (String.eqb risk "LOW"); reflexivity.
Qed.

Lemma ok_response_fields gate data inputs c ol :
  field (ok_response gate data inputs c ol None None) "status" = Some (VStr "OK") /\
  field (ok_response gate data inputs c ol None None) "data" = Some (VDict data) /\
  diag_missing (ok_response gate data inputs c ol None None) = [].
Proof. repeat split; reflexivity. Qed.

(** What a successful run of the [try] block of [aggregate_verdict] returns. *)
Lemma aggregate_try_result g2d g2g g3d g3g g4d g4g g5d g5g st g1 log env log' :
  aggregate_try g2d g2g g3d g3g g4d g4g g5d g5g st g1 log = (inr env, log') ->
  let risk := upper (py_str (get g4d "risk_level" (VStr "UNDETERMINED"))) in
  field env "status" = Some (VStr "OK") /\ diag_missing env = [] /\
  data_field env "verdict" = Some (VStr (fst (verdict_rule (valuation_pass_of g2d) risk))) /\
  data_field env "setup_label" = Some (VStr (snd (verdict_rule (valuation_pass_of g2d) risk))).
Proof.
  unfold aggregate_try. intro H. peel H.
  destruct (verdict_rule _ _) as [verdict setup] eqn:Hv.
  peel H. apply ret_inv in H. destruct H as [-> _].
  cbv zeta. try rewrite Hv. simpl fst. simpl snd.
  unfold data_field. rewrite (proj1 (proj2 (ok_response_fields _ _ _ _ _))).
  repeat split; try reflexivity.
  - destruct (andb _ _); reflexivity.
  - destruct (andb _ _); reflexivity.
Qed.

(** The three ways [aggregate_verdict] can answer. *)
Lemma aggregate_verdict_cases g2 g3 g4 g5 g1 :
  let '(g2d, g2g, _) := extract_gate_parts g2 in
  let '(g3d, g3g, _) := extract_gate_parts g3 in
  let '(g4d, g4g, _) := extract_gate_parts g4 in
  let '(g5d, g5g, st) := extract_gate_parts g5 in
  let missing := missing_required_fields
    ([("gate3_output.classification", get g3d "classification" VNone);
      ("gate4_output.risk_level", get g4d "risk_level" VNone)]
     ++ (if andb (is_none (get g2d "pass" VNone)) (is_none (get g2d "passes" VNone))
         then [("gate2_output.pass", VNone)] else []))%list in
  (missing <> [] /\
   aggregate_verdict g2 g3 g4 g5 g1 =
     error_response GATE6_NAME "FINAL_VERDICT_MISSING_INPUTS"
       ("Missing required inputs: " ++ join ", " missing) verdict_inputs_used
       (Some missing) (Some "DATA_AVAILABILITY")) \/
  (missing = [] /\ exists e log,
     aggregate_try g2d g2g g3d g3g g4d g4g g5d g5g st g1 [] = (inl e, log) /\
     aggregate_verdict g2 g3 g4 g5 g1 =
       error_response GATE6_NAME "FINAL_VERDICT_INTERNAL_ERROR"
         ("Final verdict aggregation failed: " ++ exc_message e) verdict_inputs_used
         None (Some "DATA_AVAILABILITY")) \/
  (missing = [] /\ exists env log,
     aggregate_try g2d g2g g3d g3g g4d g4g g5d g5g st g1 [] = (inr env, log) /\
     aggregate_verdict g2 g3 g4 g5 g1 = env).
Proof.
  unfold aggregate_verdict.
  destruct (extract_gate_parts g2) as [[g2d g2g] s2].
  destruct (extract_gate_parts g3) as [[g3d g3g] s3].
  destruct (extract_gate_parts g4) as [[g4d g4g] s4].
  destruct (extract_gate_parts g5) as [[g5d g5g] st].
  destruct (missing_required_fields _) as [|m ms] eqn:Hm.
  - unfold run_try.
    destruct (aggregate_try g2d g2g g3d g3g g4d g4g g5d g5g st g1 []) as [[e|env] log] eqn:Ht.
    + right; left. split; [reflexivity|]. exists e, log. auto.
    + right; right. split; [reflexivity|]. exists env, log. auto.
  - left. split; [discriminate | reflexivity].
Qed.

Lemma error_response_status gate code msg inputs mi bc :
  field (error_response gate code msg inputs mi bc) "status" = Some (VStr "ERROR").
Proof. reflexivity. Qed.

(** Whenever [aggregate_verdict] answers [OK], its verdict and setup label are
    those of [verdict_rule] on the valuation signal and the impairment level. *)
Lemma aggregate_verdict_ok g2 g3 g4 g5 g1 :
  field (aggregate_verdict g2 g3 g4 g5 g1) "status" = Some (VStr "OK") ->
  diag_missing (aggregate_verdict g2 g3 g4 g5 g1) = [] /\
  data_field (aggregate_verdict g2 g3 g4 g5 g1) "verdict" =
    Some (VStr (fst (verdict_rule (valuation_signal g2) (impairment_level g4)))) /\
  data_field (aggregate_verdict g2 g3 g4 g5 g1) "setup_label" =
    Some (VStr (snd (verdict_rule (valuation_signal g2) (impairment_level g4)))).
Proof.
  pose proof (aggregate_verdict_cases g2 g3 g4 g5 g1) as Hc.
  unfold valuation_signal, impairment_level, gate_data.
  destruct (extract_gate_parts g2) as [[g2d g2g] s2].
  destruct (extract_gate_parts g3) as [[g3d g3g] s3].
  destruct (extract_gate_parts g4) as [[g4d g4g] s4].
  destruct (extract_gate_parts g5) as [[g5d g5g] st].
  simpl fst.
  destruct Hc as [[_ ->] | [[_ (e & log & _ & ->)] | [_ (env & log & Ht & ->)]]].
  - rewrite error_response_status. discriminate.
  - rewrite error_response_status. discriminate.
  - intros _. apply aggregate_try_result in Ht. tauto.
Qed.

(** ** Claim C1 *)

(** C1: whenever [aggregate_verdict] accepts its inputs and answers [OK], the
    verdict is the one chosen by the first matching rule of the fixed
    precedence (valuation fail, impairment HIGH, UNDETERMINED, LOW, otherwise);
    in particular a failing valuation gives REJECT whatever the impairment
    level, and an UNDETERMINED impairment with a passing valuation gives WATCH. *)
Theorem aggregate_verdict_precedence g2 g3 g4 g5 g1 :
  field (aggregate_verdict g2 g3 g4 g5 g1) "status" = Some (VStr "OK") ->
  data_field (aggregate_verdict g2 g3 g4 g5 g1) "verdict" =
    option_map VStr (spec_verdict (valuation_signal g2) (impairment_level g4)) /\
  (valuation_signal g2 = false ->
   data_field (aggregate_verdict g2 g3 g4 g5 g1) "verdict" = Some (VStr "REJECT")) /\
  (valuation_signal g2 = true -> impairment_level g4 = "UNDETERMINED" ->
   data_field (aggregate_verdict g2 g3 g4 g5 g1) "verdict" = Some (VStr "WATCH")).
Proof.
  intro Hok. destruct (aggregate_verdict_ok _ _ _ _ _ Hok) as (_ & Hv & _).
  rewrite Hv, verdict_rule_spec. repeat split.
  - intros ->. reflexivity.
  - intros -> ->. reflexivity.
Qed.

(** Concrete gate outputs used by the witnesses. *)
Definition no_supervisor (_ : dict) : pyval :=
  VDict [("supervisor_commentary", VStr "Supervisor unavailable (no API key)");
         ("pathological_flags", VList [])].

Definition no_sizing_agent (_ : Q) (_ : string) (_ : list (string * Q)) (_ _ _ : Q)
  (_ : string) (_ : Q) : option dict := None.

(** The valuation scenario of the specification: net income 100, free cash
    flow 80, debt 50, cash 70, 10 shares, price 5. *)
Definition sample_gate2 : dict :=
  env_dict (calculate_valuation 10 (30 # 100) no_supervisor
              (Some 5) (Some 100) (Some 80) (Some 50) (Some 70) (Some 10)).

Definition sample_gate3 (classification : pyval) : dict :=
  env_dict (ok_response "Gate 3 – Market Structure" [("classification", classification)]
              ["last_price"] 60 "Market structure classified" None None).

Definition sample_gate4 (risk_level : string) : dict :=
  env_dict (ok_response "Gate 4 – Impairment Risk"
              [("risk_level", VStr risk_level); ("reason", VStr "Coverage adequate")]
              ["net_income"] 70 "Impairment classified" None None).

Definition sample_gate5 : dict :=
  env_dict (calculate_position_size no_sizing_agent (Some (10 # 100)) (Some (10 # 100))
              (Some (2 # 100)) (Some "LOW") (Some (10 # 100)) false).

Lemma aggregate_verdict_precedence_witness :
  field (aggregate_verdict sample_gate2 (sample_gate3 (VStr "NEUTRAL"))
           (sample_gate4 "UNDETERMINED") sample_gate5 None) "status" = Some (VStr "OK") /\
  data_field (aggregate_verdict sample_gate2 (sample_gate3 (VStr "NEUTRAL"))
                (sample_gate4 "UNDETERMINED") sample_gate5 None) "verdict" =
    option_map VStr (spec_verdict (valuation_signal sample_gate2)
                       (impairment_level (sample_gate4 "UNDETERMINED"))).
Proof.
  assert (H : field (aggregate_verdict sample_gate2 (sample_gate3 (VStr "NEUTRAL"))
                       (sample_gate4 "UNDETERMINED") sample_gate5 None) "status"
              = Some (VStr "OK")) by (vm_compute; reflexivity).
  split; [exact H | exact (proj1 (aggregate_verdict_precedence _ _ _ _ _ H))].
Defined.

(** ** Claim C8 *)

(** C8 (counterexample): the market-structure envelope can change the verdict
    field: without a classification the verdict gate answers with the
    FINAL_VERDICT_MISSING_INPUTS error and no verdict, while with one it answers
    INVEST on the same other inputs; and a HEADWIND classification lowers the
    confidence by 10, so it is not surfaced only in the summary and risk notes. *)
Lemma market_structure_changes_output :
  data_field (aggregate_verdict sample_gate2 (sample_gate3 VNone) (sample_gate4 "LOW")
                sample_gate5 None) "verdict" = None /\
  error_code (aggregate_verdict sample_gate2 (sample_gate3 VNone) (sample_gate4 "LOW")
                sample_gate5 None) = Some (VStr "FINAL_VERDICT_MISSING_INPUTS") /\
  data_field (aggregate_verdict sample_gate2 (sample_gate3 (VStr "NEUTRAL"))
                (sample_gate4 "LOW") sample_gate5 None) "verdict" = Some (VStr "INVEST") /\
  data_field (aggregate_verdict sample_gate2 (sample_gate3 (VStr "NEUTRAL"))
                (sample_gate4 "LOW") sample_gate5 None) "confidence" = Some (VInt 60) /\
  data_field (aggregate_verdict sample_gate2 (sample_gate3 (VStr "HEADWIND"))
                (sample_gate4 "LOW") sample_gate5 None) "confidence" = Some (VInt 50).
Proof. vm_compute. repeat split. Qed.

(** The diagnostics [aggregate_verdict] reads from one gate output. *)
Definition gate_diagnostics (payload : dict) : pyval := snd (fst (extract_gate_parts payload)).

(** The market-structure classification of a gate 3 output, as the verdict
    gate reads it. *)
Definition market_classification_of (gate3_output : dict) : string :=
  upper (py_str (get (gate_data gate3_output) "classification" (VStr "NO_RELEVANT_DATA_FOUND"))).

(** Two successful runs of the [try] block of [aggregate_verdict] that differ
    only in the gate 3 data compute the same margin of safety and the same
    missing-data flag. *)
Lemma aggregate_try_classification g2d g2g g3d g3d' g3g g4d g4g g5d g5g st g1 env env' l l' :
  aggregate_try g2d g2g g3d g3g g4d g4g g5d g5g st g1 [] = (inr env, l) ->
  aggregate_try g2d g2g g3d' g3g g4d g4g g5d g5g st g1 [] = (inr env', l') ->
  exists mos kdm,
    data_field env "confidence" =
      Some (VInt (deterministic_confidence mos
                    (upper (py_str (get g4d "risk_level" (VStr "UNDETERMINED"))))
                    (upper (py_str (get g3d "classification" (VStr "NO_RELEVANT_DATA_FOUND"))))
                    kdm)) /\
    data_field env' "confidence" =
      Some (VInt (deterministic_confidence mos
                    (upper (py_str (get g4d "risk_level" (VStr "UNDETERMINED"))))
                    (upper (py_str (get g3d' "classification" (VStr "NO_RELEVANT_DATA_FOUND"))))
                    kdm)).
Proof.
  unfold aggregate_try. intros H H'.
  peel H. rename Hm into M1, a into mos, log into lg1.
  peel H'. rewrite M1 in Hm. injection Hm as <- <-.
  destruct (verdict_rule _ _) as [verdict setup].
  peel H. rename Hm into M2, a into kdm, log into lg2.
  peel H'. rewrite M2 in Hm. injection Hm as <- <-.
  apply ret_inv in H. apply ret_inv in H'. destruct H as [-> _]. destruct H' as [-> _].
  exists mos, kdm. cbv zeta. split; destruct (andb _ _); reflexivity.
Qed.

Lemma deterministic_confidence_headwind mos risk ms kdm :
  String.eqb ms "HEADWIND" = false ->
  deterministic_confidence mos risk ms kdm =
    (deterministic_confidence mos risk "HEADWIND" kdm + 10)%Z.
Proof.
  intro H. unfold deterministic_confidence. rewrite H.
  destruct mos as [m|]; [destruct (Qltb m (-1))|];
    destruct (String.eqb risk "LOW"), kdm; vm_compute; reflexivity.
Qed.

(** C8 (amended): for two invocations that differ only in the market-structure
    envelope and both answer [OK], the verdict (and the rule that fired) is the
    same: the classification never enters the precedence chain.  It is still a
    required input: without a classification the gate answers with the
    FINAL_VERDICT_MISSING_INPUTS error whatever the other inputs.  And on
    otherwise identical inputs (same diagnostics), a HEADWIND classification
    gives a confidence exactly 10 below that of any other classification. *)
Theorem aggregate_verdict_market_structure_nonbinding g2 g3 g3' g4 g5 g1 :
  (field (aggregate_verdict g2 g3 g4 g5 g1) "status" = Some (VStr "OK") ->
   field (aggregate_verdict g2 g3' g4 g5 g1) "status" = Some (VStr "OK") ->
   data_field (aggregate_verdict g2 g3 g4 g5 g1) "verdict" =
     data_field (aggregate_verdict g2 g3' g4 g5 g1) "verdict" /\
   data_field (aggregate_verdict g2 g3 g4 g5 g1) "setup_label" =
     data_field (aggregate_verdict g2 g3' g4 g5 g1) "setup_label") /\
  (get (gate_data g3) "classification" VNone = VNone ->
   error_code (aggregate_verdict g2 g3 g4 g5 g1) = Some (VStr "FINAL_VERDICT_MISSING_INPUTS")) /\
  (field (aggregate_verdict g2 g3 g4 g5 g1) "status" = Some (VStr "OK") ->
   field (aggregate_verdict g2 g3' g4 g5 g1) "status" = Some (VStr "OK") ->
   gate_diagnostics g3 = gate_diagnostics g3' ->
   market_classification_of g3 = "HEADWIND" -> market_classification_of g3' <> "HEADWIND" ->
   exists c,
     data_field (aggregate_verdict g2 g3 g4 g5 g1) "confidence" = Some (VInt c) /\
     data_field (aggregate_verdict g2 g3' g4 g5 g1) "confidence" = Some (VInt (c + 10)%Z)).
Proof.
  split; [|split].
  - intros H1 H2.
    destruct (aggregate_verdict_ok _ _ _ _ _ H1) as (_ & -> & ->).
    destruct (aggregate_verdict_ok _ _ _ _ _ H2) as (_ & -> & ->).
    split; reflexivity.
  - intro H.
    pose proof (aggregate_verdict_cases g2 g3 g4 g5 g1) as Hc.
    unfold gate_data in H.
    destruct (extract_gate_parts g2) as [[g2d g2g] s2].
    destruct (extract_gate_parts g3) as [[g3d g3g] s3].
    destruct (extract_gate_parts g4) as [[g4d g4g] s4].
    destruct (extract_gate_parts g5) as [[g5d g5g] st].
    simpl fst in H. rewrite H in Hc.
    unfold missing_required_fields in Hc. cbn [app filter snd is_none map fst] in Hc.
    destruct Hc as [[_ ->] | [[Hn _] | [Hn _]]]; [reflexivity | discriminate Hn | discriminate Hn].
  - intros H1 H2 Hd Hh Hn.
    pose proof (aggregate_verdict_cases g2 g3 g4 g5 g1) as Hc.
    pose proof (aggregate_verdict_cases g2 g3' g4 g5 g1) as Hc'.
    unfold gate_diagnostics, market_classification_of, gate_data in *.
    destruct (extract_gate_parts g2) as [[g2d g2g] s2].
    destruct (extract_gate_parts g3) as [[g3d g3g] s3].
    destruct (extract_gate_parts g3') as [[g3d' g3g'] s3'].
    destruct (extract_gate_parts g4) as [[g4d g4g] s4].
    destruct (extract_gate_parts g5) as [[g5d g5g] st].
    simpl fst in *. simpl snd in Hd. subst g3g'.
    destruct Hc as [[_ E] | [[_ (e & log & _ & E)] | [_ (env & log & Ht & E)]]];
      rewrite E in H1 |- *; [rewrite error_response_status in H1; discriminate H1
                            | rewrite error_response_status in H1; discriminate H1|].
    destruct Hc' as [[_ E'] | [[_ (e & log' & _ & E')] | [_ (env' & log' & Ht' & E')]]];
      rewrite E' in H2 |- *; [rewrite error_response_status in H2; discriminate H2
                             | rewrite error_response_status in H2; discriminate H2|].
    destruct (aggregate_try_classification _ _ _ _ _ _ _ _ _ _ _ _ _ _ _ Ht Ht')
      as (mos & kdm & C & C').
    rewrite Hh in C. apply String.eqb_neq in Hn.
    rewrite (deterministic_confidence_headwind _ _ _ _ Hn) in C'.
    eexists. split; [exact C | exact C'].
Qed.

Lemma aggregate_verdict_market_structure_nonbinding_witness :
  exists c,
    data_field (aggregate_verdict sample_gate2 (sample_gate3 (VStr "HEADWIND"))
                  (sample_gate4 "LOW") sample_gate5 None) "confidence" = Some (VInt c) /\
    data_field (aggregate_verdict sample_gate2 (sample_gate3 (VStr "TAILWIND"))
                  (sample_gate4 "LOW") sample_gate5 None) "confidence" = Some (VInt (c + 10)%Z).
Proof.
  apply (proj2 (proj2 (aggregate_verdict_market_structure_nonbinding sample_gate2
                         (sample_gate3 (VStr "HEADWIND")) (sample_gate3 (VStr "TAILWIND"))
                         (sample_gate4 "LOW") sample_gate5 None)));
    first [vm_compute; reflexivity | vm_compute; discriminate].
Defined.

(** ** Claim C10 *)

Lemma missing_gate2_pass x y (extra : bool) :
  In "gate2_output.pass"
     (missing_required_fields
        ([("gate3_output.classification", x); ("gate4_output.risk_level", y)]
         ++ (if extra then [("gate2_output.pass", VNone)] else []))%list) <->
  extra = true.
Proof.
  unfold missing_required_fields.
  destruct x, y, extra; simpl; intuition (try discriminate; try congruence).
Qed.

Lemma in_map_VStr s l : In (VStr s) (map VStr l) <-> In s l.
Proof.
  rewrite in_map_iff. split.
  - intros (s' & Hs & Hin). inversion Hs. subst. exact Hin.
  - intro H. exists s. auto.
Qed.

Lemma diag_missing_error gate code msg inputs m bc :
  diag_missing (error_response gate code msg inputs (Some m) bc) = map VStr m.
Proof. reflexivity. Qed.

Lemma setup_label_valuation pass risk :
  snd (verdict_rule pass risk) = "Valuation discipline breached" <-> pass = false.
Proof.
  unfold verdict_rule. destruct pass; simpl.
  - destruct (String.eqb risk "HIGH"); [simpl; split; discriminate|].
    destruct (String.eqb risk "UNDETERMINED"); [simpl; split; discriminate|].
    destruct (String.eqb risk "LOW"); simpl; split; discriminate.
  - split; reflexivity.
Qed.

(** C10: the valuation-pass signal is [bool(pass or passes)] of the valuation
    data.  The REJECT-on-valuation branch of the verdict gate (setup label
    "Valuation discipline breached") fires exactly when both fields are falsy;
    the orchestrator suppresses sizing exactly when both are falsy; and the
    verdict gate reports the valuation signal as a missing input exactly when
    both fields are null (absent or None). *)
Theorem valuation_pass_or_passes g2 g3 g4 g5 g1 :
  let d := gate_data g2 in
  valuation_signal g2 = truthy (get d "pass" VNone) || truthy (get d "passes" VNone) /\
  (field (aggregate_verdict g2 g3 g4 g5 g1) "status" = Some (VStr "OK") ->
   (data_field (aggregate_verdict g2 g3 g4 g5 g1) "setup_label" =
      Some (VStr "Valuation discipline breached") <->
    truthy (get d "pass" VNone) = false /\ truthy (get d "passes" VNone) = false)) /\
  (dict_get g2 "data" = Some (VDict d) ->
   should_suppress_sizing g2 g4 =
     Some (negb (truthy (get d "pass" VNone) || truthy (get d "passes" VNone)))) /\
  (In (VStr "gate2_output.pass") (diag_missing (aggregate_verdict g2 g3 g4 g5 g1)) <->
   is_none (get d "pass" VNone) = true /\ is_none (get d "passes" VNone) = true).
Proof.
  cbv zeta. split; [reflexivity|]. split; [|split].
  - intros Hok. destruct (aggregate_verdict_ok _ _ _ _ _ Hok) as (_ & _ & ->). split.
    + intro H. inversion H as [H']. apply setup_label_valuation in H'.
      unfold valuation_signal, valuation_pass_of in H'. apply orb_false_iff in H'. exact H'.
    + intro H.
      assert (Hs : valuation_signal g2 = false)
        by (unfold valuation_signal, valuation_pass_of; apply orb_false_iff; exact H).
      rewrite Hs. reflexivity.
  - intro Hd. unfold should_suppress_sizing, get at 1. rewrite Hd. reflexivity.
  - pose proof (aggregate_verdict_cases g2 g3 g4 g5 g1) as Hc.
    unfold gate_data.
    destruct (extract_gate_parts g2) as [[g2d g2g] s2].
    destruct (extract_gate_parts g3) as [[g3d g3g] s3].
    destruct (extract_gate_parts g4) as [[g4d g4g] s4].
    destruct (extract_gate_parts g5) as [[g5d g5g] st].
    simpl fst. split.
    + destruct Hc as [[_ ->] | [[Hm (e & log & _ & ->)] | [Hm (env & log & Ht & ->)]]].
      * rewrite diag_missing_error, in_map_VStr, missing_gate2_pass.
        rewrite andb_true_iff. tauto.
      * intro H. simpl in H. contradiction.
      * apply aggregate_try_result in Ht. destruct Ht as (_ & -> & _). simpl. tauto.
    + intros [Hp Hps].
      rewrite Hp, Hps in Hc. simpl andb in Hc.
      destruct Hc as [[_ ->] | [[Hm _] | [Hm _]]].
      * rewrite diag_missing_error, in_map_VStr.
        apply (proj2 (missing_gate2_pass _ _ true)). reflexivity.
      * exfalso. unfold missing_required_fields in Hm.
        destruct (get g3d "classification" VNone), (get g4d "risk_level" VNone);
          simpl in Hm; discriminate.
      * exfalso. unfold missing_required_fields in Hm.
        destruct (get g3d "classification" VNone), (get g4d "risk_level" VNone);
          simpl in Hm; discriminate.
Qed.

Lemma valuation_pass_or_passes_witness :
  should_suppress_sizing
    [("status", VStr "OK"); ("data", VDict [("pass", VBool false); ("passes", VBool true)])]
    (sample_gate4 "LOW") = Some false.
Proof.
  exact (proj1 (proj2 (proj2 (valuation_pass_or_passes
    [("status", VStr "OK"); ("data", VDict [("pass", VBool false); ("passes", VBool true)])]
    (sample_gate3 (VStr "NEUTRAL")) (sample_gate4 "LOW") sample_gate5 None)))
    eq_refl).
Defined.

(* ------------------------------------------------------------------------- *)
(** ** The valuation gate *)

(** [envelope["data"][key][sub]] *)
Definition sub_field (o : option pyval) (key : string) : option pyval :=
  match o with Some v => field v key | None => None end.

Lemma py_div_inr x y log a log' :
  py_div x y log = (inr a, log') -> a = x / y /\ log' = (log ++ [y])%list /\ Qeq_bool y 0 = false.
Proof.
  unfold py_div. destruct (Qeq_bool y 0); intro H; inversion H; auto.
Qed.

Lemma Qle_bool_false_pos x : Qle_bool x 0 = false -> 0 < x.
Proof.
  intro H. apply Qnot_le_lt. intro Hle. apply Qle_bool_iff in Hle. congruence.
Qed.

Lemma Qeq_bool_pos x : 0 < x -> Qeq_bool x 0 = false.
Proof.
  intro H. apply not_true_iff_false. intro He. apply Qeq_bool_iff in He.
  rewrite He in H. discriminate.
Qed.

Section ValuationFacts.

Variable VALUATION_MULTIPLE REQUIRED_MARGIN : Q.
Variable run_valuation_supervisor : dict -> pyval.

Local Notation valuation_try :=
  (valuation_try VALUATION_MULTIPLE REQUIRED_MARGIN run_valuation_supervisor).
Local Notation valuation_figures := (valuation_figures VALUATION_MULTIPLE REQUIRED_MARGIN).
Local Notation calculate_valuation_run :=
  (calculate_valuation_run VALUATION_MULTIPLE REQUIRED_MARGIN run_valuation_supervisor).

(** The divisions of the [try] block never raise once the share count is
    non-zero. *)
Lemma valuation_try_total mp ni fcf td c so :
  Qeq_bool so 0 = false ->
  exists env log, valuation_try mp ni fcf td c so [] = (inr env, log).
Proof.
  intro Hso. unfold valuation_try_ref, bind, py_div, ret.
  cbv beta iota zeta. rewrite Hso.
  set (ip := fig_intrinsic_equity (valuation_figures ni fcf td c) / so).
  destruct (Qle_bool ip 0) eqn:Hip; [eauto|].
  pose proof (Qeq_bool_pos _ (Qle_bool_false_pos _ Hip)) as E.
  destruct (Qeq_bool ip 0); [discriminate|].
  destruct (Qle_bool (fig_required_margin_used _) _); simpl; eauto.
Qed.

(** What the [try] block returns when it does not raise: the fields of the
    data dict, by branch on the sign of [intrinsic_price], together with the
    divisors of the divisions it performed. *)
Lemma valuation_try_result mp ni fcf td c so env log f ip :
  f = valuation_figures ni fcf td c ->
  ip = fig_intrinsic_equity f / so ->
  valuation_try mp ni fcf td c so [] = (inr env, log) ->
  field env "status" = Some (VStr "OK") /\
  data_field env "owner_earnings" = Some (round_val (fig_owner_earnings f) 2) /\
  data_field env "owner_earnings_source_used" = Some (VStr (fig_owner_earnings_source f)) /\
  data_field env "net_debt" = Some (round_val (fig_net_debt f) 2) /\
  data_field env "effective_net_debt" = Some (round_val (fig_effective_net_debt f) 2) /\
  data_field env "intrinsic_price" = Some (round_val ip 2) /\
  data_field env "required_margin" = Some (round_val (fig_required_margin_used f) 4) /\
  sub_field (data_field env "valuation_anchor") "multiple_used"
    = Some (round_val (fig_multiple_used f) 4) /\
  (Qle_bool ip 0 = true ->
     log = [so] /\
     data_field env "margin_of_safety" = Some VNone /\
     data_field env "pass" = Some (VBool false) /\
     data_field env "passes" = Some (VBool false) /\
     data_field env "valuation_band" = Some (VStr "IMPAIRED")) /\
  (Qle_bool ip 0 = false ->
     (log = [so; ip] \/ log = [so; ip; ip]) /\
     data_field env "margin_of_safety" = Some (round_val ((ip - mp) / ip) 4) /\
     data_field env "pass"
       = Some (VBool (Qle_bool (fig_required_margin_used f) ((ip - mp) / ip))) /\
     data_field env "passes"
       = Some (VBool (Qle_bool (fig_required_margin_used f) ((ip - mp) / ip))) /\
     data_field env "valuation_band" = Some (VStr (valuation_band ((ip - mp) / ip)))).
Proof.
  intros Hf Hip H. subst f ip.
  unfold valuation_try_ref, bind, py_div, ret in H. cbv beta iota zeta in H.
  destruct (Qeq_bool so 0); [discriminate H|].
  set (ip := fig_intrinsic_equity (valuation_figures ni fcf td c) / so) in *.
  destruct (Qle_bool ip 0) eqn:Hle.
  - injection H as <- <-.
    repeat split; try reflexivity; discriminate.
  - destruct (Qeq_bool ip 0); [discriminate H|].
    destruct (Qle_bool (fig_required_margin_used _) ((ip - mp) / ip));
      cbv beta iota in H; injection H as <- <-;
      (repeat split; try reflexivity; try discriminate); auto.
Qed.

Local Notation calculate_valuation :=
  (calculate_valuation VALUATION_MULTIPLE REQUIRED_MARGIN run_valuation_supervisor).

Lemma Qle_bool_pos_false x : 0 < x -> Qle_bool x 0 = false.
Proof.
  intro H. apply not_true_iff_false. intro Hle. apply Qle_bool_iff in Hle.
  apply (Qlt_not_le _ _ H Hle).
Qed.

(** With every required input present and a positive share count, the
    result is the one the [try] block returns. *)
Lemma calculate_valuation_run_ok mp ni fcf td c so :
  0 < so ->
  exists env log,
    calculate_valuation_run (Some mp) (Some ni) fcf (Some td) (Some c) (Some so) = (env, log) /\
    valuation_try mp ni fcf td c so [] = (inr env, log).
Proof.
  intro Hso.
  destruct (valuation_try_total mp ni fcf td c so (Qeq_bool_pos _ Hso)) as (env & log & E).
  exists env, log. split; [|exact E].
  unfold calculate_valuation_run_ref. simpl.
  rewrite (Qle_bool_pos_false _ Hso). unfold run_try. rewrite E. reflexivity.
Qed.

Lemma Qle_bool_true x y : x <= y -> Qle_bool x y = true.
Proof. apply Qle_bool_iff. Qed.

Lemma Qle_bool_false x y : y < x -> Qle_bool x y = false.
Proof.
  intro H. apply not_true_iff_false. intro Hle. apply Qle_bool_iff in Hle.
  apply (Qlt_not_le _ _ H Hle).
Qed.

Lemma py_min_le a b : a <= b -> py_min a b = a.
Proof. intro H. unfold py_min, Qltb. rewrite (Qle_bool_true _ _ H). reflexivity. Qed.

Lemma py_min_lt a b : b < a -> py_min a b = b.
Proof. intro H. unfold py_min, Qltb. rewrite (Qle_bool_false _ _ H). reflexivity. Qed.

Lemma py_max_le a b : b <= a -> py_max a b = a.
Proof. intro H. unfold py_max, Qltb. rewrite (Qle_bool_true _ _ H). reflexivity. Qed.

Lemma py_max_lt a b : a < b -> py_max a b = b.
Proof. intro H. unfold py_max, Qltb. rewrite (Qle_bool_false _ _ H). reflexivity. Qed.

(** C2 (amended). For a valid input whose intrinsic price is positive, the
    returned [margin_of_safety] is [(intrinsic_price - market_price) /
    intrinsic_price] rounded to 4 decimals, while [pass] and
    [valuation_band] are decided on the unrounded value: [pass] holds iff it
    is at least the required margin in force, and the band is [DEEP_VALUE]
    from 0.50, [FAIR] on [0, 0.50) and [EXPENSIVE] below 0. *)
Theorem valuation_margin_of_safety_rounded mp ni fcf td c so
  (Hso : 0 < so)
  (Hip : 0 < fig_intrinsic_equity (valuation_figures ni fcf td c) / so) :
  let ip := fig_intrinsic_equity (valuation_figures ni fcf td c) / so in
  let m := (ip - mp) / ip in
  let env := calculate_valuation (Some mp) (Some ni) fcf (Some td) (Some c) (Some so) in
  field env "status" = Some (VStr "OK") /\
  data_field env "margin_of_safety" = Some (round_val m 4) /\
  (exists b, data_field env "pass" = Some (VBool b) /\
     (b = true <-> fig_required_margin_used (valuation_figures ni fcf td c) <= m)) /\
  ((50 # 100) <= m -> data_field env "valuation_band" = Some (VStr "DEEP_VALUE")) /\
  (0 <= m -> m < 50 # 100 -> data_field env "valuation_band" = Some (VStr "FAIR")) /\
  (m < 0 -> data_field env "valuation_band" = Some (VStr "EXPENSIVE")).
Proof.
  cbv zeta.
  destruct (calculate_valuation_run_ok mp ni fcf td c so Hso) as (env & log & E1 & E2).
  unfold calculate_valuation_ref. rewrite E1. simpl fst.
  destruct (valuation_try_result _ _ _ _ _ _ _ _ _ _ eq_refl eq_refl E2)
    as (Hs & _ & _ & _ & _ & _ & _ & _ & _ & Hpos).
  destruct (Hpos (Qle_bool_pos_false _ Hip)) as (_ & Hm & Hp & _ & Hb).
  rewrite Hb. unfold valuation_band.
  split; [exact Hs|]. split; [exact Hm|]. split.
  { eexists. split; [exact Hp|]. apply Qle_bool_iff. }
  split; [|split].
  - intro H. rewrite (Qle_bool_true _ _ H). reflexivity.
  - intros H0 H5. rewrite (Qle_bool_false _ _ H5), (Qle_bool_true _ _ H0). reflexivity.
  - intro H. rewrite (Qle_bool_false (50 # 100) _), (Qle_bool_false 0 _ H); [reflexivity|].
    apply (Qlt_trans _ 0); [exact H|reflexivity].
Qed.

(** C4. For a valid input whose intrinsic price is not positive, the result
    is an [OK] envelope with band [IMPAIRED], [pass] and [passes] false and a
    null [margin_of_safety]; the only division the computation performs is
    the one by the share count, so no division by the intrinsic price is
    attempted. *)
Theorem valuation_impaired_no_division mp ni fcf td c so
  (Hso : 0 < so)
  (Hip : fig_intrinsic_equity (valuation_figures ni fcf td c) / so <= 0) :
  let run := calculate_valuation_run (Some mp) (Some ni) fcf (Some td) (Some c) (Some so) in
  field (fst run) "status" = Some (VStr "OK") /\
  data_field (fst run) "valuation_band" = Some (VStr "IMPAIRED") /\
  data_field (fst run) "pass" = Some (VBool false) /\
  data_field (fst run) "passes" = Some (VBool false) /\
  data_field (fst run) "margin_of_safety" = Some VNone /\
  snd run = [so].
Proof.
  cbv zeta.
  destruct (calculate_valuation_run_ok mp ni fcf td c so Hso) as (env & log & E1 & E2).
  rewrite E1. simpl fst. simpl snd.
  destruct (valuation_try_result _ _ _ _ _ _ _ _ _ _ eq_refl eq_refl E2)
    as (Hs & _ & _ & _ & _ & _ & _ & _ & Himp & _).
  destruct (Himp (Qle_bool_true _ _ Hip)) as (Hl & Hm & Hp & Hps & Hb).
  repeat split; assumption.
Qed.

(** C3. The figures of the deterministic core: owner earnings are the net
    income without a free cash flow and the smaller of the two otherwise,
    with the source recorded; the net debt is debt minus cash; a net cash
    position (net debt at most 0) raises the multiple by 2, takes the
    required margin [max(0.20, base - 0.05)] and an effective net debt of
    0, while a positive net debt keeps the base multiple and margin and is
    subtracted in full.  A valid input reports these figures (rounded to 2
    decimals for amounts, 4 for the multiple and the margin). *)
Theorem valuation_policy_figures mp ni fcf td c so (Hso : 0 < so) :
  let f := valuation_figures ni fcf td c in
  let env := calculate_valuation (Some mp) (Some ni) fcf (Some td) (Some c) (Some so) in
  (fcf = None -> fig_owner_earnings f = ni /\ fig_owner_earnings_source f = "NET_INCOME") /\
  (forall x, fcf = Some x ->
     (ni <= x -> fig_owner_earnings f = ni /\ fig_owner_earnings_source f = "NET_INCOME") /\
     (x < ni -> fig_owner_earnings f = x /\ fig_owner_earnings_source f = "FREE_CASH_FLOW")) /\
  fig_net_debt f = td - c /\
  (td - c <= 0 ->
     fig_multiple_used f = VALUATION_MULTIPLE + 2 /\
     (REQUIRED_MARGIN - (5 # 100) <= 20 # 100 -> fig_required_margin_used f = 20 # 100) /\
     (20 # 100 < REQUIRED_MARGIN - (5 # 100) ->
        fig_required_margin_used f = REQUIRED_MARGIN - (5 # 100)) /\
     fig_effective_net_debt f = 0) /\
  (0 < td - c ->
     fig_multiple_used f = VALUATION_MULTIPLE /\
     fig_required_margin_used f = REQUIRED_MARGIN /\
     fig_effective_net_debt f = td - c) /\
  field env "status" = Some (VStr "OK") /\
  data_field env "owner_earnings" = Some (round_val (fig_owner_earnings f) 2) /\
  data_field env "owner_earnings_source_used" = Some (VStr (fig_owner_earnings_source f)) /\
  data_field env "net_debt" = Some (round_val (fig_net_debt f) 2) /\
  data_field env "effective_net_debt" = Some (round_val (fig_effective_net_debt f) 2) /\
  data_field env "required_margin" = Some (round_val (fig_required_margin_used f) 4) /\
  sub_field (data_field env "valuation_anchor") "multiple_used"
    = Some (round_val (fig_multiple_used f) 4).
Proof.
  cbv zeta.
  destruct (calculate_valuation_run_ok mp ni fcf td c so Hso) as (env & log & E1 & E2).
  unfold calculate_valuation_ref. rewrite E1. simpl fst.
  destruct (valuation_try_result _ _ _ _ _ _ _ _ _ _ eq_refl eq_refl E2)
    as (Hs & Ho & Hsrc & Hnd & Hend & _ & Hrm & Hmu & _ & _).
  refine (conj _ (conj _ (conj _ (conj _ (conj _ _))))).
  6: repeat split; assumption.
  all: unfold valuation_figures_ref, owner_earnings_of, valuation_policy.
  - intros ->. destruct (Qle_bool (td - c) 0); split; reflexivity.
  - intros x ->. split; intro H.
    + rewrite (py_min_le _ _ H), (Qle_bool_true _ _ H).
      destruct (Qle_bool (td - c) 0); split; reflexivity.
    + rewrite (py_min_lt _ _ H), (Qle_bool_false _ _ H).
      destruct (Qle_bool (td - c) 0); split; reflexivity.
  - destruct fcf, (Qle_bool (td - c) 0); reflexivity.
  - intro H. rewrite (Qle_bool_true _ _ H).
    destruct fcf; simpl; rewrite (py_max_le 0 _ H);
      (split; [reflexivity|split; [|split; [|reflexivity]]]); intro H'.
    all: first [ apply py_max_le; exact H' | apply py_max_lt; exact H' ].
  - intro H. rewrite (Qle_bool_false _ _ H).
    destruct fcf; simpl; rewrite (py_max_lt 0 _ H); repeat split.
Qed.

(** C5 (amended). The valuation gate answers [ERROR] exactly when a required
    input (market price, net income, total debt, cash, share count) is
    missing, with code [VALUATION_MISSING_INPUTS], or when the share count is
    not positive, with code [VALUATION_INVALID_SHARES]; an [ERROR] envelope
    carries an empty data dict and confidence 0. *)
Theorem valuation_error_codes mp ni fcf td c so :
  let env := calculate_valuation mp ni fcf td c so in
  (field env "status" = Some (VStr "ERROR") <->
     (mp = None \/ ni = None \/ td = None \/ c = None \/ so = None) \/
     (exists s, so = Some s /\ s <= 0)) /\
  ((mp = None \/ ni = None \/ td = None \/ c = None \/ so = None) ->
     error_code env = Some (VStr "VALUATION_MISSING_INPUTS")) /\
  (forall m n t k s, mp = Some m -> ni = Some n -> td = Some t -> c = Some k ->
     so = Some s -> s <= 0 ->
     error_code env = Some (VStr "VALUATION_INVALID_SHARES")) /\
  (field env "status" = Some (VStr "ERROR") ->
     field env "data" = Some (VDict []) /\ field env "confidence" = Some (VInt 0)).
Proof.
  cbv zeta.
  destruct mp as [m|], ni as [n|], td as [t|], c as [k|], so as [s|].
  2-32: unfold calculate_valuation_ref, calculate_valuation_run_ref; simpl;
    (split; [split; [intros _; left; repeat first [left; reflexivity | right]; reflexivity
                    | reflexivity]
            |split; [reflexivity|split; [intros; congruence|split; reflexivity]]]).
  destruct (Qle_bool s 0) eqn:Hs.
  - unfold calculate_valuation_ref, calculate_valuation_run_ref. simpl.
    rewrite Hs. simpl.
    split; [split; [intros _; right; exists s; split; [reflexivity|apply Qle_bool_iff; exact Hs]
                   | reflexivity]|].
    split; [intros [H|[H|[H|[H|H]]]]; discriminate|].
    split; [reflexivity|split; reflexivity].
  - pose proof (Qle_bool_false_pos _ Hs) as Hpos.
    destruct (calculate_valuation_run_ok m n fcf t k s Hpos) as (env & log & E1 & E2).
    unfold calculate_valuation_ref. rewrite E1. simpl fst.
    destruct (valuation_try_result _ _ _ _ _ _ _ _ _ _ eq_refl eq_refl E2) as (Hst & _).
    rewrite Hst.
    split; [split; [discriminate|]|].
    { intros [[H|[H|[H|[H|H]]]]|(s' & Hs' & Hle)]; try discriminate.
      injection Hs' as <-. apply Qle_bool_iff in Hle. congruence. }
    split; [intros [H|[H|[H|[H|H]]]]; discriminate|].
    split; [|discriminate].
    intros m' n' t' k' s' _ _ _ _ Hs' Hle. injection Hs' as <-.
    apply Qle_bool_iff in Hle. congruence.
Qed.

End ValuationFacts.

(** C2. With price 8, net income 12 -> intrinsic price 12 per share (no
    debt, no cash, one share; multiple 10 + 2 for the net cash position),
    the exact margin of safety is (12 - 8) / 12 = 1/3, but the gate reports
    0.3333. *)
Lemma margin_of_safety_is_rounded :
  let env := calculate_valuation 10 (30 # 100) no_supervisor
               (Some 8) (Some 1) None (Some 0) (Some 0) (Some 1) in
  data_field env "intrinsic_price" = Some (VFloat (1200 # 100)) /\
  data_field env "market_price" = Some (VFloat (800 # 100)) /\
  data_field env "margin_of_safety" = Some (VFloat (3333 # 10000)) /\
  ~ ((3333 # 10000) == (12 - 8) / 12).
Proof.
  vm_compute. split; [reflexivity|split; [reflexivity|split; [reflexivity|discriminate]]].
Qed.

Lemma valuation_margin_of_safety_rounded_witness :
  0 < 1 /\ 0 < fig_intrinsic_equity (valuation_figures 10 (30 # 100) 1 None 0 0) / 1 /\
  data_field (calculate_valuation 10 (30 # 100) no_supervisor
                (Some 8) (Some 1) None (Some 0) (Some 0) (Some 1)) "margin_of_safety"
    = Some (round_val ((12 - 8) / 12) 4).
Proof.
  assert (H1 : 0 < 1) by reflexivity.
  assert (H2 : 0 < fig_intrinsic_equity (valuation_figures 10 (30 # 100) 1 None 0 0) / 1)
    by (vm_compute; reflexivity).
  split; [exact H1|split; [exact H2|]].
  exact (proj1 (proj2 (valuation_margin_of_safety_rounded 10 (30 # 100) no_supervisor
           8 1 None 0 0 1 H1 H2))).
Defined.

Lemma valuation_impaired_no_division_witness :
  0 < 10 /\ fig_intrinsic_equity (valuation_figures 10 (30 # 100) (-5) None 0 0) / 10 <= 0 /\
  snd (calculate_valuation_run 10 (30 # 100) no_supervisor
         (Some 3) (Some (-5)) None (Some 0) (Some 0) (Some 10)) = [10].
Proof.
  assert (H1 : 0 < 10) by reflexivity.
  assert (H2 : fig_intrinsic_equity (valuation_figures 10 (30 # 100) (-5) None 0 0) / 10 <= 0)
    by (vm_compute; discriminate).
  split; [exact H1|split; [exact H2|]].
  exact (proj2 (proj2 (proj2 (proj2 (proj2 (valuation_impaired_no_division 10 (30 # 100)
           no_supervisor 3 (-5) None 0 0 10 H1 H2)))))).
Defined.

Lemma valuation_policy_figures_witness :
  0 < 10 /\
  fig_multiple_used (valuation_figures 10 (30 # 100) 100 (Some 80) 50 70) = 10 + 2.
Proof.
  assert (H1 : 0 < 10) by reflexivity.
  split; [exact H1|].
  exact (proj1 (proj1 (proj2 (proj2 (proj2 (valuation_policy_figures 10 (30 # 100)
           no_supervisor 5 100 (Some 80) 50 70 10 H1)))) (ltac:(vm_compute; discriminate)))).
Defined.

(** C5. A missing market price is reported under the code
    [VALUATION_MISSING_INPUTS], not [MISSING_INPUTS]. *)
Lemma valuation_missing_input_code :
  let env := calculate_valuation 10 (30 # 100) no_supervisor
               None (Some 1) None (Some 0) (Some 0) (Some 1) in
  field env "status" = Some (VStr "ERROR") /\
  error_code env = Some (VStr "VALUATION_MISSING_INPUTS") /\
  error_code env <> Some (VStr "MISSING_INPUTS").
Proof.
  vm_compute. split; [reflexivity|split; [reflexivity|discriminate]].
Qed.

Lemma valuation_error_codes_witness :
  error_code (calculate_valuation 10 (30 # 100) no_supervisor
                (Some 5) (Some 1) None (Some 0) (Some 0) (Some 0))
    = Some (VStr "VALUATION_INVALID_SHARES").
Proof.
  exact (proj1 (proj2 (proj2 (valuation_error_codes 10 (30 # 100) no_supervisor
           (Some 5) (Some 1) None (Some 0) (Some 0) (Some 0))))
           5 1 0 0 0 eq_refl eq_refl eq_refl eq_refl eq_refl (Qle_refl 0)).
Defined.

(* ------------------------------------------------------------------------- *)
(** ** The sizing gate *)

(** The reading of "the factor with the minimum value, ties broken by the
    order VOLATILITY, DRAWDOWN, CORRELATION, MACRO": the first factor that is
    at most every factor. *)
Definition spec_binding (fv fd fc fm : Q) : string :=
  let is_min x := forallb (fun y => Qle_bool x y) [fv; fd; fc; fm] in
  if is_min fv then "VOLATILITY"
  else if is_min fd then "DRAWDOWN"
  else if is_min fc then "CORRELATION"
  else "MACRO".

(** [max(1.0, min(x, 10.0))] read as the clamp of the specification. *)
Definition spec_clamp (x : Q) : Q :=
  if Qle_bool x 1 then 1 else if Qle_bool 10 x then 10 else x.

Lemma py_min_cases a b :
  (py_min a b = a \/ py_min a b = b) /\ py_min a b <= a /\ py_min a b <= b.
Proof.
  unfold py_min, Qltb. destruct (Qle_bool a b) eqn:E; simpl.
  - apply Qle_bool_iff in E. split; [left; reflexivity|split; [apply Qle_refl|exact E]].
  - assert (H : b < a) by (apply Qnot_le_lt; intro H; apply Qle_bool_iff in H; congruence).
    split; [right; reflexivity|split; [apply Qlt_le_weak; exact H|apply Qle_refl]].
Qed.

Lemma min_values_spec a l :
  In (min_values a l) (a :: l) /\ Forall (fun y => min_values a l <= y) (a :: l).
Proof.
  unfold min_values. revert a. induction l as [|b l IH]; intro a; simpl.
  - split; [left; reflexivity|]. constructor; [apply Qle_refl|constructor].
  - destruct (IH (py_min a b)) as [Hin Hall].
    destruct (py_min_cases a b) as [Hab [Ha Hb]].
    inversion Hall as [|? ? Hm Hrest]; subst.
    split.
    + destruct Hin as [Hin|Hin].
      * rewrite <- Hin. destruct Hab as [-> | ->]; [left|right; left]; reflexivity.
      * right; right; exact Hin.
    + constructor; [apply (Qle_trans _ _ _ Hm Ha)|].
      constructor; [apply (Qle_trans _ _ _ Hm Hb)|exact Hrest].
Qed.

Lemma Qeq_bool_min v m vals :
  In v vals -> In m vals -> Forall (fun y => m <= y) vals ->
  Qeq_bool v m = forallb (fun y => Qle_bool v y) vals.
Proof.
  intros Hv Hm Hall. rewrite Forall_forall in Hall.
  destruct (forallb (fun y => Qle_bool v y) vals) eqn:E.
  - rewrite forallb_forall in E. apply Qeq_bool_iff. apply Qle_antisym.
    + apply Qle_bool_iff. apply E. exact Hm.
    + apply Hall. exact Hv.
  - apply not_true_iff_false. intro Heq. apply Qeq_bool_iff in Heq.
    apply not_true_iff_false in E. apply E. apply forallb_forall. intros y Hy.
    apply Qle_bool_iff. rewrite Heq. apply Hall. exact Hy.
Qed.

Lemma binding_constraint_spec fv fd fc fm :
  binding_constraint_of
    [("VOLATILITY", fv); ("DRAWDOWN", fd); ("CORRELATION", fc); ("MACRO", fm)]
  = spec_binding fv fd fc fm.
Proof.
  destruct (min_values_spec fv [fd; fc; fm]) as [Hin Hall].
  unfold binding_constraint_of, spec_binding, BINDING_PRECEDENCE.
  cbn -[min_values Qeq_bool forallb Qle_bool].
  rewrite (Qeq_bool_min fv _ [fv; fd; fc; fm] ltac:(simpl; tauto) Hin Hall).
  rewrite (Qeq_bool_min fd _ [fv; fd; fc; fm] ltac:(simpl; tauto) Hin Hall).
  rewrite (Qeq_bool_min fc _ [fv; fd; fc; fm] ltac:(simpl; tauto) Hin Hall).
  destruct (forallb (fun y => Qle_bool fv y) [fv; fd; fc; fm]),
    (forallb (fun y => Qle_bool fd y) [fv; fd; fc; fm]),
    (forallb (fun y => Qle_bool fc y) [fv; fd; fc; fm]); try reflexivity.
  destruct (Qeq_bool fm _); reflexivity.
Qed.

Lemma round_half_even_bounds y a b :
  inject_Z a <= y -> y <= inject_Z b -> (a <= round_half_even y <= b)%Z.
Proof.
  intros Ha Hb. unfold round_half_even, Qltb. set (f := Qfloor y).
  assert (Haf : (a <= f)%Z)
    by (rewrite <- (Qfloor_Z a); apply Qfloor_resp_le; exact Ha).
  assert (Hfb : (f <= b)%Z)
    by (rewrite <- (Qfloor_Z b); apply Qfloor_resp_le; exact Hb).
  destruct (Qle_bool (1 # 2) (y - inject_Z f)) eqn:E; simpl negb; cbv iota.
  - apply Qle_bool_iff in E.
    assert (Hlt : (f < b)%Z).
    { destruct (Z.eq_dec f b) as [Heq|Hne]; [|lia].
      exfalso. rewrite Heq in E. lra. }
    destruct (Qle_bool (y - inject_Z f) (1 # 2)); simpl negb; cbv iota;
      [destruct (Z.even f)|]; lia.
  - lia.
Qed.

(** Rounding to one decimal keeps a value of [1, 10] in [1, 10]. *)
Lemma round_float_1_bounds x : 1 <= x -> x <= 10 -> 1 <= round_float x 1 /\ round_float x 1 <= 10.
Proof.
  intros H1 H10. unfold round_float. change (pow10 1) with 10%positive.
  assert (Hl : inject_Z 10 <= x * inject_Z (Zpos 10))
    by (change (inject_Z (Zpos 10)) with (10 # 1); change (inject_Z 10) with (10 # 1); lra).
  assert (Hu : x * inject_Z (Zpos 10) <= inject_Z 100)
    by (change (inject_Z (Zpos 10)) with (10 # 1); change (inject_Z 100) with (100 # 1); lra).
  destruct (round_half_even_bounds _ _ _ Hl Hu) as [Hn1 Hn2].
  unfold Qle; simpl; lia.
Qed.

(** The clamp [max(1.0, min(x, 10.0))] agrees with the clamp of [x] to
    [1, 10] and lies in [1, 10]. *)
Lemma py_clamp_spec x :
  py_max 1 (py_min x 10) == spec_clamp x /\
  1 <= py_max 1 (py_min x 10) /\ py_max 1 (py_min x 10) <= 10.
Proof.
  unfold spec_clamp. destruct (Qle_bool x 1) eqn:E1.
  - apply Qle_bool_iff in E1.
    rewrite (py_min_le x 10) by lra. rewrite (py_max_le 1 x) by exact E1. lra.
  - assert (H1 : 1 < x)
      by (apply Qnot_le_lt; intro H; apply Qle_bool_iff in H; congruence).
    destruct (Qle_bool 10 x) eqn:E2.
    + apply Qle_bool_iff in E2.
      destruct (py_min_cases x 10) as [[H|H] [Ha Hb]]; rewrite H in *.
      * rewrite (py_max_lt 1 x H1). lra.
      * rewrite (py_max_lt 1 10) by lra. lra.
    + assert (H10 : x < 10)
        by (apply Qnot_le_lt; intro H; apply Qle_bool_iff in H; congruence).
      rewrite (py_min_le x 10) by lra. rewrite (py_max_lt 1 x H1). lra.
Qed.

Lemma in_valid_credit_stress s :
  in_list s VALID_CREDIT_STRESS = true -> s = "LOW" \/ s = "MEDIUM" \/ s = "HIGH".
Proof.
  unfold in_list, VALID_CREDIT_STRESS. simpl.
  destruct (String.eqb s "LOW") eqn:E1; [left; apply String.eqb_eq; exact E1|].
  destruct (String.eqb s "MEDIUM") eqn:E2; [right; left; apply String.eqb_eq; exact E2|].
  destruct (String.eqb s "HIGH") eqn:E3; [right; right; apply String.eqb_eq; exact E3|].
  discriminate.
Qed.

Lemma macro_factor_ok r s :
  in_list s VALID_CREDIT_STRESS = true -> exists fm, macro_factor r s [] = (inr fm, []).
Proof.
  intro H. destruct (in_valid_credit_stress s H) as [-> | [-> | ->]];
    eexists; reflexivity.
Qed.

Section SizingFacts.

Variable run_sizing_agent :
  Q -> string -> list (string * Q) -> Q -> Q -> Q -> string -> Q -> option dict.

Local Notation sizing_try := (sizing_try run_sizing_agent).
Local Notation calculate_position_size := (calculate_position_size run_sizing_agent).

(** The [try] block on a valid credit-stress level and a decimal rate. *)
Lemma sizing_try_ok v d r cs c fm :
  in_list (upper cs) VALID_CREDIT_STRESS = true -> r <= 1 ->
  macro_factor r (upper cs) [] = (inr fm, []) ->
  exists env,
    sizing_try v d r cs c [] = (inr env, []) /\
    field env "status" = Some (VStr "OK") /\
    data_field env "maximum_position_size"
      = Some (round_val (py_max 1 (py_min (10 * volatility_factor v * drawdown_factor d
                                            * correlation_factor c * fm) 10)) 1) /\
    data_field env "binding_constraint"
      = Some (VStr (binding_constraint_of (sizing_factors v d c fm))).
Proof.
  intros Hcs Hr Hm.
  unfold sizing_try_ref, bind. cbv zeta.
  rewrite Hcs. unfold Qltb at 1. rewrite (Qle_bool_true _ _ Hr).
  cbv beta iota delta [negb].
  rewrite Hm. cbv beta iota.
  eexists. split; [reflexivity|].
  destruct (run_sizing_agent _ _ _ _ _ _ _ _) as [[|kv o]|];
    (split; [reflexivity|split; reflexivity]).
Qed.

Lemma calculate_position_size_try v d r cs c env log :
  sizing_try v d r cs c [] = (inr env, log) ->
  calculate_position_size (Some v) (Some d) (Some r) (Some cs) (Some c) false = env.
Proof.
  intro E. unfold calculate_position_size_ref, run_try.
  cbn -[sizing_try_ref]. rewrite E. reflexivity.
Qed.

(** C6 (amended). On the computation path (no upstream reject, every input
    present, a valid credit-stress level after upper-casing and a decimal
    rate), the position size is [max(1.0, min(10.0 * product of the four
    factors, 10.0))], which is the clamp of that product to [1, 10]; the
    gate reports it rounded to one decimal, which stays in [1, 10]; and the
    binding constraint is the first factor, in the order VOLATILITY,
    DRAWDOWN, CORRELATION, MACRO, whose value is the minimum. *)
Theorem position_size_rounded_clamp v d r cs c
  (Hcs : in_list (upper cs) VALID_CREDIT_STRESS = true) (Hr : r <= 1) :
  exists fm, macro_factor r (upper cs) [] = (inr fm, []) /\
  let fv := volatility_factor v in
  let fd := drawdown_factor d in
  let fc := correlation_factor c in
  let p := py_max 1 (py_min (10 * fv * fd * fc * fm) 10) in
  let env := calculate_position_size (Some v) (Some d) (Some r) (Some cs) (Some c) false in
  field env "status" = Some (VStr "OK") /\
  p == spec_clamp (10 * fv * fd * fc * fm) /\ 1 <= p /\ p <= 10 /\
  data_field env "maximum_position_size" = Some (round_val p 1) /\
  1 <= round_float p 1 /\ round_float p 1 <= 10 /\
  data_field env "binding_constraint" = Some (VStr (spec_binding fv fd fc fm)).
Proof.
  destruct (macro_factor_ok r _ Hcs) as [fm Hm].
  exists fm. split; [exact Hm|]. cbv zeta.
  destruct (sizing_try_ok v d r cs c fm Hcs Hr Hm) as (env & E & Hs & Hp & Hb).
  rewrite (calculate_position_size_try _ _ _ _ _ _ _ E).
  destruct (py_clamp_spec (10 * volatility_factor v * drawdown_factor d
                              * correlation_factor c * fm)) as (Hc & H1 & H10).
  destruct (round_float_1_bounds _ H1 H10) as [R1 R10].
  split; [exact Hs|]. split; [exact Hc|]. split; [exact H1|]. split; [exact H10|].
  split; [exact Hp|]. split; [exact R1|]. split; [exact R10|].
  rewrite Hb. unfold sizing_factors. rewrite binding_constraint_spec. reflexivity.
Qed.

(** C7 (amended). The sizing gate answers [SKIPPED] with a null
    [maximum_position_size] exactly when [upstream_reject] is set, a required
    input is missing, the upper-cased credit-stress level is not one of LOW,
    MEDIUM, HIGH, or the rate exceeds 1.0; with [upstream_reject] set the
    answer is the fixed skipped envelope, whatever the other inputs. *)
Theorem position_size_skipped_iff vol dd rate cs corr up :
  let env := calculate_position_size vol dd rate cs corr up in
  ((field env "status" = Some (VStr "SKIPPED") /\
    data_field env "maximum_position_size" = Some VNone) <->
   up = true \/
   (vol = None \/ dd = None \/ rate = None \/ cs = None \/ corr = None) \/
   (exists s, cs = Some s /\ in_list (upper s) VALID_CREDIT_STRESS = false) \/
   (exists r, rate = Some r /\ 1 < r)) /\
  (up = true ->
   env = skipped_response GATE5_NAME (skipped_data UPSTREAM_REJECT_REASON) sizing_inputs_used
           UPSTREAM_REJECT_REASON None (Some "NOT_APPLICABLE")).
Proof.
  cbv zeta. destruct up.
  { split; [|reflexivity]. split; [intros _; left; reflexivity|intros _; split; reflexivity]. }
  split; [|discriminate].
  destruct vol as [v|], dd as [d|], rate as [r|], cs as [s|], corr as [c|].
  2-32: (split; [intros _; right; left; repeat first [left; reflexivity | right]; reflexivity
                |intros _; split; reflexivity]).
  destruct (in_list (upper s) VALID_CREDIT_STRESS) eqn:Hcs.
  - destruct (Qle_bool r 1) eqn:Hr.
    + apply Qle_bool_iff in Hr.
      destruct (macro_factor_ok r _ Hcs) as [fm Hm].
      destruct (sizing_try_ok v d r s c fm Hcs Hr Hm) as (env & E & Hs & _).
      rewrite (calculate_position_size_try _ _ _ _ _ _ _ E), Hs.
      split; [intros [H _]; discriminate|].
      intros [H|[[H|[H|[H|[H|H]]]]|[(s' & Hs' & Hin)|(r' & Hr' & Hlt)]]]; try discriminate.
      * injection Hs' as <-. congruence.
      * injection Hr' as <-. exfalso. apply (Qlt_not_le _ _ Hlt Hr).
    + assert (Hlt : 1 < r)
        by (apply Qnot_le_lt; intro H; apply Qle_bool_iff in H; congruence).
      unfold calculate_position_size_ref, run_try. cbn -[sizing_try_ref].
      assert (Hq : Qltb 1 r = true) by (unfold Qltb; rewrite Hr; reflexivity).
      unfold sizing_try_ref. cbv zeta. rewrite Hcs, Hq.
      cbv beta iota delta [negb].
      split; [intros _; right; right; right; exists r; split; [reflexivity|exact Hlt]|].
      intros _; split; reflexivity.
  - unfold calculate_position_size_ref, run_try. cbn -[sizing_try_ref].
    unfold sizing_try_ref. cbv zeta. rewrite Hcs. cbv beta iota delta [negb].
    split; [intros _; right; right; left; exists s; split; [reflexivity|exact Hcs]|].
    intros _; split; reflexivity.
Qed.

End SizingFacts.

(** C6. The sizing scenario of the specification (volatility 0.6, drawdown
    0.5, rate 0.08, credit stress HIGH, correlation 0.9) has the clamped
    product 10 x 0.55 x 0.55 x 0.55 x 0.70 = 1.164625, but the gate reports
    1.2. *)
Lemma position_size_reported_rounded :
  let env := calculate_position_size no_sizing_agent (Some (60 # 100)) (Some (50 # 100))
               (Some (8 # 100)) (Some "HIGH") (Some (90 # 100)) false in
  data_field env "maximum_position_size" = Some (VFloat (12 # 10)) /\
  spec_clamp (10 * (55 # 100) * (55 # 100) * (55 # 100) * (70 # 100)) == 1164625 # 1000000 /\
  ~ (12 # 10 == spec_clamp (10 * (55 # 100) * (55 # 100) * (55 # 100) * (70 # 100))).
Proof.
  vm_compute. split; [reflexivity|split; [reflexivity|discriminate]].
Qed.

Lemma position_size_rounded_clamp_witness :
  in_list (upper "HIGH") VALID_CREDIT_STRESS = true /\ 8 # 100 <= 1 /\
  exists fm, macro_factor (8 # 100) (upper "HIGH") [] = (inr fm, []).
Proof.
  assert (Hcs : in_list (upper "HIGH") VALID_CREDIT_STRESS = true) by reflexivity.
  assert (Hr : 8 # 100 <= 1) by (unfold Qle; simpl; lia).
  split; [exact Hcs|split; [exact Hr|]].
  destruct (position_size_rounded_clamp no_sizing_agent (60 # 100) (50 # 100) (8 # 100)
              "HIGH" (90 # 100) Hcs Hr) as [fm [Hm _]].
  exists fm. exact Hm.
Defined.

(** C7. The lower-case level [low] is not one of LOW, MEDIUM, HIGH, yet the
    gate sizes the position instead of skipping. *)
Lemma credit_stress_lowercase_accepted :
  let env := calculate_position_size no_sizing_agent (Some (10 # 100)) (Some (10 # 100))
               (Some (3 # 100)) (Some "low") (Some (10 # 100)) false in
  in_list "low" VALID_CREDIT_STRESS = false /\
  field env "status" = Some (VStr "OK") /\
  data_field env "maximum_position_size" = Some (VFloat (100 # 10)).
Proof.
  vm_compute. split; [reflexivity|split; reflexivity].
Qed.

Lemma position_size_skipped_iff_witness :
  calculate_position_size no_sizing_agent (Some (10 # 100)) None (Some 5) (Some "?")
    (Some (10 # 100)) true
  = skipped_response GATE5_NAME (skipped_data UPSTREAM_REJECT_REASON) sizing_inputs_used
      UPSTREAM_REJECT_REASON None (Some "NOT_APPLICABLE").
Proof.
  exact (proj2 (position_size_skipped_iff no_sizing_agent (Some (10 # 100)) None (Some 5)
           (Some "?") (Some (10 # 100)) true) eq_refl).
Defined.

(* ------------------------------------------------------------------------- *)
(** ** The two confidence scores *)

(** The lower-cased gate name [compute_pipeline_confidence] matches on. *)
Definition gate_name (r : dict) : string := lower (py_str (get r "gate" (VStr ""))).

Lemma prefix_exclusive p q s :
  String.length p = String.length q -> p <> q ->
  String.prefix p s = true -> String.prefix q s = false.
Proof.
  intros Hl Hne Hp. apply not_true_iff_false. intro Hq.
  apply String.prefix_correct in Hp. apply String.prefix_correct in Hq.
  rewrite Hl in Hp. congruence.
Qed.

Lemma find_gate_data_hit r l p d :
  String.prefix p (gate_name r) = true -> dict_get r "data" = Some (VDict d) ->
  find_gate_data (VDict r :: l) p = Some d.
Proof. intros Hp Hd. simpl. unfold gate_name in Hp. rewrite Hp, Hd. reflexivity. Qed.

Lemma find_gate_data_miss r l p :
  String.prefix p (gate_name r) = false -> find_gate_data (VDict r :: l) p = find_gate_data l p.
Proof. intro Hp. simpl. unfold gate_name in Hp. rewrite Hp. reflexivity. Qed.

(** Envelopes none of whose names starts with [p] are passed over. *)
Lemma find_gate_data_skip l1 l2 p :
  Forall (fun v => exists r, v = VDict r /\ String.prefix p (gate_name r) = false) l1 ->
  find_gate_data (l1 ++ l2) p = find_gate_data l2 p.
Proof.
  induction 1 as [|v l1 (r & -> & Hr) _ IH]; [reflexivity|].
  simpl app. rewrite find_gate_data_miss by exact Hr. exact IH.
Qed.

Lemma any_missing_app l1 l2 :
  any_missing l1 = Some false -> any_missing (l1 ++ l2) = any_missing l2.
Proof.
  induction l1 as [|v l1 IH]; [reflexivity|].
  destruct v; try discriminate. simpl.
  destruct (get d "diagnostics" (VDict [])); try discriminate.
  destruct (truthy _); [discriminate|exact IH].
Qed.

(** The verdict gate's [any(...)] over the diagnostics of its four inputs and
    the pipeline's over the same envelopes, followed by envelopes with no
    missing inputs, agree. *)
Lemma any_missing_diag gs tail log b log' :
  any_diag_missing (map (fun g => get g "diagnostics" (VDict [])) gs) log = (inr b, log') ->
  any_missing tail = Some false ->
  any_missing (map VDict gs ++ tail) = Some b.
Proof.
  revert log. induction gs as [|g gs IH]; intros log H Ht.
  - simpl in H. inversion H. exact Ht.
  - simpl in H |- *. unfold bind, py_get in H.
    destruct (get g "diagnostics" (VDict [])); try discriminate H.
    unfold ret in H. destruct (truthy _).
    + inversion H. reflexivity.
    + exact (IH _ H Ht).
Qed.

Lemma get_present d k x y : get d k VNone <> VNone -> get d k x = get d k y.
Proof. unfold get. destruct (dict_get d k); [reflexivity|]. intro H; contradiction. Qed.

Lemma py_float_number v l0 q l :
  py_float v l0 = (inr q, l) -> is_number v = true -> number_below_minus_one v = Qltb q (-1).
Proof.
  destruct v; simpl; intros H Hn; try discriminate Hn; unfold ret in H; inversion H; reflexivity.
Qed.

(** The confidence a successful [try] block of [aggregate_verdict] reports. *)
Lemma aggregate_try_confidence g2d g2g g3d g3g g4d g4g g5d g5g st g1 env log' :
  aggregate_try g2d g2g g3d g3g g4d g4g g5d g5g st g1 [] = (inr env, log') ->
  exists mos kdm log1 log2,
    ((get g2d "margin_of_safety" VNone = VNone /\ mos = None) \/
     (exists q l0 l, py_float (get g2d "margin_of_safety" VNone) l0 = (inr q, l) /\
                     mos = Some q)) /\
    any_diag_missing [g2g; g3g; g4g; g5g] log1 = (inr kdm, log2) /\
    data_field env "confidence" =
      Some (VInt (deterministic_confidence mos
                    (upper (py_str (get g4d "risk_level" (VStr "UNDETERMINED"))))
                    (upper (py_str (get g3d "classification" (VStr "NO_RELEVANT_DATA_FOUND"))))
                    kdm)) /\
    any_missing [env] = Some false.
Proof.
  unfold aggregate_try. intro H. peel H.
  destruct (verdict_rule _ _) as [verdict setup] eqn:Hv.
  peel H. apply ret_inv in H. destruct H as [-> _].
  exists a, a0, log, log0.
  split; [|split; [exact Hm0|split]].
  - destruct (get g2d "margin_of_safety" VNone) eqn:Em;
      try (apply ret_inv in Hm; left; split; [reflexivity|exact (proj1 Hm)]);
      try (right; peel Hm; apply ret_inv in Hm; destruct Hm as [-> _]; eauto).
  - cbv zeta. destruct (andb _ _); reflexivity.
  - reflexivity.
Qed.

Lemma extract_gate_parts_dict g d :
  dict_get g "data" = Some (VDict d) ->
  extract_gate_parts g = (d, get g "diagnostics" (VDict []), py_str (get g "status" (VStr ""))).
Proof. intro H. unfold extract_gate_parts. rewrite H. reflexivity. Qed.

Lemma missing_required_fields_two k1 v1 k2 v2 l :
  missing_required_fields ((k1, v1) :: (k2, v2) :: l) = [] ->
  v1 <> VNone /\ v2 <> VNone.
Proof.
  unfold missing_required_fields. simpl.
  destruct v1, v2; simpl; try discriminate; split; discriminate.
Qed.

(** The pipeline score over [pre], the four gate envelopes the verdict gate
    reads and the verdict envelope itself, equals the verdict gate's own
    score, when the envelopes of [pre] are not named as gates 2, 3, 4 and
    list no missing inputs. *)
Lemma confidence_agreement g2 g3 g4 g5 g1 pre d2 d3 d4 d5 :
  dict_get g2 "data" = Some (VDict d2) -> dict_get g3 "data" = Some (VDict d3) ->
  dict_get g4 "data" = Some (VDict d4) -> dict_get g5 "data" = Some (VDict d5) ->
  String.prefix "gate 2" (gate_name g2) = true ->
  String.prefix "gate 3" (gate_name g3) = true ->
  String.prefix "gate 4" (gate_name g4) = true ->
  is_number (get d2 "margin_of_safety" VNone) || is_none (get d2 "margin_of_safety" VNone)
    = true ->
  Forall (fun v => exists r, v = VDict r /\
            String.prefix "gate 2" (gate_name r) = false /\
            String.prefix "gate 3" (gate_name r) = false /\
            String.prefix "gate 4" (gate_name r) = false) pre ->
  any_missing pre = Some false ->
  field (aggregate_verdict g2 g3 g4 g5 g1) "status" = Some (VStr "OK") ->
  exists fin c, aggregate_verdict g2 g3 g4 g5 g1 = VDict fin /\
    data_field (VDict fin) "confidence" = Some (VInt c) /\
    compute_pipeline_confidence (pre ++ [VDict g2; VDict g3; VDict g4; VDict g5; VDict fin])
      = Some c.
Proof.
  intros E2 E3 E4 E5 N2 N3 N4 Hmos Hpre Hmpre Hok.
  pose proof (aggregate_verdict_cases g2 g3 g4 g5 g1) as Hc.
  rewrite (extract_gate_parts_dict _ _ E2), (extract_gate_parts_dict _ _ E3),
    (extract_gate_parts_dict _ _ E4), (extract_gate_parts_dict _ _ E5) in Hc.
  destruct Hc as [[_ Hf] | [[_ (e & log & _ & Hf)] | [Hmiss (env & log & Ht & Hf)]]];
    rewrite Hf in Hok |- *; [rewrite error_response_status in Hok; discriminate
                            |rewrite error_response_status in Hok; discriminate|].
  destruct (missing_required_fields_two _ _ _ _ _ Hmiss) as [H3 H4].
  destruct (aggregate_try_confidence _ _ _ _ _ _ _ _ _ _ _ _ Ht)
    as (mos & kdm & log1 & log2 & Hm & Hk & Hconf & Hfin).
  destruct env as [| | | | | |fin]; try discriminate Hfin.
  eexists fin, _. split; [reflexivity|]. split; [exact Hconf|].
  unfold compute_pipeline_confidence.
  destruct (pre ++ _)%list as [|x0 xs] eqn:El; [destruct pre; discriminate|]. rewrite <- El.
  assert (S2 : forall p, In p ["gate 2"; "gate 3"; "gate 4"] ->
             find_gate_data (pre ++ [VDict g2; VDict g3; VDict g4; VDict g5; VDict fin]) p
             = find_gate_data [VDict g2; VDict g3; VDict g4; VDict g5; VDict fin] p).
  { intros p Hp. apply find_gate_data_skip. eapply Forall_impl; [|exact Hpre].
    intros v (r & -> & A & B & C). exists r. split; [reflexivity|].
    simpl in Hp. destruct Hp as [<-|[<-|[<-|[]]]]; assumption. }
  rewrite (S2 "gate 2"), (S2 "gate 3"), (S2 "gate 4") by (simpl; tauto).
  rewrite (find_gate_data_hit _ _ _ _ N2 E2).
  rewrite find_gate_data_miss
    by exact (prefix_exclusive "gate 2" "gate 3" _ eq_refl ltac:(discriminate) N2).
  rewrite (find_gate_data_hit _ _ _ _ N3 E3).
  rewrite find_gate_data_miss
    by exact (prefix_exclusive "gate 2" "gate 4" _ eq_refl ltac:(discriminate) N2).
  rewrite find_gate_data_miss
    by exact (prefix_exclusive "gate 3" "gate 4" _ eq_refl ltac:(discriminate) N3).
  rewrite (find_gate_data_hit _ _ _ _ N4 E4).
  rewrite (any_missing_app _ _ Hmpre).
  change (any_missing [VDict g2; VDict g3; VDict g4; VDict g5; VDict fin])
    with (any_missing (map VDict [g2; g3; g4; g5] ++ [VDict fin])).
  rewrite (any_missing_diag [g2; g3; g4; g5] [VDict fin] _ _ _ Hk Hfin).
  rewrite (get_present d4 "risk_level" (VStr "") (VStr "UNDETERMINED") H4).
  rewrite (get_present d3 "classification" (VStr "") (VStr "NO_RELEVANT_DATA_FOUND") H3).
  unfold deterministic_confidence, clamp_confidence.
  destruct Hm as [[Hv ->] | (q & l0 & l & Hq & ->)].
  - rewrite Hv. reflexivity.
  - destruct (get d2 "margin_of_safety" VNone) eqn:Hv; try discriminate Hq; try discriminate Hmos;
      rewrite (py_float_number _ _ _ _ Hq eq_refl); reflexivity.
Qed.

(** A run of the pipeline on the valuation scenario above, with the business
    context gate reporting that the risk factors were not found. *)
Definition fetch_ok (data : dict) : dict :=
  [("status", VStr "OK"); ("data", VDict data)].

Definition sample_identity : dict :=
  env_dict (ok_response "Gate 0 – Identity Resolution"
              [("ticker", VStr "ACME"); ("cik", VStr "0000000001")]
              ["company_input"] 100 "ACME resolved" None None).

Definition sample_gate1 : dict :=
  env_dict (ok_response "Gate 1 – Business Context"
              [("business_summary", VStr "Regional retailer")]
              ["business_description"; "risk_factors"] 60 "Business context analysed"
              None (Some ["risk_factors"])).

Definition sample_run : collaborators :=
  mk_collaborators sample_identity
    (fetch_ok [("net_income", VFloat 100); ("free_cashflow", VFloat 80);
               ("total_debt", VFloat 50); ("cash", VFloat 70);
               ("shares_outstanding", VFloat 10)])
    (Some sample_gate1)
    (fetch_ok [("market_price", VFloat 5); ("volatility", VFloat (10 # 100));
               ("max_drawdown", VFloat (10 # 100));
               ("correlation_index", VFloat (10 # 100))])
    (fetch_ok [("interest_rate", VFloat (2 # 100)); ("credit_stress", VStr "LOW")])
    (sample_gate3 (VStr "NEUTRAL")) (sample_gate4 "LOW").

Definition run_confidences (co : collaborators) : option (string * Z * option pyval) :=
  option_map (fun r => (pr_status r, pr_confidence r,
                        match pr_final r with
                        | Some fin => data_field (VDict fin) "confidence"
                        | None => None
                        end))
    (run_pipeline 10 (30 # 100) no_supervisor no_sizing_agent co).

(** C9 (counterexample): on a completed run whose business-context envelope
    lists a missing input, the pipeline confidence is 50 while the verdict
    gate's confidence is 60. *)
Lemma pipeline_confidence_counts_business_context :
  run_confidences sample_run = Some ("OK"%string, 50%Z, Some (VInt 60)).
Proof. vm_compute. reflexivity. Qed.

Lemma as_dict_inv v d : as_dict v = Some d -> v = VDict d.
Proof. destruct v; simpl; intro H; try discriminate. injection H as ->. reflexivity. Qed.

(** Every dict the valuation gate returns is named as gate 2, carries a data
    dict, and reports a margin of safety that is a float or [None]. *)
Lemma inr_pair_inv {A B} (a b : B) (l l' : list Q) :
  ((inr a : A + B), l) = (inr b, l') -> a = b.
Proof. intro H. injection H as <- _. reflexivity. Qed.

Lemma ok_response_inv gate data iu c ol bc mi e :
  ok_response gate data iu c ol bc mi = VDict e ->
  gate_name e = lower gate /\ dict_get e "data" = Some (VDict data).
Proof. intro H. injection H as <-. split; reflexivity. Qed.

Lemma gate2_name_prefix : String.prefix "gate 2" (lower GATE2_NAME) = true.
Proof. reflexivity. Qed.

Lemma calculate_valuation_envelope V R sup mp ni fcf td c so g2 :
  calculate_valuation V R sup mp ni fcf td c so = VDict g2 ->
  String.prefix "gate 2" (gate_name g2) = true /\
  exists d2, dict_get g2 "data" = Some (VDict d2) /\
    is_number (get d2 "margin_of_safety" VNone) || is_none (get d2 "margin_of_safety" VNone)
      = true.
Proof.
  unfold calculate_valuation, calculate_valuation_run. cbv zeta.
  destruct (missing_required_fields _) as [|m ms].
  2:{ intro H. injection H as <-. split; [reflexivity|]. eexists; split; reflexivity. }
  destruct mp as [mp|], ni as [ni|], td as [td|], c as [c|], so as [so|];
    cbv beta iota; try (intro H; discriminate H).
  destruct (Qle_bool so 0).
  { intro H. injection H as <-. split; [reflexivity|]. eexists; split; reflexivity. }
  destruct (run_try (valuation_try V R sup mp ni fcf td c so)) as [[e|env] log] eqn:Ht.
  { intro H. injection H as <-. split; [reflexivity|]. eexists; split; reflexivity. }
  cbn [fst]. intro H. subst env.
  unfold run_try, valuation_try_ref, bind, py_div, ret in Ht. cbv beta iota zeta in Ht.
  destruct (Qeq_bool so 0); [discriminate Ht|].
  set (ip := fig_intrinsic_equity (valuation_figures V R ni fcf td c) / so) in *.
  destruct (Qle_bool ip 0).
  - apply inr_pair_inv, ok_response_inv in Ht. destruct Ht as [-> Hd].
    split; [exact gate2_name_prefix|]. eexists; split; [exact Hd|reflexivity].
  - destruct (Qeq_bool ip 0); [discriminate Ht|].
    destruct (Qle_bool (fig_required_margin_used (valuation_figures V R ni fcf td c))
                ((ip - mp) / ip)); cbv beta iota in Ht;
      [|destruct (negb (Qeq_bool ip 0))]; apply inr_pair_inv, ok_response_inv in Ht; destruct Ht as [-> Hd];
      (split; [exact gate2_name_prefix|]; eexists; split; [exact Hd|reflexivity]).
Qed.

Lemma skipped_response_inv gate data iu reason mi bc e :
  skipped_response gate data iu reason mi bc = VDict e -> dict_get e "data" = Some (VDict data).
Proof. intro H. injection H as <-. reflexivity. Qed.

(** Every dict the position-sizing gate returns carries a data dict. *)
Lemma calculate_position_size_envelope agent vol dd rate cs corr ur g5 :
  calculate_position_size agent vol dd rate cs corr ur = VDict g5 ->
  exists d5, dict_get g5 "data" = Some (VDict d5).
Proof.
  unfold calculate_position_size. cbv zeta.
  destruct ur; [intro H; eexists; exact (skipped_response_inv _ _ _ _ _ _ _ H)|].
  destruct (missing_required_fields _) as [|m ms];
    [|intro H; eexists; exact (skipped_response_inv _ _ _ _ _ _ _ H)].
  destruct vol as [v|], dd as [d|], rate as [r|], cs as [s|], corr as [c|];
    cbv beta iota; try (intro H; discriminate H).
  destruct (run_try (sizing_try agent v d r s c)) as [[e|env] log] eqn:Ht.
  { intro H. eexists; exact (skipped_response_inv _ _ _ _ _ _ _ H). }
  intro H. subst env.
  unfold run_try, sizing_try_ref, bind, ret in Ht. cbv zeta in Ht.
  destruct (negb (in_list (upper s) VALID_CREDIT_STRESS)).
  { apply inr_pair_inv in Ht. eexists; exact (skipped_response_inv _ _ _ _ _ _ _ Ht). }
  destruct (Qltb 1 r).
  { apply inr_pair_inv in Ht. eexists; exact (skipped_response_inv _ _ _ _ _ _ _ Ht). }
  destruct (macro_factor r (upper s) []) as [[e|fm] l1]; [discriminate Ht|].
  cbv beta iota in Ht.
  destruct (agent _ _ _ _ _ _ _ _) as [[|kv o]|];
    apply inr_pair_inv, ok_response_inv in Ht; destruct Ht as [_ Hd]; eexists; exact Hd.
Qed.

(** The envelopes a run collects before the valuation gate: identity
    resolution and, when it ran, the business-context gate. *)
Definition front_envelopes (co : collaborators) : list dict :=
  identity_result co :: match gate1_result co with Some g1 => [g1] | None => [] end.

Lemma pipeline_error_status s l r : pipeline_error s l = Some r -> pr_status r = "ERROR"%string.
Proof.
  unfold pipeline_error.
  destruct (match l with [] => Some 0%Z | _ => compute_pipeline_confidence l end);
    intro H; [injection H as <-; reflexivity | discriminate H].
Qed.

(** A completed run collected the front envelopes, then the envelopes of the
    gates 2 to 5 and of the verdict gate, and scored that list. *)
Lemma run_pipeline_completed V R sup agent co r :
  run_pipeline V R sup agent co = Some r -> pr_status r = "OK"%string ->
  exists g2 g5 fin gd,
    pr_gate_results r = (map VDict (front_envelopes co)
                         ++ [VDict g2; VDict (gate3_result co); VDict (gate4_result co);
                             VDict g5; VDict fin])%list /\
    (exists mp ni fcf td c so, calculate_valuation V R sup mp ni fcf td c so = VDict g2) /\
    (exists vol dd rate cs corr ur,
        calculate_position_size agent vol dd rate cs corr ur = VDict g5) /\
    aggregate_verdict g2 (gate3_result co) (gate4_result co) g5 gd = VDict fin /\
    is_fatal fin = false /\
    pr_final r = Some fin /\
    compute_pipeline_confidence (pr_gate_results r) = Some (pr_confidence r).
Proof.
  intros H Hs. unfold run_pipeline in H. unfold front_envelopes.
  destruct (gate1_result co) as [g1|] eqn:E1; cbv beta iota zeta in H;
  repeat match type of H with
  | (if ?b then _ else _) = Some _ =>
      let Hb := fresh "Hb" in
      destruct b eqn:Hb;
      [apply pipeline_error_status in H; rewrite H in Hs; discriminate Hs|]
  | match ?o with Some _ => _ | None => None end = Some _ =>
      let Ho := fresh "Ho" in destruct o eqn:Ho; [|discriminate H]
  | Some _ = Some _ => injection H as <-
  end;
  repeat match goal with
  | Ho : as_dict _ = Some _ |- _ => apply as_dict_inv in Ho
  end;
  (eexists _, _, _, _; split; [reflexivity|]; split; [eexists _, _, _, _, _, _; eassumption|];
   split; [eexists _, _, _, _, _, _; eassumption|]; split; [eassumption|];
   split; [eassumption|];
   split; [reflexivity|]; assumption).
Qed.

Lemma error_response_fatal gate code msg iu mi bc e :
  error_response gate code msg iu mi bc = VDict e -> is_fatal e = true.
Proof. intro H. injection H as <-. reflexivity. Qed.

(** A verdict envelope that is not an error answers [OK]. *)
Lemma aggregate_verdict_not_fatal g2 g3 g4 g5 g1 fin :
  aggregate_verdict g2 g3 g4 g5 g1 = VDict fin -> is_fatal fin = false ->
  field (aggregate_verdict g2 g3 g4 g5 g1) "status" = Some (VStr "OK").
Proof.
  intros H Hf. rewrite H.
  pose proof (aggregate_verdict_cases g2 g3 g4 g5 g1) as Hc.
  destruct (extract_gate_parts g2) as [[g2d g2g] s2].
  destruct (extract_gate_parts g3) as [[g3d g3g] s3].
  destruct (extract_gate_parts g4) as [[g4d g4g] s4].
  destruct (extract_gate_parts g5) as [[g5d g5g] st].
  destruct Hc as [[_ E] | [[_ (e & log & _ & E)] | [_ (env & log & Ht & E)]]];
    rewrite E in H.
  - apply error_response_fatal in H. congruence.
  - apply error_response_fatal in H. congruence.
  - rewrite <- H. exact (proj1 (aggregate_try_result _ _ _ _ _ _ _ _ _ _ _ _ _ Ht)).
Qed.

(** An envelope that is not named as gate 2, 3 or 4 and lists no missing
    inputs. *)
Definition quiet_front (g : dict) : bool :=
  negb (String.prefix "gate 2" (gate_name g)) && negb (String.prefix "gate 3" (gate_name g))
  && negb (String.prefix "gate 4" (gate_name g))
  && match any_missing [VDict g] with Some false => true | _ => false end.

Lemma quiet_front_facts l :
  forallb quiet_front l = true ->
  Forall (fun v => exists r, v = VDict r /\
            String.prefix "gate 2" (gate_name r) = false /\
            String.prefix "gate 3" (gate_name r) = false /\
            String.prefix "gate 4" (gate_name r) = false) (map VDict l) /\
  any_missing (map VDict l) = Some false.
Proof.
  induction l as [|g l IH]; [split; [constructor|reflexivity]|].
  simpl forallb. intro H. apply andb_prop in H. destruct H as [Hg Hl].
  destruct (IH Hl) as [IHF IHm]. unfold quiet_front in Hg.
  destruct (String.prefix "gate 2" (gate_name g)) eqn:H2,
    (String.prefix "gate 3" (gate_name g)) eqn:H3,
    (String.prefix "gate 4" (gate_name g)) eqn:H4; try discriminate Hg.
  destruct (any_missing [VDict g]) as [[|]|] eqn:Hm; try discriminate Hg.
  split.
  - constructor; [|exact IHF]. exists g. auto.
  - change (map VDict (g :: l)) with ([VDict g] ++ map VDict l)%list.
    rewrite (any_missing_app _ _ Hm). exact IHm.
Qed.

(** C9 (amended). On every completed run whose market-structure and
    impairment envelopes carry a data dict and are named as gates 3 and 4,
    and whose identity and business-context envelopes are not named as gates
    2, 3 or 4 and list no missing inputs, the pipeline confidence equals the
    confidence the verdict gate computed. *)
Theorem pipeline_confidence_agreement V R sup agent co r d3 d4 :
  run_pipeline V R sup agent co = Some r -> pr_status r = "OK"%string ->
  dict_get (gate3_result co) "data" = Some (VDict d3) ->
  dict_get (gate4_result co) "data" = Some (VDict d4) ->
  String.prefix "gate 3" (gate_name (gate3_result co)) = true ->
  String.prefix "gate 4" (gate_name (gate4_result co)) = true ->
  forallb quiet_front (front_envelopes co) = true ->
  exists fin, pr_final r = Some fin /\
    data_field (VDict fin) "confidence" = Some (VInt (pr_confidence r)).
Proof.
  intros Hrun Hs E3 E4 N3 N4 Hq.
  destruct (run_pipeline_completed _ _ _ _ _ _ Hrun Hs)
    as (g2 & g5 & fin & gd & Hgr & (mp & ni & fcf & td & c & so & Hv)
        & (vol & dd & rate & cs & corr & ur & Hp) & Ha & Hnf & Hfin & Hc).
  destruct (calculate_valuation_envelope _ _ _ _ _ _ _ _ _ _ Hv) as [N2 (d2 & E2 & Hmos)].
  destruct (calculate_position_size_envelope _ _ _ _ _ _ _ _ Hp) as [d5 E5].
  pose proof (aggregate_verdict_not_fatal _ _ _ _ _ _ Ha Hnf) as Hok.
  destruct (quiet_front_facts _ Hq) as [Hpre Hmpre].
  destruct (confidence_agreement _ _ _ _ gd _ _ _ _ _ E2 E3 E4 E5 N2 N3 N4 Hmos Hpre Hmpre Hok)
    as (fin' & c' & Ha' & Hconf & Hcomp).
  rewrite Ha in Ha'. injection Ha' as <-.
  rewrite Hgr in Hc. rewrite Hcomp in Hc. injection Hc as <-.
  exists fin. split; assumption.
Qed.

Lemma pipeline_confidence_agreement_witness :
  exists r fin,
    run_pipeline 10 (30 # 100) no_supervisor no_sizing_agent
      (mk_collaborators (identity_result sample_run) (sec_result sample_run) None
         (polygon_result sample_run) (fred_result sample_run) (gate3_result sample_run)
         (gate4_result sample_run)) = Some r /\
    pr_status r = "OK"%string /\ pr_final r = Some fin /\
    data_field (VDict fin) "confidence" = Some (VInt (pr_confidence r)).
Proof.
  destruct (run_pipeline 10 (30 # 100) no_supervisor no_sizing_agent
      (mk_collaborators (identity_result sample_run) (sec_result sample_run) None
         (polygon_result sample_run) (fred_result sample_run) (gate3_result sample_run)
         (gate4_result sample_run))) as [r|] eqn:Hr;
    [|vm_compute in Hr; discriminate Hr].
  assert (Hs : pr_status r = "OK"%string).
  { pose proof (f_equal (option_map pr_status) Hr) as E. vm_compute in E.
    injection E as E. symmetry. exact E. }
  destruct (pipeline_confidence_agreement _ _ _ _ _ _ _ _ Hr Hs
              ltac:(reflexivity) ltac:(reflexivity) ltac:(reflexivity) ltac:(reflexivity)
              ltac:(reflexivity)) as (fin & H1 & H2).
  exists r, fin. split; [reflexivity|]. split; [exact Hs|]. split; assumption.
Defined.

(* ========================================================================= *)
(** * Further properties of the gates and the pipeline *)

(* ------------------------------------------------------------------------- *)
(** ** Further properties of the scores *)

Lemma deterministic_confidence_bounds mos risk ms kdm :
  let c := deterministic_confidence mos risk ms kdm in
  (30 <= c <= 80)%Z /\ Z.modulo c 10 = 0%Z.
Proof.
  unfold deterministic_confidence.
  destruct mos as [m|]; [destruct (Qltb m (-1))|];
    destruct (String.eqb risk "LOW"), (String.eqb ms "HEADWIND"), kdm;
    vm_compute; repeat split; discriminate.
Qed.

(** X1: The verdict gate's deterministic score is one of 30, 40, ..., 80: the
    clamp to [0, 100] never changes it. *)
Theorem deterministic_confidence_range mos risk ms kdm :
  let c := deterministic_confidence mos risk ms kdm in
  (30 <= c <= 80)%Z /\ Z.modulo c 10 = 0%Z.
Proof. exact (deterministic_confidence_bounds mos risk ms kdm). Qed.

Lemma compute_pipeline_confidence_bounds l c :
  compute_pipeline_confidence l = Some c ->
  (l = [] /\ c = 0%Z) \/ (l <> [] /\ (30 <= c <= 80)%Z /\ Z.modulo c 10 = 0%Z).
Proof.
  destruct l as [|v vs]; intro H.
  - left. injection H as <-. split; reflexivity.
  - right. split; [discriminate|].
    unfold compute_pipeline_confidence in H.
    destruct (find_gate_data (v :: vs) "gate 2") as [g2|]; [|discriminate H].
    destruct (find_gate_data (v :: vs) "gate 3") as [g3|]; [|discriminate H].
    destruct (find_gate_data (v :: vs) "gate 4") as [g4|]; [|discriminate H].
    destruct (any_missing (v :: vs)) as [kdm|]; [|discriminate H].
    injection H as <-. unfold clamp_confidence.
    destruct (number_below_minus_one _),
      (String.eqb (upper (py_str (get g4 "risk_level" (VStr "")))) "LOW"),
      (String.eqb (upper (py_str (get g3 "classification" (VStr "")))) "HEADWIND"), kdm;
      vm_compute; repeat split; discriminate.
Qed.

(** X2: The pipeline score is 0 on an empty result list and otherwise one of 30,
    40, ..., 80. *)
Theorem compute_pipeline_confidence_range l c :
  compute_pipeline_confidence l = Some c ->
  (l = [] /\ c = 0%Z) \/ (l <> [] /\ (30 <= c <= 80)%Z /\ Z.modulo c 10 = 0%Z).
Proof. exact (compute_pipeline_confidence_bounds l c). Qed.

Lemma compute_pipeline_confidence_range_witness :
  compute_pipeline_confidence [] = Some 0%Z /\
  (([] : list pyval) = [] /\ 0%Z = 0%Z \/
   ([] : list pyval) <> [] /\ (30 <= 0 <= 80)%Z /\ Z.modulo 0 10 = 0%Z).
Proof.
  split; [reflexivity|]. apply compute_pipeline_confidence_range. reflexivity.
Defined.

(* ------------------------------------------------------------------------- *)
(** ** Rounding *)

Lemma round_half_even_cases y :
  let f := Qfloor y in
  let r := y - inject_Z f in
  (r < 1 # 2 /\ round_half_even y = f) \/
  (1 # 2 < r /\ round_half_even y = (f + 1)%Z) \/
  (r == 1 # 2 /\ round_half_even y = if Z.even f then f else (f + 1)%Z).
Proof.
  cbv zeta. unfold round_half_even, Qltb. cbv zeta.
  destruct (Qle_bool (1 # 2) (y - inject_Z (Qfloor y))) eqn:E1; simpl negb; cbv iota.
  - apply Qle_bool_iff in E1.
    destruct (Qle_bool (y - inject_Z (Qfloor y)) (1 # 2)) eqn:E2; simpl negb; cbv iota.
    + apply Qle_bool_iff in E2. right; right. split; [lra|reflexivity].
    + right; left. split; [|reflexivity].
      apply Qnot_le_lt. intro H. apply Qle_bool_iff in H. congruence.
  - left. split; [|reflexivity].
    apply Qnot_le_lt. intro H. apply Qle_bool_iff in H. congruence.
Qed.

Lemma round_half_even_floor y :
  (Qfloor y <= round_half_even y <= Qfloor y + 1)%Z.
Proof.
  destruct (round_half_even_cases y) as [[_ ->]|[[_ ->]|[_ ->]]];
    [|lia|destruct (Z.even (Qfloor y))]; lia.
Qed.

Lemma round_half_even_mono x y : x <= y -> (round_half_even x <= round_half_even y)%Z.
Proof.
  intro Hxy.
  pose proof (Qfloor_resp_le _ _ Hxy) as Hf.
  pose proof (round_half_even_floor x) as Bx.
  pose proof (round_half_even_floor y) as By.
  destruct (Z.lt_ge_cases (Qfloor x) (Qfloor y)) as [Hlt|Hge]; [lia|].
  assert (Heq : Qfloor x = Qfloor y) by lia.
  assert (Hr : x - inject_Z (Qfloor x) <= y - inject_Z (Qfloor y)) by (rewrite Heq; lra).
  destruct (round_half_even_cases x) as [[Rx ->]|[[Rx ->]|[Rx ->]]];
  destruct (round_half_even_cases y) as [[Ry ->]|[[Ry ->]|[Ry ->]]];
    try lia; try lra.
  all: rewrite Heq; destruct (Z.even (Qfloor y)); lia.
Qed.

Lemma round_float_mono x y d : x <= y -> round_float x d <= round_float y d.
Proof.
  intro H. unfold round_float.
  assert (Hp : 0 <= inject_Z (Zpos (pow10 d))) by discriminate.
  pose proof (round_half_even_mono _ _ (Qmult_le_compat_r _ _ _ H Hp)) as M.
  unfold Qle; simpl. nia.
Qed.

Lemma round_half_even_int y z : y == inject_Z z -> round_half_even y = z.
Proof.
  intro H. unfold round_half_even, Qltb.
  assert (Hf : Qfloor y = z).
  { apply Z.le_antisymm.
    - rewrite <- (Qfloor_Z z). apply Qfloor_resp_le. rewrite H. apply Qle_refl.
    - rewrite <- (Qfloor_Z z). apply Qfloor_resp_le. rewrite H. apply Qle_refl. }
  rewrite Hf.
  assert (Hr : Qle_bool (1 # 2) (y - inject_Z z) = false)
    by (apply Qle_bool_false; rewrite H; lra).
  rewrite Hr. reflexivity.
Qed.

Lemma round_float_round v d : round_float (round_float v d) d = round_float v d.
Proof.
  unfold round_float.
  rewrite (round_half_even_int _ (round_half_even (v * inject_Z (Zpos (pow10 d)))));
    [reflexivity|].
  unfold Qeq, Qmult; simpl. lia.
Qed.

(* ------------------------------------------------------------------------- *)
(** ** Position sizing: the factor bands *)

Lemma Qle_bool_cases x y : (Qle_bool x y = true /\ x <= y) \/ (Qle_bool x y = false /\ y < x).
Proof.
  destruct (Qle_bool x y) eqn:E.
  - left. split; [reflexivity|apply Qle_bool_iff; exact E].
  - right. split; [reflexivity|].
    apply Qnot_le_lt. intro H. apply Qle_bool_iff in H. congruence.
Qed.

Ltac band_cases x :=
  repeat match goal with
  | |- context [Qle_bool x ?t] =>
      let E := fresh "E" in let H := fresh "H" in
      destruct (Qle_bool_cases x t) as [[E H]|[E H]]; rewrite E
  end.

(** A band function of the sizing gate: its value for a larger input is not
    larger, and it lies in [0.55, 1]. *)
Definition band_antitone (f : Q -> Q) : Prop :=
  forall x y, x <= y -> f y <= f x /\ 55 # 100 <= f y /\ f y <= 1.

Lemma volatility_factor_antitone : band_antitone volatility_factor.
Proof.
  intros x y Hxy. unfold volatility_factor. band_cases x; band_cases y; lra.
Qed.

Lemma drawdown_factor_antitone : band_antitone drawdown_factor.
Proof.
  intros x y Hxy. unfold drawdown_factor. band_cases x; band_cases y; lra.
Qed.

Lemma correlation_factor_antitone : band_antitone correlation_factor.
Proof.
  intros x y Hxy. unfold correlation_factor. band_cases x; band_cases y; lra.
Qed.

(** The rate band of [_macro_factor]. *)
Lemma macro_factor_value r s log :
  (assoc_q credit_factors s = None /\ macro_factor r s log = (inl KeyError, log)) \/
  (exists cf fm, assoc_q credit_factors s = Some cf /\ macro_factor r s log = (inr fm, log) /\
     70 # 100 <= cf <= 1 /\
     fm = py_min (if Qle_bool r (3 # 100) then 1
                  else if Qle_bool r (5 # 100) then 90 # 100
                  else if Qle_bool r (7 # 100) then 80 # 100
                  else 70 # 100) cf).
Proof.
  unfold macro_factor.
  unfold credit_factors, assoc_q.
  destruct (String.eqb s "LOW"); [right; eexists _, _; split; [reflexivity|];
                                  split; [reflexivity|]; split; [lra|reflexivity]|].
  destruct (String.eqb s "MEDIUM"); [right; eexists _, _; split; [reflexivity|];
                                  split; [reflexivity|]; split; [lra|reflexivity]|].
  destruct (String.eqb s "HIGH"); [right; eexists _, _; split; [reflexivity|];
                                  split; [reflexivity|]; split; [lra|reflexivity]|].
  left. split; reflexivity.
Qed.

Lemma py_min_mono a b a' b' : a <= a' -> b <= b' -> py_min a b <= py_min a' b'.
Proof.
  intros Ha Hb.
  destruct (py_min_cases a b) as (_ & H1 & H2).
  destruct (py_min_cases a' b') as ([E|E] & _ & _); rewrite E; lra.
Qed.

Lemma py_max_cases a b :
  (py_max a b = a \/ py_max a b = b) /\ a <= py_max a b /\ b <= py_max a b.
Proof.
  unfold py_max, Qltb. destruct (Qle_bool_cases b a) as [[E H]|[E H]]; rewrite E; simpl.
  - split; [left; reflexivity|split; lra].
  - split; [right; reflexivity|split; lra].
Qed.

Lemma py_max_mono a b a' b' : a <= a' -> b <= b' -> py_max a b <= py_max a' b'.
Proof.
  intros Ha Hb.
  destruct (py_max_cases a' b') as (_ & H1 & H2).
  destruct (py_max_cases a b) as ([E|E] & _ & _); rewrite E; lra.
Qed.

Lemma macro_factor_antitone r1 r2 s fm1 fm2 :
  r1 <= r2 ->
  macro_factor r1 s [] = (inr fm1, []) -> macro_factor r2 s [] = (inr fm2, []) ->
  fm2 <= fm1 /\ 0 < fm2.
Proof.
  intros Hr E1 E2.
  destruct (macro_factor_value r1 s []) as [[_ F1]|(cf & fm1' & C1 & F1 & Hcf & ->)];
    rewrite F1 in E1; [discriminate E1|].
  destruct (macro_factor_value r2 s []) as [[C _]|(cf' & fm2' & C2 & F2 & _ & ->)];
    [congruence|].
  rewrite F2 in E2. rewrite C1 in C2. injection C2 as <-.
  injection E1 as <-. injection E2 as <-.
  split.
  - apply py_min_mono; [|apply Qle_refl].
    band_cases r1; band_cases r2; lra.
  - destruct (py_min_cases (if Qle_bool r2 (3 # 100) then 1
                            else if Qle_bool r2 (5 # 100) then 90 # 100
                            else if Qle_bool r2 (7 # 100) then 80 # 100
                            else 70 # 100) cf) as ([E|E] & _ & _); rewrite E;
      [band_cases r2|]; lra.
Qed.

Lemma band_pos f x : band_antitone f -> 0 < f x.
Proof. intro H. destruct (H x x (Qle_refl x)) as (_ & H1 & _). lra. Qed.

(** The clamped size [max(1.0, min(10 * factors, 10.0))] grows with each of
    the four factors. *)
Lemma sizing_product_mono fv fd fc fm fv' fd' fc' fm' :
  0 < fv' -> 0 < fd' -> 0 < fc' -> 0 < fm' ->
  fv' <= fv -> fd' <= fd -> fc' <= fc -> fm' <= fm ->
  py_max 1 (py_min (10 * fv' * fd' * fc' * fm') 10)
    <= py_max 1 (py_min (10 * fv * fd * fc * fm) 10).
Proof.
  intros P1 P2 P3 P4 H1 H2 H3 H4.
  apply py_max_mono; [apply Qle_refl|]. apply py_min_mono; [|apply Qle_refl].
  assert (A : 10 * fv' <= 10 * fv) by lra.
  assert (B : 10 * fv' * fd' <= 10 * fv * fd).
  { apply (Qle_trans _ (10 * fv * fd')).
    - apply Qmult_le_compat_r; lra.
    - rewrite !(Qmult_comm (10 * fv)). apply Qmult_le_compat_r; lra. }
  assert (C : 10 * fv' * fd' * fc' <= 10 * fv * fd * fc).
  { apply (Qle_trans _ (10 * fv * fd * fc')).
    - apply Qmult_le_compat_r; [exact B|lra].
    - rewrite !(Qmult_comm (10 * fv * fd)). apply Qmult_le_compat_r; [exact H3|].
      apply (Qle_trans _ (10 * fv' * fd')); [|exact B].
      apply Qmult_le_0_compat; [|lra]. apply Qmult_le_0_compat; lra. }
  apply (Qle_trans _ (10 * fv * fd * fc * fm')).
  - apply Qmult_le_compat_r; [exact C|lra].
  - rewrite !(Qmult_comm (10 * fv * fd * fc)). apply Qmult_le_compat_r; [exact H4|].
    apply (Qle_trans _ (10 * fv' * fd' * fc')); [|exact C].
    apply Qmult_le_0_compat; [|lra]. apply Qmult_le_0_compat; [|lra].
    apply Qmult_le_0_compat; lra.
Qed.

(** X9: Riskier inputs never give a larger position: on the computation path,
    raising the volatility, the drawdown, the correlation or the rate (with
    the same credit-stress level) does not raise the reported size. *)
Theorem position_size_antitone agent v1 v2 d1 d2 r1 r2 c1 c2 cs
  (Hcs : in_list (upper cs) VALID_CREDIT_STRESS = true) (Hr2 : r2 <= 1)
  (Hv : v1 <= v2) (Hd : d1 <= d2) (Hc : c1 <= c2) (Hr : r1 <= r2) :
  exists p1 p2,
    data_field (calculate_position_size agent (Some v1) (Some d1) (Some r1) (Some cs) (Some c1)
                  false) "maximum_position_size" = Some (VFloat p1) /\
    data_field (calculate_position_size agent (Some v2) (Some d2) (Some r2) (Some cs) (Some c2)
                  false) "maximum_position_size" = Some (VFloat p2) /\
    p2 <= p1.
Proof.
  assert (Hr1 : r1 <= 1) by lra.
  destruct (macro_factor_ok r1 _ Hcs) as [fm1 M1].
  destruct (macro_factor_ok r2 _ Hcs) as [fm2 M2].
  destruct (sizing_try_ok agent v1 d1 r1 cs c1 fm1 Hcs Hr1 M1) as (e1 & T1 & _ & P1 & _).
  destruct (sizing_try_ok agent v2 d2 r2 cs c2 fm2 Hcs Hr2 M2) as (e2 & T2 & _ & P2 & _).
  rewrite (calculate_position_size_try _ _ _ _ _ _ _ _ T1),
    (calculate_position_size_try _ _ _ _ _ _ _ _ T2).
  rewrite P1, P2. unfold round_val. eexists _, _. split; [reflexivity|]. split; [reflexivity|].
  apply round_float_mono.
  destruct (macro_factor_antitone _ _ _ _ _ Hr M1 M2) as [Fm Pm].
  destruct (volatility_factor_antitone _ _ Hv) as (Fv & _).
  destruct (drawdown_factor_antitone _ _ Hd) as (Fd & _).
  destruct (correlation_factor_antitone _ _ Hc) as (Fc & _).
  apply sizing_product_mono; try assumption.
  - apply (band_pos _ _ volatility_factor_antitone).
  - apply (band_pos _ _ drawdown_factor_antitone).
  - apply (band_pos _ _ correlation_factor_antitone).
Qed.

(* ------------------------------------------------------------------------- *)
(** ** Position sizing never fails *)

Lemma position_size_status agent vol dd rate cs corr ur :
  exists g5, calculate_position_size agent vol dd rate cs corr ur = VDict g5 /\
    (dict_get g5 "status" = Some (VStr "OK") \/ dict_get g5 "status" = Some (VStr "SKIPPED")).
Proof.
  assert (Sk : forall gate data iu reason mi bc,
             exists g, skipped_response gate data iu reason mi bc = VDict g /\
               (dict_get g "status" = Some (VStr "OK") \/
                dict_get g "status" = Some (VStr "SKIPPED")))
    by (intros; eexists; split; [reflexivity|right; reflexivity]).
  unfold calculate_position_size. cbv zeta.
  destruct ur; [apply Sk|].
  destruct vol as [v|], dd as [d|], rate as [r|], cs as [s|], corr as [c|];
    cbv beta iota; try apply Sk.
  simpl missing_required_fields. cbv iota.
  destruct (run_try (sizing_try agent v d r s c)) as [[e|env] log] eqn:Ht; [apply Sk|].
  unfold run_try, sizing_try_ref, bind, ret in Ht. cbv zeta in Ht.
  destruct (negb (in_list (upper s) VALID_CREDIT_STRESS)).
  { apply inr_pair_inv in Ht. subst env. apply Sk. }
  destruct (Qltb 1 r).
  { apply inr_pair_inv in Ht. subst env. apply Sk. }
  destruct (macro_factor r (upper s) []) as [[e|fm] l1]; [discriminate Ht|].
  cbv beta iota in Ht.
  destruct (agent _ _ _ _ _ _ _ _) as [[|kv o]|];
    apply inr_pair_inv in Ht; subst env; eexists; split; try reflexivity; left; reflexivity.
Qed.

(** X10: The position-sizing gate always returns an envelope, and its status is
    [OK] or [SKIPPED], never [ERROR]: every internal failure is reported as a
    skip. *)
Theorem calculate_position_size_never_error agent vol dd rate cs corr ur :
  exists g5, calculate_position_size agent vol dd rate cs corr ur = VDict g5 /\
    (dict_get g5 "status" = Some (VStr "OK") \/ dict_get g5 "status" = Some (VStr "SKIPPED")).
Proof. exact (position_size_status agent vol dd rate cs corr ur). Qed.

(* ------------------------------------------------------------------------- *)
(** ** Valuation: price, pass and band *)

(** X11: A lower market price never turns a passing valuation into a failing
    one. *)
Theorem valuation_pass_price_antitone V R sup mp1 mp2 ni fcf td c so
  (Hso : 0 < so) (Hmp : mp1 <= mp2) :
  data_field (calculate_valuation V R sup (Some mp2) (Some ni) fcf (Some td) (Some c) (Some so))
    "pass" = Some (VBool true) ->
  data_field (calculate_valuation V R sup (Some mp1) (Some ni) fcf (Some td) (Some c) (Some so))
    "pass" = Some (VBool true).
Proof.
  intro Hp.
  destruct (calculate_valuation_run_ok V R sup mp2 ni fcf td c so Hso) as (e2 & l2 & A2 & B2).
  destruct (calculate_valuation_run_ok V R sup mp1 ni fcf td c so Hso) as (e1 & l1 & A1 & B1).
  unfold calculate_valuation_ref in *. rewrite A2 in Hp. rewrite A1. simpl fst in *.
  destruct (valuation_try_result _ _ _ _ _ _ _ _ _ _ _ _ _ eq_refl eq_refl B2)
    as (_ & _ & _ & _ & _ & _ & _ & _ & I2 & P2).
  destruct (valuation_try_result _ _ _ _ _ _ _ _ _ _ _ _ _ eq_refl eq_refl B1)
    as (_ & _ & _ & _ & _ & _ & _ & _ & _ & P1).
  set (ip := fig_intrinsic_equity (valuation_figures V R ni fcf td c) / so) in *.
  destruct (Qle_bool ip 0) eqn:Hip.
  - destruct (I2 eq_refl) as (_ & _ & Hf & _). congruence.
  - destruct (P2 eq_refl) as (_ & _ & Hf & _). rewrite Hf in Hp. injection Hp as Hp.
    destruct (P1 eq_refl) as (_ & _ & Hg & _). rewrite Hg. do 2 f_equal.
    apply Qle_bool_iff. apply Qle_bool_iff in Hp.
    apply (Qle_trans _ _ _ Hp). unfold Qdiv. apply Qmult_le_compat_r; [lra|].
    apply Qinv_le_0_compat. apply Qlt_le_weak. apply Qle_bool_false_pos. exact Hip.
Qed.

Lemma valuation_pass_price_antitone_witness :
  data_field (calculate_valuation 10 (30 # 100) no_supervisor (Some 8) (Some 12) None
                (Some 0) (Some 0) (Some 1)) "pass" = Some (VBool true) /\
  data_field (calculate_valuation 10 (30 # 100) no_supervisor (Some 5) (Some 12) None
                (Some 0) (Some 0) (Some 1)) "pass" = Some (VBool true).
Proof.
  assert (H : data_field (calculate_valuation 10 (30 # 100) no_supervisor (Some 8) (Some 12)
                None (Some 0) (Some 0) (Some 1)) "pass" = Some (VBool true))
    by (vm_compute; reflexivity).
  split; [exact H|].
  apply (valuation_pass_price_antitone 10 (30 # 100) no_supervisor 5 8 12 None 0 0 1);
    [reflexivity|discriminate|exact H].
Defined.

Lemma required_margin_nonneg V R ni fcf td c :
  0 <= R -> 0 <= fig_required_margin_used (valuation_figures V R ni fcf td c).
Proof.
  intro HR. unfold valuation_figures_ref. destruct (owner_earnings_of ni fcf) as [oe src].
  unfold valuation_policy. destruct (Qle_bool (td - c) 0); simpl; [|exact HR].
  destruct (py_max_cases (20 # 100) (R - (5 # 100))) as (_ & H & _). lra.
Qed.

(** X12: With a non-negative configured margin, a passing valuation is in band
    [FAIR] or [DEEP_VALUE]: it is never [EXPENSIVE] or [IMPAIRED]. *)
Theorem valuation_pass_band V R sup mp ni fcf td c so (HR : 0 <= R) (Hso : 0 < so) :
  let env := calculate_valuation V R sup (Some mp) (Some ni) fcf (Some td) (Some c) (Some so) in
  data_field env "pass" = Some (VBool true) ->
  data_field env "valuation_band" = Some (VStr "FAIR") \/
  data_field env "valuation_band" = Some (VStr "DEEP_VALUE").
Proof.
  cbv zeta. intro Hp.
  destruct (calculate_valuation_run_ok V R sup mp ni fcf td c so Hso) as (e & l & A & B).
  unfold calculate_valuation_ref in *. rewrite A in Hp |- *. simpl fst in *.
  destruct (valuation_try_result _ _ _ _ _ _ _ _ _ _ _ _ _ eq_refl eq_refl B)
    as (_ & _ & _ & _ & _ & _ & _ & _ & I & P).
  pose proof (required_margin_nonneg V R ni fcf td c HR) as Hrm.
  set (ip := fig_intrinsic_equity (valuation_figures V R ni fcf td c) / so) in *.
  destruct (Qle_bool ip 0) eqn:Hip.
  - destruct (I eq_refl) as (_ & _ & Hf & _). congruence.
  - destruct (P eq_refl) as (_ & _ & Hf & _ & Hb). rewrite Hf in Hp. injection Hp as Hp.
    apply Qle_bool_iff in Hp. rewrite Hb. unfold valuation_band.
    destruct (Qle_bool_cases (50 # 100) ((ip - mp) / ip)) as [[E _]|[E _]]; rewrite E;
      [right; reflexivity|].
    rewrite (Qle_bool_true 0 _ (Qle_trans _ _ _ Hrm Hp)). left. reflexivity.
Qed.

Lemma valuation_pass_band_witness :
  data_field (calculate_valuation 10 (30 # 100) no_supervisor (Some 8) (Some 12) None
                (Some 0) (Some 0) (Some 1)) "pass" = Some (VBool true) /\
  (data_field (calculate_valuation 10 (30 # 100) no_supervisor (Some 8) (Some 12) None
                (Some 0) (Some 0) (Some 1)) "valuation_band" = Some (VStr "FAIR") \/
   data_field (calculate_valuation 10 (30 # 100) no_supervisor (Some 8) (Some 12) None
                (Some 0) (Some 0) (Some 1)) "valuation_band" = Some (VStr "DEEP_VALUE")).
Proof.
  assert (H : data_field (calculate_valuation 10 (30 # 100) no_supervisor (Some 8) (Some 12)
                None (Some 0) (Some 0) (Some 1)) "pass" = Some (VBool true))
    by (vm_compute; reflexivity).
  split; [exact H|].
  exact (valuation_pass_band 10 (30 # 100) no_supervisor 8 12 None 0 0 1
           ltac:(discriminate) ltac:(reflexivity) H).
Defined.

(** X13: The displayed margin of safety: at most -100% shows the text
    [< -100% (Very expensive)], at least 100% shows [> 100%], and a value
    strictly between is shown with its own percent label (the bounds at -5
    and 5 never reach the label). *)
Theorem display_margin_of_safety_caps m :
  (m <= -1 -> display_margin_of_safety (Some m) = VStr "< -100% (Very expensive)") /\
  (1 <= m -> display_margin_of_safety (Some m) = VStr "> 100%") /\
  (-1 < m -> m < 1 ->
     display_margin_of_safety (Some m) = VStr (format_decimal_with_percent_label m)).
Proof.
  unfold display_margin_of_safety. split; [|split].
  - intro H. destruct (Qle_bool_cases (-5) m) as [[_ H5]|[_ H5]].
    + rewrite (py_max_le m (-5) H5), (py_min_le m 5) by lra.
      rewrite (Qle_bool_true _ _ H). reflexivity.
    + rewrite (py_max_lt m (-5) H5), (py_min_le (-5) 5) by lra. reflexivity.
  - intro H. rewrite (py_max_le m (-5)) by lra.
    destruct (Qle_bool_cases m 5) as [[_ H5]|[_ H5]].
    + rewrite (py_min_le m 5 H5), (Qle_bool_false m (-1)), (Qle_bool_true 1 m H) by lra.
      reflexivity.
    + rewrite (py_min_lt m 5 H5). reflexivity.
  - intros H1 H2. rewrite (py_max_le m (-5)), (py_min_le m 5) by lra.
    rewrite (Qle_bool_false m (-1) H1), (Qle_bool_false 1 m H2). reflexivity.
Qed.

(* ------------------------------------------------------------------------- *)
(** ** The verdict envelope *)

Lemma data_field_ok_response gate data iu c ol bc mi k :
  data_field (ok_response gate data iu c ol bc mi) k = dict_get data k.
Proof. reflexivity. Qed.

Lemma field_ok_response_confidence gate data iu c ol bc mi :
  field (ok_response gate data iu c ol bc mi) "confidence" = Some (VInt (clamp_confidence c)).
Proof. reflexivity. Qed.

Lemma data_field_error_response gate code msg iu mi bc k :
  data_field (error_response gate code msg iu mi bc) k = None.
Proof. reflexivity. Qed.

Lemma dict_get_app (d1 d2 : dict) k :
  dict_get (d1 ++ d2)%list k = match dict_get d1 k with Some v => Some v | None => dict_get d2 k end.
Proof.
  induction d1 as [|[k' v'] d1 IH]; [reflexivity|]. simpl.
  destruct (String.eqb k k'); [reflexivity|exact IH].
Qed.

(** X14: The verdict carries [max_position_size] only for an [INVEST] verdict,
    and then it is gate 5's numeric [maximum_position_size] rounded to one
    decimal. *)
Theorem aggregate_verdict_max_position_size g2 g3 g4 g5 g1 x :
  data_field (aggregate_verdict g2 g3 g4 g5 g1) "max_position_size" = Some x ->
  data_field (aggregate_verdict g2 g3 g4 g5 g1) "verdict" = Some (VStr "INVEST") /\
  is_number (get (gate_data g5) "maximum_position_size" VNone) = true /\
  x = round_val (number_to_q (get (gate_data g5) "maximum_position_size" VNone)) 1.
Proof.
  pose proof (aggregate_verdict_cases g2 g3 g4 g5 g1) as Hc.
  unfold gate_data.
  destruct (extract_gate_parts g2) as [[g2d g2g] s2].
  destruct (extract_gate_parts g3) as [[g3d g3g] s3].
  destruct (extract_gate_parts g4) as [[g4d g4g] s4].
  destruct (extract_gate_parts g5) as [[g5d g5g] st].
  simpl fst.
  destruct Hc as [[_ ->] | [[_ (e & log & _ & ->)] | [_ (env & log & Ht & ->)]]];
    try (rewrite data_field_error_response; discriminate).
  unfold aggregate_try in Ht. peel Ht.
  destruct (verdict_rule _ _) as [verdict setup] eqn:Hv.
  peel Ht. apply ret_inv in Ht. destruct Ht as [-> _].
  rewrite !data_field_ok_response. cbv zeta.
  match goal with
  | |- dict_get (if ?b then (?res ++ _)%list else ?res) _ = _ -> _ =>
      destruct b eqn:Hb; [rewrite dict_get_app|]
  end;
  (match goal with
   | |- dict_get ?res "max_position_size" = _ -> _ =>
       let E := fresh "E" in
       assert (E : dict_get res "max_position_size" = None) by reflexivity; rewrite E
   | |- match dict_get ?res "max_position_size" with _ => _ end = _ -> _ =>
       let E := fresh "E" in
       assert (E : dict_get res "max_position_size" = None) by reflexivity; rewrite E
   end); [|discriminate].
  intro H. simpl in H. injection H as <-.
  apply andb_prop in Hb. destruct Hb as [Hi Hb]. apply andb_prop in Hb. destruct Hb as [_ Hn].
  apply String.eqb_eq in Hi. subst verdict.
  split; [|split; [exact Hn|reflexivity]].
  rewrite dict_get_app. reflexivity.
Qed.

(** X15: An [OK] verdict envelope reports one confidence: the envelope's
    [confidence], the data's [confidence] and [confidence_score] (the same
    value over 100, rounded to 2 decimals) agree, and it is one of 30, 40,
    ..., 80. *)
Theorem aggregate_verdict_confidence_fields g2 g3 g4 g5 g1 :
  field (aggregate_verdict g2 g3 g4 g5 g1) "status" = Some (VStr "OK") ->
  exists c,
    field (aggregate_verdict g2 g3 g4 g5 g1) "confidence" = Some (VInt c) /\
    data_field (aggregate_verdict g2 g3 g4 g5 g1) "confidence" = Some (VInt c) /\
    data_field (aggregate_verdict g2 g3 g4 g5 g1) "confidence_score"
      = Some (round_val (inject_Z c / 100) 2) /\
    (30 <= c <= 80)%Z /\ Z.modulo c 10 = 0%Z.
Proof.
  pose proof (aggregate_verdict_cases g2 g3 g4 g5 g1) as Hc.
  destruct (extract_gate_parts g2) as [[g2d g2g] s2].
  destruct (extract_gate_parts g3) as [[g3d g3g] s3].
  destruct (extract_gate_parts g4) as [[g4d g4g] s4].
  destruct (extract_gate_parts g5) as [[g5d g5g] st].
  destruct Hc as [[_ ->] | [[_ (e & log & _ & ->)] | [_ (env & log & Ht & ->)]]];
    try (rewrite error_response_status; discriminate).
  intros _.
  unfold aggregate_try in Ht. peel Ht.
  destruct (verdict_rule _ _) as [verdict setup] eqn:Hv.
  peel Ht. apply ret_inv in Ht. destruct Ht as [-> _].
  rewrite !data_field_ok_response. cbv zeta.
  match goal with
  | |- context [deterministic_confidence ?m ?r ?s ?k] =>
      set (c := deterministic_confidence m r s k);
      pose proof (deterministic_confidence_bounds m r s k) as Hb; cbv zeta in Hb; fold c in Hb
  end.
  exists c.
  assert (Hcl : clamp_confidence c = c) by (unfold clamp_confidence; lia).
  destruct (andb _ _); (split; [rewrite field_ok_response_confidence, Hcl; reflexivity|]);
    (split; [rewrite ?dict_get_app; reflexivity|]);
    (split; [rewrite ?dict_get_app; reflexivity|exact Hb]).
Qed.

(* ------------------------------------------------------------------------- *)
(** ** The pipeline: where it stops and what it scores *)

Lemma snoc_not_nil (l : list pyval) x : (l ++ [x])%list <> [].
Proof. destruct l; discriminate. Qed.

Lemma pipeline_error_inv s l r :
  pipeline_error s l = Some r -> l <> [] ->
  pr_status r = "ERROR" /\ pr_failed_stage r = Some s /\ pr_gate_results r = l /\
  compute_pipeline_confidence l = Some (pr_confidence r).
Proof.
  unfold pipeline_error. intros H Hl. destruct l as [|v vs]; [contradiction|].
  destruct (compute_pipeline_confidence (v :: vs)) eqn:E; [|discriminate H].
  injection H as <-. repeat split; assumption.
Qed.

Ltac not_nil := first [discriminate | apply snoc_not_nil].

(** Every response of a run: the gate results are not empty and scored, and
    the run either completed or stopped at one of the fatal checks, which
    never include the position-sizing stage. *)
Lemma run_pipeline_shape V R sup agent co r :
  run_pipeline V R sup agent co = Some r ->
  pr_gate_results r <> [] /\
  compute_pipeline_confidence (pr_gate_results r) = Some (pr_confidence r) /\
  ((pr_status r = "OK" /\ pr_failed_stage r = None) \/
   (pr_status r = "ERROR" /\ exists s, pr_failed_stage r = Some s /\
      In s ["identity"; "sec"; "polygon"; "fred"; "gate2"; "gate3"; "gate4"; "final"])).
Proof.
  intros H. unfold run_pipeline in H.
  destruct (gate1_result co) as [g1|]; cbv beta iota zeta in H;
  repeat match type of H with
  | (if ?b then _ else _) = Some _ =>
      let Hb := fresh "Hb" in
      destruct b eqn:Hb;
      [apply pipeline_error_inv in H; [|not_nil];
       destruct H as (Hs & Hf & Hg & Hc);
       first
         [ (rewrite Hg; split; [not_nil|]; split; [exact Hc|];
            right; split; [exact Hs|]; eexists; split; [exact Hf|]; simpl; tauto)
         | exfalso;
           match goal with
           | Ho : as_dict (calculate_position_size ?a ?v ?d ?rt ?c ?o ?u) = Some ?g,
             Hb' : is_fatal ?g = true |- _ =>
               destruct (position_size_status a v d rt c o u) as (g' & E & S);
               rewrite E in Ho; injection Ho as <-; unfold is_fatal in Hb';
               destruct S as [S|S]; rewrite S in Hb'; discriminate Hb'
           end ]
      |]
  | match ?o with Some _ => _ | None => None end = Some _ =>
      let Ho := fresh "Ho" in destruct o eqn:Ho; [|discriminate H]
  | Some _ = Some _ => injection H as <-
  end;
  (simpl pr_gate_results; simpl pr_confidence; simpl pr_status; simpl pr_failed_stage;
   split; [not_nil|]; split; [eassumption|]; left; split; reflexivity).
Qed.

(** X17: A run stops at a fatal stage with status [ERROR] and that stage's name,
    or completes with status [OK]; it never stops at the position-sizing
    stage. *)
Theorem run_pipeline_failed_stage V R sup agent co r :
  run_pipeline V R sup agent co = Some r ->
  (pr_status r = "OK" /\ pr_failed_stage r = None) \/
  (pr_status r = "ERROR" /\ exists s, pr_failed_stage r = Some s /\
     In s ["identity"; "sec"; "polygon"; "fred"; "gate2"; "gate3"; "gate4"; "final"]).
Proof. intro H. exact (proj2 (proj2 (run_pipeline_shape _ _ _ _ _ _ H))). Qed.

(** X18: Every response of a run, completed or stopped, carries a pipeline
    confidence of 30, 40, ..., 80. *)
Theorem run_pipeline_confidence_range V R sup agent co r :
  run_pipeline V R sup agent co = Some r ->
  (30 <= pr_confidence r <= 80)%Z /\ Z.modulo (pr_confidence r) 10 = 0%Z.
Proof.
  intro H. destruct (run_pipeline_shape _ _ _ _ _ _ H) as (Hne & Hc & _).
  destruct (compute_pipeline_confidence_bounds _ _ Hc) as [[E _]|(_ & B & M)];
    [contradiction|exact (conj B M)].
Qed.

(** A completed run, with the sizing decision it took. *)
Lemma run_pipeline_completed_sizing V R sup agent co r :
  run_pipeline V R sup agent co = Some r -> pr_status r = "OK"%string ->
  exists g2 g5 fin gd ur vol dd rate cs corr,
    pr_gate_results r = (map VDict (front_envelopes co)
                         ++ [VDict g2; VDict (gate3_result co); VDict (gate4_result co);
                             VDict g5; VDict fin])%list /\
    (exists mp ni fcf td c so, calculate_valuation V R sup mp ni fcf td c so = VDict g2) /\
    should_suppress_sizing g2 (gate4_result co) = Some ur /\
    calculate_position_size agent vol dd rate cs corr ur = VDict g5 /\
    aggregate_verdict g2 (gate3_result co) (gate4_result co) g5 gd = VDict fin /\
    is_fatal fin = false /\
    pr_final r = Some fin.
Proof.
  intros H Hs. unfold run_pipeline in H. unfold front_envelopes.
  destruct (gate1_result co) as [g1|] eqn:E1; cbv beta iota zeta in H;
  repeat match type of H with
  | (if ?b then _ else _) = Some _ =>
      let Hb := fresh "Hb" in
      destruct b eqn:Hb;
      [apply pipeline_error_status in H; rewrite H in Hs; discriminate Hs|]
  | match ?o with Some _ => _ | None => None end = Some _ =>
      let Ho := fresh "Ho" in destruct o eqn:Ho; [|discriminate H]
  | Some _ = Some _ => injection H as <-
  end;
  repeat match goal with
  | Ho : as_dict _ = Some _ |- _ => apply as_dict_inv in Ho
  end;
  (eexists _, _, _, _, _, _, _, _, _, _; split; [reflexivity|];
   split; [eexists _, _, _, _, _, _; eassumption|];
   split; [eassumption|]; split; [eassumption|]; split; [eassumption|];
   split; [eassumption|]; reflexivity).
Qed.

(** X19: In a completed run, a gate 2 result whose [pass] and [passes] are both
    falsy makes gate 5 return the fixed upstream-reject skip and the verdict
    REJECT, while a passing one lets gate 5 compute (no upstream reject). *)
Theorem pipeline_valuation_gates_sizing V R sup agent co r :
  run_pipeline V R sup agent co = Some r -> pr_status r = "OK"%string ->
  exists g2 d2 g5 fin,
    pr_gate_results r = (map VDict (front_envelopes co)
                         ++ [VDict g2; VDict (gate3_result co); VDict (gate4_result co);
                             VDict g5; VDict fin])%list /\
    dict_get g2 "data" = Some (VDict d2) /\ pr_final r = Some fin /\
    (valuation_pass_of d2 = false ->
       VDict g5 = skipped_response GATE5_NAME (skipped_data UPSTREAM_REJECT_REASON)
                    sizing_inputs_used UPSTREAM_REJECT_REASON None (Some "NOT_APPLICABLE") /\
       data_field (VDict fin) "verdict" = Some (VStr "REJECT")) /\
    (valuation_pass_of d2 = true ->
       exists vol dd rate cs corr,
         calculate_position_size agent vol dd rate cs corr false = VDict g5).
Proof.
  intros H Hs.
  destruct (run_pipeline_completed_sizing _ _ _ _ _ _ H Hs)
    as (g2 & g5 & fin & gd & ur & vol & dd & rate & cs & corr
        & Hgr & (mp & ni & fcf & td & c & so & Hv) & Hsup & Hp & Ha & Hnf & Hfin).
  destruct (calculate_valuation_envelope _ _ _ _ _ _ _ _ _ _ Hv) as [_ (d2 & E2 & _)].
  exists g2, d2, g5, fin.
  unfold should_suppress_sizing, get in Hsup. rewrite E2 in Hsup. injection Hsup as <-.
  split; [exact Hgr|]. split; [exact E2|]. split; [exact Hfin|]. split.
  - intro Hf. rewrite Hf in Hp. simpl negb in Hp. split; [symmetry; exact Hp|].
    pose proof (aggregate_verdict_not_fatal _ _ _ _ _ _ Ha Hnf) as Hok.
    destruct (aggregate_verdict_ok _ _ _ _ _ Hok) as (_ & Hverd & _).
    rewrite Ha in Hverd. rewrite Hverd.
    unfold valuation_signal, gate_data. rewrite (extract_gate_parts_dict _ _ E2).
    simpl fst. rewrite Hf. reflexivity.
  - intro Ht. rewrite Ht in Hp. exists vol, dd, rate, cs, corr. exact Hp.
Qed.

(* ------------------------------------------------------------------------- *)
(** ** Rounding, as the gates use it *)

(** X4: Rounding an already rounded value to the same number of decimals
    changes nothing. *)
Theorem round_float_idempotent v d : round_float (round_float v d) d = round_float v d.
Proof. exact (round_float_round v d). Qed.

(** X5: Rounding preserves the order of values. *)
Theorem round_float_monotone x y d : x <= y -> round_float x d <= round_float y d.
Proof. exact (round_float_mono x y d). Qed.

Lemma round_float_monotone_witness :
  1 # 3 <= 1 # 2 /\ round_float (1 # 3) 2 <= round_float (1 # 2) 2.
Proof.
  split; [vm_compute; discriminate|].
  apply (round_float_monotone (1 # 3) (1 # 2) 2). vm_compute. discriminate.
Defined.

(* ------------------------------------------------------------------------- *)
(** ** Position sizing *)

Lemma bind_step {A B} (m : PyM A) (k : A -> PyM B) log a log1 :
  m log = (inr a, log1) -> bind m k log = k a log1.
Proof. intro H. unfold bind. rewrite H. reflexivity. Qed.

(** X6: The volatility, drawdown and correlation bands never grow with their
    input and take values in [0.55, 1]. *)
Theorem sizing_factor_bands :
  band_antitone volatility_factor /\ band_antitone drawdown_factor /\
  band_antitone correlation_factor.
Proof.
  exact (conj volatility_factor_antitone
           (conj drawdown_factor_antitone correlation_factor_antitone)).
Qed.

(** X7: [_macro_factor] raises [KeyError] on a credit-stress level other than
    LOW, MEDIUM, HIGH (compared exactly), and otherwise returns a factor in
    [0.70, 1]. *)
Theorem macro_factor_credit_stress r s log :
  (in_list s VALID_CREDIT_STRESS = false -> macro_factor r s log = (inl KeyError, log)) /\
  (in_list s VALID_CREDIT_STRESS = true ->
     exists fm, macro_factor r s log = (inr fm, log) /\ 70 # 100 <= fm /\ fm <= 1).
Proof.
  assert (Hrate : forall cf, 70 # 100 <= cf -> cf <= 1 ->
            let fm := py_min (if Qle_bool r (3 # 100) then 1
                              else if Qle_bool r (5 # 100) then 90 # 100
                              else if Qle_bool r (7 # 100) then 80 # 100
                              else 70 # 100) cf in
            70 # 100 <= fm /\ fm <= 1).
  { intros cf H1 H2. cbv zeta.
    destruct (py_min_cases (if Qle_bool r (3 # 100) then 1
                            else if Qle_bool r (5 # 100) then 90 # 100
                            else if Qle_bool r (7 # 100) then 80 # 100
                            else 70 # 100) cf) as ([E|E] & _ & _); rewrite E;
      [band_cases r|]; lra. }
  unfold in_list, VALID_CREDIT_STRESS, macro_factor, credit_factors.
  cbn [existsb assoc_q orb].
  destruct (String.eqb s "LOW"); cbv iota;
    [split; [discriminate|intros _; eexists; split; [reflexivity|apply Hrate; lra]]|].
  destruct (String.eqb s "MEDIUM"); cbv iota;
    [split; [discriminate|intros _; eexists; split; [reflexivity|apply Hrate; lra]]|].
  destruct (String.eqb s "HIGH"); cbv iota;
    [split; [discriminate|intros _; eexists; split; [reflexivity|apply Hrate; lra]]|].
  split; [reflexivity|discriminate].
Qed.

(** X8: The [try] block of the sizing gate never raises: its internal-error skip
    is never taken. *)
Theorem sizing_try_never_raises agent v d r cs c :
  exists env, sizing_try agent v d r cs c [] = (inr env, []).
Proof.
  unfold sizing_try_ref. cbv zeta.
  destruct (in_list (upper cs) VALID_CREDIT_STRESS) eqn:Hcs; cbn [negb];
    [|eexists; reflexivity].
  destruct (Qltb 1 r); [eexists; reflexivity|].
  destruct (macro_factor_ok r _ Hcs) as [fm Hm].
  rewrite (bind_step _ _ _ _ _ Hm). eexists. reflexivity.
Qed.

Lemma position_size_antitone_witness :
  exists p1 p2,
    data_field (calculate_position_size no_sizing_agent (Some (10 # 100)) (Some (10 # 100))
                  (Some (2 # 100)) (Some "low") (Some (10 # 100)) false)
      "maximum_position_size" = Some (VFloat p1) /\
    data_field (calculate_position_size no_sizing_agent (Some (60 # 100)) (Some (50 # 100))
                  (Some (8 # 100)) (Some "low") (Some (90 # 100)) false)
      "maximum_position_size" = Some (VFloat p2) /\
    p2 <= p1.
Proof.
  apply (position_size_antitone no_sizing_agent (10 # 100) (60 # 100) (10 # 100) (50 # 100)
           (2 # 100) (8 # 100) (10 # 100) (90 # 100) "low");
    first [reflexivity | vm_compute; discriminate].
Defined.

(* ------------------------------------------------------------------------- *)
(** ** The verdict gate *)

Lemma any_diag_missing_total diags log :
  Forall (fun g => exists d, g = VDict d) diags ->
  exists b, any_diag_missing diags log = (inr b, log).
Proof.
  intro H. induction H as [|g gs (d & ->) _ IH]; [eexists; reflexivity|].
  simpl. unfold bind, py_get, ret. destruct (truthy _); [eexists; reflexivity|exact IH].
Qed.

Lemma is_none_false v : v <> VNone -> is_none v = false.
Proof. destruct v; try reflexivity. intro H; contradiction. Qed.

Lemma aggregate_try_total g2d g2g g3d g3g g4d g4g g5d g5g st g1 :
  is_number (get g2d "margin_of_safety" VNone) || is_none (get g2d "margin_of_safety" VNone)
    = true ->
  Forall (fun g => exists d, g = VDict d) [g2g; g3g; g4g; g5g] ->
  exists env log, aggregate_try g2d g2g g3d g3g g4d g4g g5d g5g st g1 [] = (inr env, log).
Proof.
  intros Hm Hd. unfold aggregate_try.
  assert (M : exists mos,
             (match get g2d "margin_of_safety" VNone with
              | VNone => ret None
              | v => let* q := py_float v in ret (Some q)
              end) [] = (inr mos, [])).
  { destruct (get g2d "margin_of_safety" VNone); try discriminate Hm; eexists; reflexivity. }
  destruct M as [mos M]. rewrite (bind_step _ _ _ _ _ M). cbv beta.
  destruct (verdict_rule _ _) as [verdict setup].
  destruct (any_diag_missing_total _ [] Hd) as [b B].
  rewrite (bind_step _ _ _ _ _ B). eexists _, _. reflexivity.
Qed.

(** X16: The verdict gate answers [OK] whenever its required fields are present
    (a classification, a risk level, and [pass] or [passes]), the margin of
    safety is [None] or a number and the four diagnostics are dicts: its
    internal-error answer needs a malformed input. *)
Theorem aggregate_verdict_answers_ok g2 g3 g4 g5 g1
  (H3 : get (gate_data g3) "classification" VNone <> VNone)
  (H4 : get (gate_data g4) "risk_level" VNone <> VNone)
  (H2 : get (gate_data g2) "pass" VNone <> VNone \/ get (gate_data g2) "passes" VNone <> VNone)
  (Hm : is_number (get (gate_data g2) "margin_of_safety" VNone)
        || is_none (get (gate_data g2) "margin_of_safety" VNone) = true)
  (Hd : Forall (fun g => exists d, g = VDict d) (map gate_diagnostics [g2; g3; g4; g5])) :
  field (aggregate_verdict g2 g3 g4 g5 g1) "status" = Some (VStr "OK").
Proof.
  pose proof (aggregate_verdict_cases g2 g3 g4 g5 g1) as Hc.
  cbn [map] in Hd. unfold gate_data, gate_diagnostics in *.
  destruct (extract_gate_parts g2) as [[g2d g2g] s2].
  destruct (extract_gate_parts g3) as [[g3d g3g] s3].
  destruct (extract_gate_parts g4) as [[g4d g4g] s4].
  destruct (extract_gate_parts g5) as [[g5d g5g] st].
  simpl fst in *. simpl snd in Hd.
  assert (A : andb (is_none (get g2d "pass" VNone)) (is_none (get g2d "passes" VNone)) = false)
    by (destruct H2 as [H|H]; rewrite (is_none_false _ H); [reflexivity|apply andb_false_r]).
  rewrite A in Hc. unfold missing_required_fields in Hc. cbn [app filter snd] in Hc.
  rewrite (is_none_false _ H3), (is_none_false _ H4) in Hc. cbn [map] in Hc.
  destruct (aggregate_try_total g2d g2g g3d g3g g4d g4g g5d g5g st g1 Hm Hd)
    as (env & log & Ht).
  destruct Hc as [[Hne _] | [[_ (e & log' & He & _)] | [_ (env' & log' & Ht' & ->)]]].
  - contradiction.
  - rewrite Ht in He. discriminate He.
  - exact (proj1 (aggregate_try_result _ _ _ _ _ _ _ _ _ _ _ _ _ Ht')).
Qed.

Lemma aggregate_verdict_answers_ok_witness :
  field (aggregate_verdict sample_gate2 (sample_gate3 (VStr "NEUTRAL")) (sample_gate4 "LOW")
           sample_gate5 None) "status" = Some (VStr "OK").
Proof.
  apply aggregate_verdict_answers_ok;
    first [ (vm_compute; discriminate)
          | (left; vm_compute; discriminate)
          | reflexivity
          | (repeat constructor; eexists; reflexivity) ].
Defined.

Lemma aggregate_verdict_max_position_size_witness :
  exists x,
    data_field (aggregate_verdict sample_gate2 (sample_gate3 (VStr "NEUTRAL"))
                  (sample_gate4 "LOW") sample_gate5 None) "max_position_size" = Some x /\
    data_field (aggregate_verdict sample_gate2 (sample_gate3 (VStr "NEUTRAL"))
                  (sample_gate4 "LOW") sample_gate5 None) "verdict" = Some (VStr "INVEST").
Proof.
  destruct (data_field (aggregate_verdict sample_gate2 (sample_gate3 (VStr "NEUTRAL"))
                          (sample_gate4 "LOW") sample_gate5 None) "max_position_size")
    as [x|] eqn:E; [|vm_compute in E; discriminate E].
  exists x. split; [reflexivity|].
  exact (proj1 (aggregate_verdict_max_position_size _ _ _ _ _ _ E)).
Defined.

Lemma aggregate_verdict_confidence_fields_witness :
  exists c,
    field (aggregate_verdict sample_gate2 (sample_gate3 (VStr "HEADWIND"))
             (sample_gate4 "LOW") sample_gate5 None) "confidence" = Some (VInt c) /\
    (30 <= c <= 80)%Z.
Proof.
  destruct (aggregate_verdict_confidence_fields sample_gate2 (sample_gate3 (VStr "HEADWIND"))
              (sample_gate4 "LOW") sample_gate5 None ltac:(vm_compute; reflexivity))
    as (c & H1 & _ & _ & H2 & _).
  exists c. split; assumption.
Defined.

(* ------------------------------------------------------------------------- *)
(** ** The pipeline *)

(** The sample run with a market price of 200, above the intrinsic price:
    the valuation fails. *)
Definition failing_run : collaborators :=
  mk_collaborators (identity_result sample_run) (sec_result sample_run)
    (gate1_result sample_run)
    (fetch_ok [("market_price", VFloat 200); ("volatility", VFloat (10 # 100));
               ("max_drawdown", VFloat (10 # 100));
               ("correlation_index", VFloat (10 # 100))])
    (fred_result sample_run) (gate3_result sample_run) (gate4_result sample_run).

Lemma run_pipeline_failed_stage_witness :
  exists r,
    run_pipeline 10 (30 # 100) no_supervisor no_sizing_agent sample_run = Some r /\
    ((pr_status r = "OK" /\ pr_failed_stage r = None) \/
     (pr_status r = "ERROR" /\ exists s, pr_failed_stage r = Some s /\
        In s ["identity"; "sec"; "polygon"; "fred"; "gate2"; "gate3"; "gate4"; "final"])).
Proof.
  destruct (run_pipeline 10 (30 # 100) no_supervisor no_sizing_agent sample_run) as [r|] eqn:Hr;
    [|vm_compute in Hr; discriminate Hr].
  exists r. split; [reflexivity|]. exact (run_pipeline_failed_stage _ _ _ _ _ _ Hr).
Defined.

Lemma run_pipeline_confidence_range_witness :
  exists r,
    run_pipeline 10 (30 # 100) no_supervisor no_sizing_agent failing_run = Some r /\
    (30 <= pr_confidence r <= 80)%Z.
Proof.
  destruct (run_pipeline 10 (30 # 100) no_supervisor no_sizing_agent failing_run) as [r|] eqn:Hr;
    [|vm_compute in Hr; discriminate Hr].
  exists r. split; [reflexivity|]. exact (proj1 (run_pipeline_confidence_range _ _ _ _ _ _ Hr)).
Defined.

Lemma pipeline_valuation_gates_sizing_witness :
  exists r fin,
    run_pipeline 10 (30 # 100) no_supervisor no_sizing_agent failing_run = Some r /\
    pr_status r = "OK" /\ pr_final r = Some fin.
Proof.
  destruct (run_pipeline 10 (30 # 100) no_supervisor no_sizing_agent failing_run) as [r|] eqn:Hr;
    [|vm_compute in Hr; discriminate Hr].
  assert (Hs : pr_status r = "OK"%string).
  { pose proof (f_equal (option_map pr_status) Hr) as E. vm_compute in E.
    injection E as E. symmetry. exact E. }
  destruct (pipeline_valuation_gates_sizing _ _ _ _ _ _ Hr Hs)
    as (g2 & d2 & g5 & fin & _ & _ & Hfin & _).
  exists r, fin. split; [reflexivity|]. split; [exact Hs|exact Hfin].
Defined.
